(** * incus-osd: the systemd-networkd configuration engine and the system
      action endpoint

    Shallow embedding of [incus-osd/internal/rest/api_system.go] (the HTTP
    handler [apiSystem] of package [rest], followed by the networkd code of
    package [systemd]) and verification of the properties its specification
    states about it.

    Conventions of the embedding:
    - Go [string] is [string]; Go [int] is [Z] (no arithmetic is performed on
      the integers involved, they are only compared, sorted and printed);
      slices are lists; a pointer that may be [nil] is an [option].
    - [fmt.Sprintf] with [%s]/[%d] verbs is written as the concatenation it
      denotes, [NL] being the line feed of the Go raw string literals.
    - Functions of the Go standard library keep their qualified names
      ([strings.Contains], [slices.Sort], ...). *)

From Stdlib Require Import ZArith List String Ascii Bool Lia.
From Stdlib Require Import DecimalString Sorted Permutation.
Import ListNotations.

Open Scope Z_scope.
Open Scope list_scope.
Open Scope string_scope.

(** The line feed character, as a one-character string. *)
Definition NL : string := String "010"%char EmptyString.

(* ================================================================== *)
(** ** The parts of the Go standard library the code relies on *)
(* ================================================================== *)

Module strings.

(** [strings.HasPrefix(s, prefix)]. *)
Definition HasPrefix (s p : string) : bool := String.prefix p s.

(** [strings.Contains(s, substr)]: [substr] occurs at some offset of [s]. *)
Fixpoint Contains (s substr : string) : bool :=
  if String.prefix substr s then true
  else match s with
       | EmptyString => false
       | String _ s' => Contains s' substr
       end.

(** [strings.Join(elems, sep)]. *)
Fixpoint Join (elems : list string) (sep : string) : string :=
  match elems with
  | [] => ""
  | x :: tl =>
      match tl with
      | [] => x
      | _ :: _ => x ++ sep ++ Join tl sep
      end
  end.

(** [strings.ReplaceAll(s, old, new)] for a non-empty [old] (the code only
    calls it with [old = ":"]): non-overlapping occurrences, left to right.
    [skip] counts the characters of the occurrence being replaced that are
    still to be dropped. *)
Fixpoint replaceFrom (skip : nat) (s old new : string) : string :=
  match s with
  | EmptyString => EmptyString
  | String c s' =>
      match skip with
      | S k => replaceFrom k s' old new
      | O =>
          if String.prefix old s
          then new ++ replaceFrom (String.length old - 1) s' old new
          else String c (replaceFrom 0 s' old new)
      end
  end.

Definition ReplaceAll (s old new : string) : string := replaceFrom 0 s old new.

(** [strings.ToLower] on the ASCII range, where it maps [A-Z] to [a-z] and
    leaves every other byte alone.  Hardware addresses are ASCII. *)
Definition lowerAscii (c : ascii) : ascii :=
  let n := nat_of_ascii c in
  if (Nat.leb 65 n && Nat.leb n 90)%bool then ascii_of_nat (n + 32) else c.

Fixpoint ToLower (s : string) : string :=
  match s with
  | EmptyString => EmptyString
  | String c s' => String (lowerAscii c) (ToLower s')
  end.

End strings.

Module strconv.

(** [strconv.FormatBool]. *)
Definition FormatBool (b : bool) : string := if b then "true" else "false".

(** Base-10 rendering of an integer, as the [%d] verb prints it. *)
Definition FormatInt (x : Z) : string := NilEmpty.string_of_int (Z.to_int x).

End strconv.

Module slices.

(** [slices.Sort] on [[]int].  The order on integers is total, so the
    result of any correct sort is the same list: the ascending arrangement
    of the input.  It is computed here by insertion. *)
Fixpoint insert (x : Z) (l : list Z) : list Z :=
  match l with
  | [] => [x]
  | y :: tl => if (x <=? y)%Z then x :: l else y :: insert x tl
  end.

Fixpoint Sort (l : list Z) : list Z :=
  match l with
  | [] => []
  | x :: tl => insert x (Sort tl)
  end.

(** [slices.Compact]: every run of consecutive equal elements is replaced
    by its first element.  [compactFrom prev l] is the loop of the Go
    implementation, [prev] being the element before the current one. *)
Fixpoint compactFrom (prev : Z) (l : list Z) : list Z :=
  match l with
  | [] => []
  | x :: tl => if (x =? prev)%Z then compactFrom x tl else x :: compactFrom x tl
  end.

Definition Compact (l : list Z) : list Z :=
  match l with
  | [] => []
  | x :: tl => x :: compactFrom x tl
  end.

End slices.

(* ================================================================== *)
(** ** Data model (package [api])

    The type declarations of package [api] are not part of the sources at
    hand; the records below carry exactly the fields the code reads, with
    the types their uses impose.  The proxy settings are only ever handed
    to [UpdateEnvironment], so their type is left as a parameter. *)
(* ================================================================== *)

Module Route.
Record t := { To : string; Via : string }.
End Route.

Module Interface.
Record t := {
  Name : string;
  Hwaddr : string;
  MTU : Z;
  Addresses : list string;
  Routes : list Route.t;
  VLAN : Z;
  VLANTags : list Z;
  LLDP : bool;
  RequiredForOnline : string
}.
End Interface.

Module Bond.
Record t := {
  Name : string;
  Hwaddr : string;
  Members : list string;
  Mode : string;
  MTU : Z;
  Addresses : list string;
  Routes : list Route.t;
  VLAN : Z;
  VLANTags : list Z;
  LLDP : bool;
  RequiredForOnline : string
}.
End Bond.

Module VLAN.
Record t := {
  Name : string;
  ID : Z;
  Parent : string;
  MTU : Z;
  Addresses : list string;
  Routes : list Route.t;
  RequiredForOnline : string
}.
End VLAN.

Module DNS.
Record t := {
  Hostname : string;
  Domain : string;
  SearchDomains : list string;
  Nameservers : list string
}.
End DNS.

Module NTP.
Record t := { Timeservers : list string }.
End NTP.

Module Config.
Record t {SystemNetworkProxy : Type} := {
  Interfaces : list Interface.t;
  Bonds : list Bond.t;
  VLANs : list VLAN.t;
  DNS : option DNS.t;
  NTP : option NTP.t;
  Proxy : option SystemNetworkProxy
}.
Arguments t : clear implicits.
End Config.

(* ================================================================== *)
(** ** The unit file generator (package [systemd], pure part) *)
(* ================================================================== *)

(** [networkdConfigFile] represents a given filename and its contents. *)
Record networkdConfigFile := { Name : string; Contents : string }.

(** [processAddresses]: the addressing directives of a [[Network]] section.
    The loop over the addresses both appends to [ret] and sets the three
    flags; [addressLoop] returns the four of them. *)
Fixpoint addressLoop (addresses : list string)
    (ret : string) (hasDHCP4 hasDHCP6 acceptIPv6RA : bool)
    : string * bool * bool * bool :=
  match addresses with
  | [] => (ret, hasDHCP4, hasDHCP6, acceptIPv6RA)
  | addr :: rest =>
      if addr =? "dhcp4" then addressLoop rest ret true hasDHCP6 acceptIPv6RA
      else if addr =? "dhcp6" then addressLoop rest ret hasDHCP4 true acceptIPv6RA
      else if addr =? "slaac" then addressLoop rest ret hasDHCP4 hasDHCP6 true
      else addressLoop rest (ret ++ "Address=" ++ addr ++ NL)
                       hasDHCP4 hasDHCP6 acceptIPv6RA
  end.

Definition processAddresses (addresses : list string) : string :=
  let ret := "" in
  let ret :=
    if negb (Nat.eqb (List.length addresses) 0)
    then ret ++ "LinkLocalAddressing=ipv6" ++ NL
    else (ret ++ "LinkLocalAddressing=no" ++ NL)
           ++ "ConfigureWithoutCarrier=yes" ++ NL in
  let '(ret, hasDHCP4, hasDHCP6, acceptIPv6RA) :=
    addressLoop addresses ret false false false in
  let ret :=
    if acceptIPv6RA
    then ret ++ "IPv6AcceptRA=true" ++ NL
    else ret ++ "IPv6AcceptRA=false" ++ NL in
  if (hasDHCP4 && hasDHCP6)%bool then ret ++ "DHCP=yes" ++ NL
  else if hasDHCP4 then ret ++ "DHCP=ipv4" ++ NL
  else if hasDHCP6 then ret ++ "DHCP=ipv6" ++ NL
  else ret.

(** [processRoutes]. *)
Fixpoint processRoutes (routes : list Route.t) : string :=
  match routes with
  | [] => ""
  | route :: rest =>
      (NL ++ "[Route]" ++ NL)
      ++ (if Route.Via route =? "dhcp4" then "Gateway=_dhcp4" ++ NL
          else if Route.Via route =? "slaac" then "Gateway=_ipv6ra" ++ NL
          else "Gateway=" ++ Route.Via route ++ NL)
      ++ ("Destination=" ++ Route.To route ++ NL)
      ++ processRoutes rest
  end.

(** [generateNetworkSectionContents]; a [nil] slice of VLANs is the empty
    list. *)
Definition generateNetworkSectionContents (name : string)
    (vlans : list VLAN.t) (dns : option DNS.t) (ntp : option NTP.t) : string :=
  let ret := "" in
  (* Add any matching VLANs to the config. *)
  let ret :=
    fold_left
      (fun ret v =>
         if VLAN.Parent v =? name then ret ++ "VLAN=" ++ VLAN.Name v ++ NL
         else ret)
      vlans ret in
  (* If there are search domains or name servers, add those to the config. *)
  let ret :=
    match dns with
    | Some dns =>
        let ret :=
          if Nat.ltb 0 (List.length (DNS.SearchDomains dns))
          then ret ++ "Domains=" ++ strings.Join (DNS.SearchDomains dns) " " ++ NL
          else ret in
        fold_left (fun ret ns => ret ++ "DNS=" ++ ns ++ NL)
                  (DNS.Nameservers dns) ret
    | None => ret
    end in
  (* If there are time servers defined, add them to the config. *)
  match ntp with
  | Some ntp =>
      fold_left (fun ret ts => ret ++ "NTP=" ++ ts ++ NL)
                (NTP.Timeservers ntp) ret
  | None => ret
  end.

(** [generateTimesyncContents]. *)
Definition generateTimesyncContents (ntp : NTP.t) : string :=
  if Nat.eqb (List.length (NTP.Timeservers ntp)) 0 then ""
  else ("[Time]" ++ NL ++ "FallbackNTP=")
         ++ strings.Join (NTP.Timeservers ntp) " " ++ NL.

(** The tag list [generateBridgeVLANContents] builds before it prints it:
    the specific tag when configured, the additional tags, the ID of every
    VLAN whose parent is the bridge; sorted, then compacted. *)
Definition bridgeVLANTags (bridgeName : string) (specificVLAN : Z)
    (additionalVLANTags : list Z) (vlans : list VLAN.t) : list Z :=
  let vlanTags := [] in
  (* Add specific VLAN tag, if configured. *)
  let vlanTags :=
    if negb (specificVLAN =? 0)%Z then (vlanTags ++ [specificVLAN])%list
    else vlanTags in
  (* Add any additional VLAN tags. *)
  let vlanTags := (vlanTags ++ additionalVLANTags)%list in
  (* Grab any relevant tags for this bridge from VLAN definitions. *)
  let vlanTags :=
    fold_left
      (fun vlanTags vlan =>
         if VLAN.Parent vlan =? bridgeName
         then (vlanTags ++ [VLAN.ID vlan])%list
         else vlanTags)
      vlans vlanTags in
  (* Sort and remove any duplicate tags. *)
  slices.Compact (slices.Sort vlanTags).

(** [generateBridgeVLANContents]. *)
Definition generateBridgeVLANContents (bridgeName : string) (specificVLAN : Z)
    (additionalVLANTags : list Z) (vlans : list VLAN.t) : string :=
  let vlanTags :=
    bridgeVLANTags bridgeName specificVLAN additionalVLANTags vlans in
  let ret := "" in
  if Nat.ltb 0 (List.length vlanTags) then
    let ret :=
      if negb (specificVLAN =? 0)%Z then
        ((ret ++ NL ++ "[BridgeVLAN]" ++ NL)
           ++ "PVID=" ++ strconv.FormatInt specificVLAN ++ NL)
          ++ "EgressUntagged=" ++ strconv.FormatInt specificVLAN ++ NL
      else ret in
    fold_left
      (fun ret tag =>
         (ret ++ NL ++ "[BridgeVLAN]" ++ NL)
           ++ "VLAN=" ++ strconv.FormatInt tag ++ NL)
      vlanTags ret
  else ret.

(** [generateLinkSectionContents]. *)
Definition generateLinkSectionContents (addresses : list string)
    (requiredForOnline : string) : string :=
  if (Nat.eqb (List.length addresses) 0 || (requiredForOnline =? "no"))%bool
  then "RequiredForOnline=no"
  else
    let requiredForOnline :=
      if requiredForOnline =? "" then "any" else requiredForOnline in
    "RequiredForOnline=yes" ++ NL ++ "RequiredFamilyForOnline="
      ++ requiredForOnline.

(** The normalized device name suffix of a hardware address:
    [strings.ToLower(strings.ReplaceAll(hwaddr, ":", ""))]. *)
Definition strippedHwaddr (hwaddr : string) : string :=
  strings.ToLower (strings.ReplaceAll hwaddr ":" "").

(** [mtuString]: empty unless an MTU is configured. *)
Definition mtuString (mtu : Z) : string :=
  if negb (mtu =? 0)%Z then "MTUBytes=" ++ strconv.FormatInt mtu else "".

Section Generator.

Context {SystemNetworkProxy : Type}.
Local Abbreviation SystemNetworkConfig := (Config.t SystemNetworkProxy).

(** [generateLinkFileContents] generates the contents of systemd.link
    files. *)
Definition interfaceLinkFile (i : Interface.t) : networkdConfigFile :=
  let strippedHwaddr := strippedHwaddr (Interface.Hwaddr i) in
  {| Name := "00-en" ++ strippedHwaddr ++ ".link";
     Contents :=
       "[Match]" ++ NL
       ++ "PermanentMACAddress=" ++ Interface.Hwaddr i ++ NL
       ++ NL
       ++ "[Link]" ++ NL
       ++ "MACAddressPolicy=random" ++ NL
       ++ "NamePolicy=" ++ NL
       ++ "Name=en" ++ strippedHwaddr ++ NL |}.

Definition memberLinkFile (member : string) : networkdConfigFile :=
  let strippedHwaddr := strippedHwaddr member in
  {| Name := "01-en" ++ strippedHwaddr ++ ".link";
     Contents :=
       "[Match]" ++ NL
       ++ "PermanentMACAddress=" ++ member ++ NL
       ++ NL
       ++ "[Link]" ++ NL
       ++ "NamePolicy=" ++ NL
       ++ "Name=en" ++ strippedHwaddr ++ NL |}.

Definition generateLinkFileContents (networkCfg : SystemNetworkConfig)
    : list networkdConfigFile :=
  (map interfaceLinkFile (Config.Interfaces networkCfg)
   ++ flat_map (fun b => map memberLinkFile (Bond.Members b))
               (Config.Bonds networkCfg))%list.

(** [generateNetdevFileContents] generates the contents of systemd.netdev
    files.  The three files of an interface, of a bond and of a VLAN are
    the bodies of its three loops. *)
Definition bridgeNetdev (prefix name mtuString : string) : networkdConfigFile :=
  {| Name := prefix ++ "-br" ++ name ++ ".netdev";
     Contents :=
       "[NetDev]" ++ NL
       ++ "Name=br" ++ name ++ NL
       ++ "Kind=bridge" ++ NL
       ++ mtuString ++ NL
       ++ NL
       ++ "[Bridge]" ++ NL
       ++ "VLANFiltering=true" ++ NL |}.

Definition vethNetdev (prefix name macAddress mtuString : string)
    : networkdConfigFile :=
  {| Name := prefix ++ "-" ++ name ++ ".netdev";
     Contents :=
       "[NetDev]" ++ NL
       ++ "Name=" ++ name ++ NL
       ++ "Kind=veth" ++ NL
       ++ "MACAddress=" ++ macAddress ++ NL
       ++ mtuString ++ NL
       ++ NL
       ++ "[Peer]" ++ NL
       ++ "Name=vt" ++ name ++ NL |}.

Definition bondNetdev (b : Bond.t) (mtuString : string) : networkdConfigFile :=
  {| Name := "11-bn" ++ Bond.Name b ++ ".netdev";
     Contents :=
       "[NetDev]" ++ NL
       ++ "Name=bn" ++ Bond.Name b ++ NL
       ++ "Kind=bond" ++ NL
       ++ mtuString ++ NL
       ++ NL
       ++ "[Bond]" ++ NL
       ++ "Mode=" ++ Bond.Mode b ++ NL |}.

Definition vlanNetdev (v : VLAN.t) : networkdConfigFile :=
  {| Name := "12-" ++ VLAN.Name v ++ ".netdev";
     Contents :=
       "[NetDev]" ++ NL
       ++ "Name=" ++ VLAN.Name v ++ NL
       ++ "Kind=vlan" ++ NL
       ++ mtuString (VLAN.MTU v) ++ NL
       ++ NL
       ++ "[VLAN]" ++ NL
       ++ "Id=" ++ strconv.FormatInt (VLAN.ID v) ++ NL |}.

Definition interfaceNetdevFiles (i : Interface.t) : list networkdConfigFile :=
  let mtuString := mtuString (Interface.MTU i) in
  [ bridgeNetdev "10" (Interface.Name i) mtuString;
    vethNetdev "10" (Interface.Name i) (Interface.Hwaddr i) mtuString ].

(** [b.Members[0]] panics on an empty member list: the body of the bond
    loop has a result only when the bond has a hardware address of its
    own or a first member. *)
Definition bondMacAddr (b : Bond.t) : option string :=
  let bondMacAddr := Bond.Hwaddr b in
  if bondMacAddr =? "" then nth_error (Bond.Members b) 0
  else Some bondMacAddr.

Definition bondNetdevFiles (b : Bond.t) : option (list networkdConfigFile) :=
  let mtuString := mtuString (Bond.MTU b) in
  match bondMacAddr b with
  | None => None
  | Some bondMacAddr =>
      Some [ bondNetdev b mtuString;
             bridgeNetdev "11" (Bond.Name b) mtuString;
             vethNetdev "11" (Bond.Name b) bondMacAddr mtuString ]
  end.

(** The loop over the bonds: [None] as soon as one body panics. *)
Fixpoint bondsNetdevFiles (bonds : list Bond.t)
    : option (list networkdConfigFile) :=
  match bonds with
  | [] => Some []
  | b :: rest =>
      match bondNetdevFiles b with
      | None => None
      | Some files =>
          match bondsNetdevFiles rest with
          | None => None
          | Some more => Some (files ++ more)%list
          end
      end
  end.

(** [None] stands for the run-time panic of the index expression. *)
Definition generateNetdevFileContents (networkCfg : SystemNetworkConfig)
    : option (list networkdConfigFile) :=
  let ret := flat_map interfaceNetdevFiles (Config.Interfaces networkCfg) in
  match bondsNetdevFiles (Config.Bonds networkCfg) with
  | None => None
  | Some bondFiles =>
      Some (ret ++ bondFiles
                ++ map vlanNetdev (Config.VLANs networkCfg))%list
  end.

(** [generateNetworkFileContents] generates the contents of systemd.network
    files. *)

(** User side of a veth device, or a VLAN device: the [[Match]], [[Link]],
    [[DHCP]] and [[Network]] sections, then the routes. *)
Definition userNetworkContents (name : string) (addresses : list string)
    (requiredForOnline : string) (routes : list Route.t)
    (vlans : list VLAN.t) (dns : option DNS.t) (ntp : option NTP.t) : string :=
  let cfgString :=
    "[Match]" ++ NL
    ++ "Name=" ++ name ++ NL
    ++ NL
    ++ "[Link]" ++ NL
    ++ generateLinkSectionContents addresses requiredForOnline ++ NL
    ++ NL
    ++ "[DHCP]" ++ NL
    ++ "ClientIdentifier=mac" ++ NL
    ++ "RouteMetric=100" ++ NL
    ++ "UseMTU=true" ++ NL
    ++ NL
    ++ "[Network]" ++ NL
    ++ generateNetworkSectionContents name vlans dns ntp in
  let cfgString := cfgString ++ processAddresses addresses in
  if Nat.ltb 0 (List.length routes) then cfgString ++ processRoutes routes
  else cfgString.

(** Bridge side of a veth device. *)
Definition vethBridgeSideContents (name : string) (vlan : Z)
    (vlanTags : list Z) (vlans : list VLAN.t) : string :=
  let cfgString :=
    "[Match]" ++ NL
    ++ "Name=vt" ++ name ++ NL
    ++ NL
    ++ "[Network]" ++ NL
    ++ "Bridge=br" ++ name ++ NL in
  cfgString ++ generateBridgeVLANContents name vlan vlanTags vlans.

(** The bridge itself. *)
Definition bridgeNetworkContents (name : string) : string :=
  "[Match]" ++ NL
  ++ "Name=br" ++ name ++ NL
  ++ NL
  ++ "[Network]" ++ NL
  ++ "LinkLocalAddressing=no" ++ NL
  ++ "ConfigureWithoutCarrier=yes" ++ NL.

(** The underlying interface, added to the bridge. *)
Definition underlyingInterfaceContents (i : Interface.t)
    (vlans : list VLAN.t) : string :=
  let cfgString :=
    "[Match]" ++ NL
    ++ "Name=en" ++ strippedHwaddr (Interface.Hwaddr i) ++ NL
    ++ NL
    ++ "[Network]" ++ NL
    ++ "LLDP=" ++ strconv.FormatBool (Interface.LLDP i) ++ NL
    ++ "EmitLLDP=" ++ strconv.FormatBool (Interface.LLDP i) ++ NL
    ++ "Bridge=br" ++ Interface.Name i ++ NL in
  cfgString
    ++ generateBridgeVLANContents (Interface.Name i) (Interface.VLAN i)
         (Interface.VLANTags i) vlans.

(** The bond device, added to the bridge. *)
Definition bondBridgeSideContents (b : Bond.t) (vlans : list VLAN.t) : string :=
  let cfgString :=
    "[Match]" ++ NL
    ++ "Name=bn" ++ Bond.Name b ++ NL
    ++ NL
    ++ "[Network]" ++ NL
    ++ "LinkLocalAddressing=no" ++ NL
    ++ "ConfigureWithoutCarrier=yes" ++ NL
    ++ "Bridge=br" ++ Bond.Name b ++ NL in
  cfgString
    ++ generateBridgeVLANContents (Bond.Name b) (Bond.VLAN b)
         (Bond.VLANTags b) vlans.

(** Bond members; [index] is the position of [member] in [b.Members]. *)
Definition bondMemberNetwork (b : Bond.t) (index : nat) (member : string)
    : networkdConfigFile :=
  let memberStrippedHwaddr := strippedHwaddr member in
  {| Name := "21-bn" ++ Bond.Name b ++ "-dev"
               ++ strconv.FormatInt (Z.of_nat index) ++ ".network";
     Contents :=
       "[Match]" ++ NL
       ++ "Name=en" ++ memberStrippedHwaddr ++ NL
       ++ NL
       ++ "[Network]" ++ NL
       ++ "LLDP=" ++ strconv.FormatBool (Bond.LLDP b) ++ NL
       ++ "EmitLLDP=" ++ strconv.FormatBool (Bond.LLDP b) ++ NL
       ++ "Bond=bn" ++ Bond.Name b ++ NL |}.

Fixpoint bondMemberNetworks (b : Bond.t) (index : nat) (members : list string)
    : list networkdConfigFile :=
  match members with
  | [] => []
  | member :: rest =>
      bondMemberNetwork b index member :: bondMemberNetworks b (S index) rest
  end.

Definition interfaceNetworkFiles (networkCfg : SystemNetworkConfig)
    (i : Interface.t) : list networkdConfigFile :=
  [ {| Name := "20-" ++ Interface.Name i ++ ".network";
       Contents :=
         userNetworkContents (Interface.Name i) (Interface.Addresses i)
           (Interface.RequiredForOnline i) (Interface.Routes i)
           (Config.VLANs networkCfg) (Config.DNS networkCfg)
           (Config.NTP networkCfg) |};
    {| Name := "20-vt" ++ Interface.Name i ++ ".network";
       Contents :=
         vethBridgeSideContents (Interface.Name i) (Interface.VLAN i)
           (Interface.VLANTags i) (Config.VLANs networkCfg) |};
    {| Name := "20-en" ++ strippedHwaddr (Interface.Hwaddr i) ++ ".network";
       Contents := underlyingInterfaceContents i (Config.VLANs networkCfg) |};
    {| Name := "20-br" ++ Interface.Name i ++ ".network";
       Contents := bridgeNetworkContents (Interface.Name i) |} ].

Definition bondNetworkFiles (networkCfg : SystemNetworkConfig)
    (b : Bond.t) : list networkdConfigFile :=
  ([ {| Name := "21-" ++ Bond.Name b ++ ".network";
        Contents :=
          userNetworkContents (Bond.Name b) (Bond.Addresses b)
            (Bond.RequiredForOnline b) (Bond.Routes b)
            (Config.VLANs networkCfg) (Config.DNS networkCfg)
            (Config.NTP networkCfg) |};
     {| Name := "21-vt" ++ Bond.Name b ++ ".network";
        Contents :=
          vethBridgeSideContents (Bond.Name b) (Bond.VLAN b)
            (Bond.VLANTags b) (Config.VLANs networkCfg) |};
     {| Name := "21-bn" ++ Bond.Name b ++ ".network";
        Contents := bondBridgeSideContents b (Config.VLANs networkCfg) |};
     {| Name := "21-br" ++ Bond.Name b ++ ".network";
        Contents := bridgeNetworkContents (Bond.Name b) |} ]
   ++ bondMemberNetworks b 0 (Bond.Members b))%list.

Definition vlanNetworkFile (networkCfg : SystemNetworkConfig)
    (v : VLAN.t) : networkdConfigFile :=
  {| Name := "22-" ++ VLAN.Name v ++ ".network";
     Contents :=
       userNetworkContents (VLAN.Name v) (VLAN.Addresses v)
         (VLAN.RequiredForOnline v) (VLAN.Routes v)
         [] (Config.DNS networkCfg) (Config.NTP networkCfg) |}.

Definition generateNetworkFileContents (networkCfg : SystemNetworkConfig)
    : list networkdConfigFile :=
  (flat_map (interfaceNetworkFiles networkCfg) (Config.Interfaces networkCfg)
   ++ flat_map (bondNetworkFiles networkCfg) (Config.Bonds networkCfg)
   ++ map (vlanNetworkFile networkCfg) (Config.VLANs networkCfg))%list.

End Generator.

(* ================================================================== *)
(** ** Effects: the host the daemon runs on

    Everything the code does to its surroundings is a [call]; the calls made
    so far, latest first, are the [History].  What the surroundings answer is
    given by a [Host]: the reading of the clock, the result of an external
    command and the status of every other operation are functions of the
    history up to and including the call that asks.  A cancelled [ctx] is
    one of the reasons a host has to answer a call with an error. *)
(* ================================================================== *)

(** [time.Time] and [time.Duration], in nanoseconds. *)
Definition Time := Z.
Definition Duration := Z.

Module time.
Definition Millisecond : Duration := 1000000.
Definition Second : Duration := 1000000000.
(** [t.After(u)]. *)
Definition After (t u : Time) : bool := (u <? t)%Z.
End time.

(** Go [error] values.  [errors.New] returns a value distinct from every
    other error; the errors that come back from a collaborator (a command,
    the file system, a function of another file) are the [foreign] ones. *)
Inductive error :=
| errors_New (text : string)
| fmt_Errorf (format : string) (args : list string)
| foreign (description : string).

Inductive call {SystemNetworkProxy : Type} :=
| time_Now
| time_Sleep (d : Duration)
| subprocess_RunCommandContext (name : string) (args : list string)
| os_RemoveAll (path : string)
| os_Mkdir (path : string) (perm : Z)
| os_WriteFile (name : string) (data : string) (perm : Z)
| os_Remove (name : string)
| systemd_SetHostname (hostname : string)
| systemd_UpdateEnvironment (proxy : option SystemNetworkProxy)
| systemd_RestartUnit (unit : string).
Arguments call : clear implicits.

Definition History (SystemNetworkProxy : Type) := list (call SystemNetworkProxy).

(** The surroundings, and the declarations of package [systemd] that are not
    in the file at hand: two path constants and the three validators
    [ValidateNetworkConfiguration] calls, which inspect the configuration
    and return an error or [nil].  [SetHostname], [UpdateEnvironment] and
    [RestartUnit] are likewise defined elsewhere and appear as calls. *)
Class Host (SystemNetworkProxy : Type) := {
  clock : History SystemNetworkProxy -> Time;
  commandResult : History SystemNetworkProxy -> string + error;
  status : History SystemNetworkProxy -> option error;
  (** [ipAddressRegex.FindAllStringSubmatch(output, -1)] for the one-group
      expression [inet6? (.+)/\d+ ]: every match with its group. *)
  FindAllStringSubmatch : string -> list (string * string);
  SystemdNetworkConfigPath : string;
  SystemdTimesyncConfigFile : string;
  filepath_Join : string -> string -> string;
  validateInterfaces : list Interface.t -> list VLAN.t -> option error;
  validateBonds : list Bond.t -> list VLAN.t -> option error;
  validateVLANs : Config.t SystemNetworkProxy -> option error
}.

(** How a computation ends: it returns, it panics, or the fuel given to its
    loops is spent before it has ended. *)
Inductive outcome (A : Type) :=
| Returns (a : A)
| Panics
| Unfinished.
Arguments Returns {A} a.
Arguments Panics {A}.
Arguments Unfinished {A}.

Section Effects.

Context {SystemNetworkProxy : Type} {host : Host SystemNetworkProxy}.
Local Abbreviation SystemNetworkConfig := (Config.t SystemNetworkProxy).
Local Abbreviation Hist := (History SystemNetworkProxy).

(** Computations: history in, outcome and history out. *)
Definition M (A : Type) : Type := Hist -> outcome A * Hist.

Definition ret {A} (a : A) : M A := fun h => (Returns a, h).

Definition bind {A B} (m : M A) (k : A -> M B) : M B :=
  fun h =>
    match m h with
    | (Returns a, h') => k a h'
    | (Panics, h') => (Panics, h')
    | (Unfinished, h') => (Unfinished, h')
    end.

Definition panic {A} : M A := fun h => (Panics, h).
Definition unfinished {A} : M A := fun h => (Unfinished, h).

Definition now : M Time :=
  fun h => let h' := time_Now :: h in (Returns (clock h'), h').

Definition sleep (d : Duration) : M unit :=
  fun h => (Returns tt, time_Sleep d :: h).

Definition RunCommandContext (name : string) (args : list string)
    : M (string + error) :=
  fun h =>
    let h' := subprocess_RunCommandContext name args :: h in
    (Returns (commandResult h'), h').

(** Any other call: it is made, and its status comes back. *)
Definition perform (c : call SystemNetworkProxy) : M (option error) :=
  fun h => let h' := c :: h in (Returns (status h'), h').

End Effects.

Declare Scope go_scope.
Delimit Scope go_scope with go.
Notation "x <- m ;; k" := (bind m (fun x => k))
  (at level 61, m at next level, right associativity) : go_scope.
Notation "' p <- m ;; k" := (bind m (fun x => let p := x in k))
  (at level 61, p pattern, m at next level, right associativity) : go_scope.
(** [err := m; if err != nil { return err }; k]. *)
Notation "'check' m ;; k" :=
  (bind m (fun err => match err with
                      | Some e => ret (Some e)
                      | None => k
                      end))
  (at level 61, m at next level, right associativity) : go_scope.

(* ================================================================== *)
(** ** The convergence poller and the applier (package [systemd]) *)
(* ================================================================== *)

Section Systemd.

Context {SystemNetworkProxy : Type} {host : Host SystemNetworkProxy}.
Local Abbreviation SystemNetworkConfig := (Config.t SystemNetworkProxy).
Local Open Scope go_scope.

Definition renameTimeout : error :=
  errors_New "timed out waiting for udev to rename interface(s)".

Definition onlineTimeout : error :=
  errors_New "timed out waiting for network to come online".

(** The [for] loop of [waitForUdevInterfaceRename]; one unit of fuel per
    iteration. *)
Fixpoint renameLoop (fuel : nat) (endTime : Time)
    : M (SystemNetworkProxy := SystemNetworkProxy) (option error) :=
  match fuel with
  | O => unfinished
  | S fuel =>
      t <- now ;;
      if time.After t endTime then ret (Some renameTimeout)
      else
        (* Trigger udev rule update to pickup device names. *)
        r <- RunCommandContext "udevadm" ["trigger"; "--action=add"] ;;
        match r with
        | inr err => ret (Some err)
        | inl _ =>
            (* Wait for udev to be done processing the events. *)
            r <- RunCommandContext "udevadm" ["settle"] ;;
            match r with
            | inr err => ret (Some err)
            | inl _ =>
                (* Check if the kernel has noticed the renaming. *)
                r <- RunCommandContext "journalctl"
                       ["-b"; "-t"; "kernel"; "-g";
                        "en[[:xdigit:]]{12}: renamed from "] ;;
                match r with
                | inl _ => ret None
                | inr _ =>
                    _ <- sleep (500 * time.Millisecond) ;;
                    renameLoop fuel endTime
                end
            end
        end
  end.

(** [waitForUdevInterfaceRename] waits up to a provided timeout for udev
    to pickup and process the renaming of interfaces. *)
Definition waitForUdevInterfaceRename (fuel : nat) (timeout : Duration)
    : M (option error) :=
  t <- now ;;
  let endTime := t + timeout in
  renameLoop fuel endTime.

(** The closure [isOnline] of [waitForNetworkOnline]: the pair
    (online, requiredOnline). *)
Definition isOnline (name : string) : M (bool * bool) :=
  r <- RunCommandContext "networkctl" ["status"; name] ;;
  match r with
  | inr _ => ret (false, true)
  | inl output =>
      ret (strings.Contains output "Online state: online",
           strings.Contains output "Required For Online: yes")
  end.

(** The number of matched addresses that are not link-local. *)
Fixpoint countIPs (matches : list (string * string)) (numIPs : Z) : Z :=
  match matches with
  | [] => numIPs
  | addr :: rest =>
      (* Don't count link-local addresses. *)
      if (strings.HasPrefix (snd addr) "169.254."
          || strings.HasPrefix (snd addr) "fe80:")%bool
      then countIPs rest numIPs
      else countIPs rest (numIPs + 1)
  end.

(** The closure [hasAtLeastOneConfiguredIP] of [waitForNetworkOnline]. *)
Definition hasAtLeastOneConfiguredIP (name : string) : M bool :=
  r <- RunCommandContext "ip" ["address"; "show"; name] ;;
  match r with
  | inr _ => ret false
  | inl output =>
      let numIPs := 0 in
      let matches := FindAllStringSubmatch output in
      ret (0 <? countIPs matches numIPs)%Z
  end.

(** The devices [waitForNetworkOnline] checks: interfaces, then bonds,
    then VLANs, each one when it has at least one address. *)
Definition devicesToCheck (networkCfg : SystemNetworkConfig) : list string :=
  let withAddresses {A} (addresses : A -> list string) (name : A -> string) :=
    fun (devices : list A) =>
      map name
        (filter (fun d => negb (Nat.eqb (List.length (addresses d)) 0))
                devices) in
  (withAddresses Interface.Addresses Interface.Name
                 (Config.Interfaces networkCfg)
   ++ withAddresses Bond.Addresses Bond.Name (Config.Bonds networkCfg)
   ++ withAddresses VLAN.Addresses VLAN.Name (Config.VLANs networkCfg))%list.

(** One pass over the devices: the value of [allDevicesOnline] when the
    inner loop is left. *)
Fixpoint checkDevices (devices : list string) : M bool :=
  match devices with
  | [] => ret true
  | name :: rest =>
      '(online, requiredOnline) <- isOnline name ;;
      if negb requiredOnline then checkDevices rest
      else if negb online then ret false
      else
        hasIP <- hasAtLeastOneConfiguredIP name ;;
        if negb hasIP then ret false else checkDevices rest
  end.

(** The outer [for] loop of [waitForNetworkOnline]. *)
Fixpoint onlineLoop (fuel : nat) (endTime : Time) (devices : list string)
    : M (option error) :=
  match fuel with
  | O => unfinished
  | S fuel =>
      t <- now ;;
      if time.After t endTime then ret (Some onlineTimeout)
      else
        allDevicesOnline <- checkDevices devices ;;
        if allDevicesOnline then ret None
        else
          _ <- sleep (500 * time.Millisecond) ;;
          onlineLoop fuel endTime devices
  end.

(** [waitForNetworkOnline] waits up to a provided timeout for configured
    network interfaces, bonds, and vlans to configure their IP address(es)
    and come online. *)
Definition waitForNetworkOnline (fuel : nat)
    (networkCfg : SystemNetworkConfig) (timeout : Duration)
    : M (option error) :=
  t <- now ;;
  let endTime := t + timeout in
  onlineLoop fuel endTime (devicesToCheck networkCfg).

(** [ValidateNetworkConfiguration] performs some basic validation checks
    on the supplied network configuration. *)
Definition ValidateNetworkConfiguration
    (networkCfg : option SystemNetworkConfig) : option error :=
  match networkCfg with
  | None => Some (errors_New "no network configuration provided")
  | Some cfg =>
      match validateInterfaces (Config.Interfaces cfg) (Config.VLANs cfg) with
      | Some err => Some err
      | None =>
          match validateBonds (Config.Bonds cfg) (Config.VLANs cfg) with
          | Some err => Some err
          | None =>
              match validateVLANs cfg with
              | Some err => Some err
              | None => None
              end
          end
      end
  end.

(** The loops of [generateNetworkConfiguration] that write the files of
    one kind, stopping at the first failed write. *)
Fixpoint writeFiles (files : list networkdConfigFile) : M (option error) :=
  match files with
  | [] => ret None
  | cfg :: rest =>
      check perform (os_WriteFile
                       (filepath_Join SystemdNetworkConfigPath (Name cfg))
                       (Contents cfg) 420) ;;
      writeFiles rest
  end.

(** [generateNetworkConfiguration] clears any existing configuration and
    generates new config files from the supplied configuration.
    Permissions: [0o755 = 493], [0o644 = 420]. *)
Definition generateNetworkConfiguration (networkCfg : SystemNetworkConfig)
    : M (option error) :=
  (* Remove any existing configuration. *)
  check perform (os_RemoveAll SystemdNetworkConfigPath) ;;
  check perform (os_Mkdir SystemdNetworkConfigPath 493) ;;
  (* Generate .link files. *)
  check writeFiles (generateLinkFileContents networkCfg) ;;
  (* Generate .netdev files. *)
  match generateNetdevFileContents networkCfg with
  | None => panic
  | Some netdevFiles =>
      check writeFiles netdevFiles ;;
      (* Generate .network files. *)
      check writeFiles (generateNetworkFileContents networkCfg) ;;
      (* Generate systemd-timesyncd configuration if any timeservers are
         defined. *)
      let ntpCfg :=
        match Config.NTP networkCfg with
        | Some ntp => generateTimesyncContents ntp
        | None => ""
        end in
      check (match Config.NTP networkCfg with
             | Some _ =>
                 if negb (ntpCfg =? "")%string
                 then perform (os_WriteFile SystemdTimesyncConfigFile ntpCfg 420)
                 else ret None
             | None => ret None
             end) ;;
      (* If there's no NTP configuration, remove the old config file that
         might exist. *)
      match Config.NTP networkCfg with
      | Some _ =>
          if (ntpCfg =? "")%string
          then _ <- perform (os_Remove SystemdTimesyncConfigFile) ;; ret None
          else ret None
      | None => _ <- perform (os_Remove SystemdTimesyncConfigFile) ;; ret None
      end
  end.

(** [ApplyNetworkConfiguration] instructs systemd-networkd to apply the
    supplied network configuration. *)
Definition ApplyNetworkConfiguration (fuel : nat)
    (networkCfg : option SystemNetworkConfig) (timeout : Duration)
    : M (option error) :=
  match ValidateNetworkConfiguration networkCfg with
  | Some err => ret (Some err)
  | None =>
      match networkCfg with
      | None => panic
      | Some networkCfg =>
          (* Get hostname and domain from network config, if defined. *)
          let hostname :=
            match Config.DNS networkCfg with
            | Some dns =>
                if negb (DNS.Hostname dns =? "")%string then
                  if negb (DNS.Domain dns =? "")%string
                  then (DNS.Hostname dns ++ "." ++ DNS.Domain dns)%string
                  else DNS.Hostname dns
                else ""%string
            | None => ""%string
            end in
          (* Apply the configured hostname, or reset back to default. *)
          check perform (systemd_SetHostname hostname) ;;
          (* Set proxy environment variables, or clear existing ones. *)
          check perform (systemd_UpdateEnvironment (Config.Proxy networkCfg)) ;;
          check generateNetworkConfiguration networkCfg ;;
          check waitForUdevInterfaceRename fuel (5 * time.Second) ;;
          (* Restart networking after new config files have been generated. *)
          check perform (systemd_RestartUnit "systemd-networkd") ;;
          (* (Re)start NTP time synchronization. *)
          check perform (systemd_RestartUnit "systemd-timesyncd") ;;
          (* Wait for the network to apply. *)
          waitForNetworkOnline fuel networkCfg timeout
      end
  end.

End Systemd.

(* ================================================================== *)
(** ** The system action endpoint (package [rest]) *)
(* ================================================================== *)

Module rest.

(** The responses of package [response] the handler renders. *)
Inductive Response :=
| NotImplemented (err : option error)
| InternalError (err : error)
| BadRequest (err : error)
| EmptySyncResponse.

(** A channel that is only ever closed: closing it twice panics. *)
Inductive chan := Open | Closed.

Definition close (c : chan) : option chan :=
  match c with
  | Open => Some Closed
  | Closed => None
  end.

(** [s.state]: the two control events. *)
Record State := { TriggerShutdown : chan; TriggerReboot : chan }.

Record Request := { Method : string; Body : string }.

Record reqSystem := { Action : string }.

Definition MethodPut : string := "PUT".

(** What the handler does to the response writer and to the request, in
    the order it does it. *)
Inductive effect :=
| Header_Set (key value : string)
| Render (r : Response)
| Decoder_Decode (body : string).

Section Handler.

(** [json.NewDecoder(r.Body).Decode(&req)]. *)
Variable json_Decode : string -> reqSystem + error.

(** [apiSystem]: the state of the server when the handler is left, and
    the effects it had. *)
Definition apiSystem (s : State) (r : Request)
    : outcome State * list effect :=
  let log := [Header_Set "Content-Type" "application/json"] in
  if negb (Method r =? MethodPut) then
    (* If none of the supported methods, return NotImplemented. *)
    (Returns s, log ++ [Render (NotImplemented None)])%list
  else
    let log := (log ++ [Decoder_Decode (Body r)])%list in
    match json_Decode (Body r) with
    | inr err => (Returns s, log ++ [Render (InternalError err)])%list
    | inl req =>
        if ((Action req =? "shutdown") || (Action req =? "poweroff"))%bool
        then
          match close (TriggerShutdown s) with
          | None => (Panics, log)
          | Some c =>
              (Returns {| TriggerShutdown := c;
                          TriggerReboot := TriggerReboot s |},
               log ++ [Render EmptySyncResponse])%list
          end
        else if Action req =? "reboot" then
          match close (TriggerReboot s) with
          | None => (Panics, log)
          | Some c =>
              (Returns {| TriggerShutdown := TriggerShutdown s;
                          TriggerReboot := c |},
               log ++ [Render EmptySyncResponse])%list
          end
        else
          (Returns s,
           log ++ [Render (BadRequest
                             (fmt_Errorf "invalid action %q"
                                         [Action req]))])%list
    end.

End Handler.

End rest.

(* ================================================================== *)
(** ** Hosts and configurations to run the code on *)
(* ================================================================== *)

Module Scenario.

(** A clock that advances by [perCall] nanoseconds with every call, and
    by the duration of a sleep when that is longer. *)
Definition elapsed (perCall : Z) (h : History unit) : Time :=
  fold_right
    (fun c t =>
       t + match c with
           | time_Sleep d => Z.max d perCall
           | _ => perCall
           end)
    0 h.

Definition onlineReport : string :=
  "State: routable (configured)" ++ NL
  ++ "Online state: online" ++ NL
  ++ "Required For Online: yes" ++ NL.

Definition offlineReport : string :=
  "State: no-carrier (configuring)" ++ NL
  ++ "Online state: offline" ++ NL
  ++ "Required For Online: yes" ++ NL.

Definition addressReport : string :=
  "    inet 192.0.2.10/24 brd 192.0.2.255 scope global eth0" ++ NL.

(** Every command succeeds; every device is online with an address. *)
Definition allGood (h : History unit) : string + error :=
  match h with
  | subprocess_RunCommandContext name _ :: _ =>
      if name =? "networkctl" then inl onlineReport
      else if name =? "ip" then inl addressReport
      else inl ""
  | _ => inl ""
  end.

Definition isStatusQuery (c : call unit) : bool :=
  match c with
  | subprocess_RunCommandContext name _ => name =? "networkctl"
  | _ => false
  end.

(** As [allGood], but the first [networkctl status] fails. *)
Definition flaky (h : History unit) : string + error :=
  match h with
  | subprocess_RunCommandContext name _ :: past =>
      if name =? "networkctl" then
        if existsb isStatusQuery past then inl onlineReport
        else inr (foreign "exit status 1")
      else allGood h
  | _ => inl ""
  end.

(** As [allGood], but no device ever comes online. *)
Definition deadLink (h : History unit) : string + error :=
  match h with
  | subprocess_RunCommandContext name _ :: _ =>
      if name =? "networkctl" then inl offlineReport else allGood h
  | _ => inl ""
  end.

(** As [allGood], but the kernel log never shows a renamed interface. *)
Definition neverRenamed (h : History unit) : string + error :=
  match h with
  | subprocess_RunCommandContext name _ :: _ =>
      if name =? "journalctl" then inr (foreign "exit status 1")
      else allGood h
  | _ => inl ""
  end.

Definition deviceNames (networkCfg : Config.t unit) : list string :=
  (map Interface.Name (Config.Interfaces networkCfg)
   ++ map Bond.Name (Config.Bonds networkCfg))%list.

(** Modelled from the spec: [validateVLANs] is not in the sources at hand;
    on these hosts it rejects a configuration with a VLAN whose parent
    names no declared interface or bond, which is what the specification
    says the validator does. *)
Definition rejectDanglingParent (networkCfg : Config.t unit) : option error :=
  if forallb
       (fun v => existsb (String.eqb (VLAN.Parent v)) (deviceNames networkCfg))
       (Config.VLANs networkCfg)
  then None
  else Some (foreign "VLAN parent is not a declared interface or bond").

(** A host with the given clock step and command answers, on which every
    other operation succeeds.  Its [FindAllStringSubmatch] agrees with the
    regular expression on the outputs these hosts produce. *)
Definition scripted (perCall : Z) (answer : History unit -> string + error)
    : Host unit :=
  {| clock := elapsed perCall;
     commandResult := answer;
     status := fun _ => None;
     FindAllStringSubmatch :=
       fun output =>
         if output =? addressReport
         then [("inet 192.0.2.10/24 ", "192.0.2.10")]
         else [];
     SystemdNetworkConfigPath := "/run/systemd/network";
     SystemdTimesyncConfigFile := "/run/systemd/timesyncd.conf.d/incus-os.conf";
     filepath_Join := fun dir name => dir ++ "/" ++ name;
     validateInterfaces := fun _ _ => None;
     validateBonds := fun _ _ => None;
     validateVLANs := rejectDanglingParent |}.

(** One interface [eth0] with address [dhcp4]. *)
Definition eth0 : Interface.t :=
  {| Interface.Name := "eth0";
     Interface.Hwaddr := "aa:bb:cc:dd:ee:ff";
     Interface.MTU := 0;
     Interface.Addresses := ["dhcp4"];
     Interface.Routes := [];
     Interface.VLAN := 0;
     Interface.VLANTags := [];
     Interface.LLDP := false;
     Interface.RequiredForOnline := "" |}.

Definition vlan (name : string) (id : Z) (parent : string) : VLAN.t :=
  {| VLAN.Name := name;
     VLAN.ID := id;
     VLAN.Parent := parent;
     VLAN.MTU := 0;
     VLAN.Addresses := [];
     VLAN.Routes := [];
     VLAN.RequiredForOnline := "" |}.

Definition config (interfaces : list Interface.t) (bonds : list Bond.t)
    (vlans : list VLAN.t) : Config.t unit :=
  {| Config.Interfaces := interfaces;
     Config.Bonds := bonds;
     Config.VLANs := vlans;
     Config.DNS := None;
     Config.NTP := None;
     Config.Proxy := None |}.

(** Scenario A. *)
Definition configA : Config.t unit := config [eth0] [] [].

(** Scenario B: [eth0] with primary tag 10, VLANs 20 and 10 on it. *)
Definition eth0Trunk : Interface.t :=
  {| Interface.Name := "eth0";
     Interface.Hwaddr := "aa:bb:cc:dd:ee:ff";
     Interface.MTU := 0;
     Interface.Addresses := ["dhcp4"];
     Interface.Routes := [];
     Interface.VLAN := 10;
     Interface.VLANTags := [];
     Interface.LLDP := false;
     Interface.RequiredForOnline := "" |}.

Definition configB : Config.t unit :=
  config [eth0Trunk] [] [vlan "vlan20" 20 "eth0"; vlan "vlan10" 10 "eth0"].

(** Scenario C: a bond of two members without a hardware address. *)
Definition bond0 : Bond.t :=
  {| Bond.Name := "bond0";
     Bond.Hwaddr := "";
     Bond.Members := ["aa:bb:cc:dd:ee:01"; "aa:bb:cc:dd:ee:02"];
     Bond.Mode := "802.3ad";
     Bond.MTU := 0;
     Bond.Addresses := ["dhcp4"];
     Bond.Routes := [];
     Bond.VLAN := 0;
     Bond.VLANTags := [];
     Bond.LLDP := false;
     Bond.RequiredForOnline := "" |}.

Definition configC : Config.t unit := config [] [bond0] [].

(** A VLAN on a parent that is not declared. *)
Definition configDangling : Config.t unit :=
  config [eth0] [] [vlan "vlan30" 30 "eth7"].

End Scenario.

(* ================================================================== *)
(** ** Reading a section back: its directives

    A unit file section is a sequence of lines, one directive each.  The
    properties of the generated text are stated on the lines of the text. *)
(* ================================================================== *)

Definition isLF (c : ascii) : bool := Ascii.eqb c "010"%char.

(** The lines of a text: the pieces between line feeds, a last piece without
    line feed included when it is not empty. *)
Fixpoint lines (s : string) : list string :=
  match s with
  | EmptyString => []
  | String c s' =>
      if isLF c then EmptyString :: lines s'
      else match lines s' with
           | [] => [String c EmptyString]
           | l :: ls => String c l :: ls
           end
  end.

(** A string that holds no line feed. *)
Fixpoint singleLine (s : string) : bool :=
  match s with
  | EmptyString => true
  | String c s' => (negb (isLF c) && singleLine s')%bool
  end.

(** The text whose lines are the given ones. *)
Fixpoint unlines (ls : list string) : string :=
  match ls with
  | [] => ""
  | l :: rest => l ++ NL ++ unlines rest
  end.

(** The [DHCP=] directives among the lines of a section. *)
Definition dhcpDirectives (section : string) : list string :=
  filter (String.prefix "DHCP=") (lines section).

(** The tokens of the addressing vocabulary that are not literal
    addresses. *)
Definition isKeyword (addr : string) : bool :=
  ((addr =? "dhcp4") || (addr =? "dhcp6") || (addr =? "slaac"))%bool.

Definition literalAddresses (addresses : list string) : list string :=
  filter (fun addr => negb (isKeyword addr)) addresses.

(** The blocks of a [[BridgeVLAN]] listing. *)
Definition pvidBlock (tag : Z) : string :=
  NL ++ "[BridgeVLAN]" ++ NL
  ++ "PVID=" ++ strconv.FormatInt tag ++ NL
  ++ "EgressUntagged=" ++ strconv.FormatInt tag ++ NL.

Definition tagBlock (tag : Z) : string :=
  NL ++ "[BridgeVLAN]" ++ NL ++ "VLAN=" ++ strconv.FormatInt tag ++ NL.

Definition tagBlocks (tags : list Z) : string :=
  fold_right (fun tag rest => tagBlock tag ++ rest) "" tags.

(** Whether a token occurs in an address list. *)
Definition hasToken (token : string) (addresses : list string) : bool :=
  existsb (fun addr => addr =? token) addresses.

(** The directives [processAddresses] emits, one per line, in order. *)
Definition linkLocalDirectives (addresses : list string) : list string :=
  match addresses with
  | [] => ["LinkLocalAddressing=no"; "ConfigureWithoutCarrier=yes"]
  | _ :: _ => ["LinkLocalAddressing=ipv6"]
  end.

Definition addressDirectives (addresses : list string) : list string :=
  map (fun addr => "Address=" ++ addr) (literalAddresses addresses).

Definition acceptRADirective (addresses : list string) : string :=
  if hasToken "slaac" addresses then "IPv6AcceptRA=true"
  else "IPv6AcceptRA=false".

Definition dhcpDirective (addresses : list string) : list string :=
  if (hasToken "dhcp4" addresses && hasToken "dhcp6" addresses)%bool
  then ["DHCP=yes"]
  else if hasToken "dhcp4" addresses then ["DHCP=ipv4"]
  else if hasToken "dhcp6" addresses then ["DHCP=ipv6"]
  else [].

Definition addressingDirectives (addresses : list string) : list string :=
  (linkLocalDirectives addresses
   ++ addressDirectives addresses
   ++ [acceptRADirective addresses]
   ++ dhcpDirective addresses)%list.

(** Whether an address list holds a literal address. *)
Definition hasLiteral (addresses : list string) : bool :=
  existsb (fun addr => negb (isKeyword addr)) addresses.

(** The statement that link-local IPv6 addressing follows the literal
    addresses: [LinkLocalAddressing=ipv6] is emitted when the list holds a
    literal address and only then, and without literal addresses
    [LinkLocalAddressing=no] and [ConfigureWithoutCarrier=yes] are. *)
Definition linkLocalFollowsLiterals (addresses : list string) : Prop :=
  (In "LinkLocalAddressing=ipv6" (lines (processAddresses addresses))
   <-> hasLiteral addresses = true)
  /\ (hasLiteral addresses = false ->
      In "LinkLocalAddressing=no" (lines (processAddresses addresses))
      /\ In "ConfigureWithoutCarrier=yes" (lines (processAddresses addresses))).

(* ================================================================== *)
(** ** Clocks, fuel, and the statements about the poller *)
(* ================================================================== *)

(** What the poller needs of the clock: it never runs backwards, and a
    sleep lasts at least its duration. *)
Class ClockLaws {SystemNetworkProxy : Type} (host : Host SystemNetworkProxy)
    : Prop := {
  clock_monotone :
    forall (c : call SystemNetworkProxy) (h : History SystemNetworkProxy),
      clock h <= clock (c :: h);
  clock_sleep :
    forall (d : Duration) (h : History SystemNetworkProxy),
      clock h + d <= clock (time_Sleep d :: h)
}.

(** The iterations a loop with the given timeout can need: one per started
    period of 500 ms, one for the pass at the deadline itself and one for
    the check that finds the deadline passed. *)
Definition iterations (timeout : Duration) : nat :=
  Z.to_nat (timeout / (500 * time.Millisecond)) + 2.
Arguments iterations timeout%_Z.

Section PollerVocabulary.

Context {SystemNetworkProxy : Type} {host : Host SystemNetworkProxy}.
Local Abbreviation Hist := (History SystemNetworkProxy).
Local Abbreviation SystemNetworkConfig := (Config.t SystemNetworkProxy).

(** The online condition of a single device never holds: whenever the
    device is checked, the pass is left with [allDevicesOnline = false]. *)
Definition neverOnline (name : string) : Prop :=
  forall h : Hist, fst (checkDevices [name] h) = Returns false.

(** The statement that a failed status query is fatal to the online
    wait: whenever a [networkctl]/[ip] command run during the wait came
    back with an error, the wait returns an error of its own. *)
Definition statusQueryFailureIsFatal (fuel : nat)
    (networkCfg : SystemNetworkConfig) (timeout : Duration) (h : Hist)
    : Prop :=
  forall (later between : Hist) (name : string) (args : list string)
         (err : error),
    snd (waitForNetworkOnline fuel networkCfg timeout h)
    = (later ++ subprocess_RunCommandContext name args :: between ++ h)%list ->
    commandResult (subprocess_RunCommandContext name args :: between ++ h)%list
    = inr err ->
    exists e, fst (waitForNetworkOnline fuel networkCfg timeout h)
              = Returns (Some e).

(** The statement that the timeout of the apply request governs both
    loops, as far as an expired timeout goes: with a timeout that is zero
    or negative neither loop performs a polling pass, so the apply runs no
    command at all. *)
Definition expiredTimeoutSkipsPolling (fuel : nat)
    (networkCfg : SystemNetworkConfig) (timeout : Duration) (h : Hist)
    : Prop :=
  timeout <= 0 ->
  forall (name : string) (args : list string),
    ~ In (subprocess_RunCommandContext name args)
         (snd (ApplyNetworkConfiguration fuel (Some networkCfg) timeout h)).

(** The deadline of a loop that starts at [h] with the given timeout has
    passed when the loop first checks it. *)
Definition alreadyExpired (timeout : Duration) (h : Hist) : Prop :=
  clock (time_Now :: h) + timeout < clock (time_Now :: time_Now :: h).

End PollerVocabulary.

(* ================================================================== *)
(** ** Strings and lines: basic facts *)
(* ================================================================== *)

Lemma append_assoc (a b c : string) : (a ++ b) ++ c = a ++ (b ++ c).
Proof.
  induction a as [|x a IH]; simpl; [reflexivity | now rewrite IH].
Qed.

Lemma append_empty_r (a : string) : a ++ "" = a.
Proof.
  induction a as [|x a IH]; simpl; [reflexivity | now rewrite IH].
Qed.

Lemma singleLine_append (a b : string) :
  singleLine (a ++ b) = (singleLine a && singleLine b)%bool.
Proof.
  induction a as [|x a IH]; simpl; [reflexivity|].
  rewrite IH. now rewrite andb_assoc.
Qed.

(** A line followed by a line feed is the first line of the text. *)
Lemma lines_cons (l rest : string) :
  singleLine l = true -> lines (l ++ NL ++ rest) = l :: lines rest.
Proof.
  change (NL ++ rest) with (String "010"%char rest).
  induction l as [|x l IH]; intros Hl.
  - reflexivity.
  - cbn [singleLine] in Hl. apply andb_prop in Hl. destruct Hl as [Hx Hl].
    cbn [append lines].
    destruct (isLF x); [discriminate|].
    now rewrite (IH Hl).
Qed.

Lemma lines_unlines (ls : list string) :
  forallb singleLine ls = true -> lines (unlines ls) = ls.
Proof.
  induction ls as [|l ls IH]; cbn [unlines forallb]; intros H; [reflexivity|].
  apply andb_prop in H. destruct H as [Hl Hls].
  rewrite (lines_cons _ _ Hl). now rewrite (IH Hls).
Qed.

Lemma unlines_app (xs ys : list string) :
  unlines (xs ++ ys) = unlines xs ++ unlines ys.
Proof.
  induction xs as [|x xs IH]; simpl; [reflexivity|].
  now rewrite IH, !append_assoc.
Qed.

Lemma forallb_singleLine_app (xs ys : list string) :
  forallb singleLine (xs ++ ys)
  = (forallb singleLine xs && forallb singleLine ys)%bool.
Proof. apply forallb_app. Qed.

(* ================================================================== *)
(** ** The addressing directives ([processAddresses]) *)
(* ================================================================== *)

Lemma hasToken_In (token : string) (addresses : list string) :
  hasToken token addresses = true <-> In token addresses.
Proof.
  unfold hasToken. rewrite existsb_exists. split.
  - intros [x [Hin Hx]]. apply String.eqb_eq in Hx. now subst.
  - intros Hin. exists token. split; [assumption | apply String.eqb_refl].
Qed.

(** What the loop of [processAddresses] leaves in its four variables. *)
Lemma addressLoop_spec (addresses : list string) :
  forall ret hasDHCP4 hasDHCP6 acceptIPv6RA,
    addressLoop addresses ret hasDHCP4 hasDHCP6 acceptIPv6RA
    = (ret ++ unlines (addressDirectives addresses),
       (hasDHCP4 || hasToken "dhcp4" addresses)%bool,
       (hasDHCP6 || hasToken "dhcp6" addresses)%bool,
       (acceptIPv6RA || hasToken "slaac" addresses)%bool).
Proof.
  induction addresses as [|addr rest IH]; intros ret f4 f6 fra.
  - cbn. now rewrite append_empty_r, !orb_false_r.
  - cbn [addressLoop].
    destruct (String.eqb_spec addr "dhcp4") as [->|N4].
    { rewrite IH. cbn. now rewrite !orb_true_r. }
    destruct (String.eqb_spec addr "dhcp6") as [->|N6].
    { rewrite IH. cbn. now rewrite !orb_true_r. }
    destruct (String.eqb_spec addr "slaac") as [->|Nra].
    { rewrite IH. cbn. now rewrite !orb_true_r. }
    rewrite IH.
    apply String.eqb_neq in N4, N6, Nra.
    unfold addressDirectives, literalAddresses, isKeyword, hasToken.
    cbn [filter existsb map unlines].
    rewrite N4, N6, Nra. cbn [orb negb map unlines].
    now rewrite !append_assoc.
Qed.

(** The text of [processAddresses] is its directives, one per line. *)
Lemma processAddresses_unlines (addresses : list string) :
  processAddresses addresses = unlines (addressingDirectives addresses).
Proof.
  unfold processAddresses, addressingDirectives.
  rewrite addressLoop_spec. cbn [orb].
  rewrite !unlines_app.
  assert (Hhead :
    (if negb (Nat.eqb (List.length addresses) 0)
     then "" ++ "LinkLocalAddressing=ipv6" ++ NL
     else ("" ++ "LinkLocalAddressing=no" ++ NL)
            ++ "ConfigureWithoutCarrier=yes" ++ NL)
    = unlines (linkLocalDirectives addresses)).
  { destruct addresses; reflexivity. }
  rewrite Hhead. clear Hhead.
  unfold acceptRADirective, dhcpDirective.
  destruct (hasToken "slaac" addresses),
           (hasToken "dhcp4" addresses),
           (hasToken "dhcp6" addresses);
    cbn [andb unlines]; rewrite ?append_assoc, ?append_empty_r; reflexivity.
Qed.

Lemma addressDirectives_singleLine (addresses : list string) :
  forallb singleLine addresses = true ->
  forallb singleLine (addressDirectives addresses) = true.
Proof.
  unfold addressDirectives, literalAddresses.
  induction addresses as [|addr rest IH]; cbn [forallb filter map];
    intros H; [reflexivity|].
  apply andb_prop in H. destruct H as [Ha Hrest].
  destruct (negb (isKeyword addr)); cbn [map forallb]; [|now apply IH].
  rewrite singleLine_append, Ha, (IH Hrest). reflexivity.
Qed.

Lemma addressingDirectives_singleLine (addresses : list string) :
  forallb singleLine addresses = true ->
  forallb singleLine (addressingDirectives addresses) = true.
Proof.
  intros H. unfold addressingDirectives.
  rewrite !forallb_app, (addressDirectives_singleLine _ H).
  unfold acceptRADirective, dhcpDirective.
  destruct addresses;
    destruct (hasToken "slaac" _), (hasToken "dhcp4" _), (hasToken "dhcp6" _);
    reflexivity.
Qed.

(** The lines of the text of [processAddresses] are its directives. *)
Lemma lines_processAddresses (addresses : list string) :
  forallb singleLine addresses = true ->
  lines (processAddresses addresses) = addressingDirectives addresses.
Proof.
  intros H. rewrite processAddresses_unlines.
  apply lines_unlines, addressingDirectives_singleLine, H.
Qed.

Lemma addressDirectives_not_DHCP (addresses : list string) :
  filter (String.prefix "DHCP=") (addressDirectives addresses) = [].
Proof.
  unfold addressDirectives.
  induction (literalAddresses addresses) as [|a l IH]; [reflexivity|].
  cbn [map filter]. now rewrite IH.
Qed.

Lemma dhcpDirectives_processAddresses (addresses : list string) :
  forallb singleLine addresses = true ->
  dhcpDirectives (processAddresses addresses) = dhcpDirective addresses.
Proof.
  intros H. unfold dhcpDirectives.
  rewrite (lines_processAddresses _ H). unfold addressingDirectives.
  rewrite !filter_app, addressDirectives_not_DHCP.
  unfold acceptRADirective, dhcpDirective.
  destruct addresses;
    destruct (hasToken "slaac" _), (hasToken "dhcp4" _), (hasToken "dhcp6" _);
    reflexivity.
Qed.

(** C1.  For an address list whose tokens are single-line strings, the
    [[Network]] directives [processAddresses] generates hold exactly one
    DHCP directive, [DHCP=yes], when the list contains both [dhcp4] and
    [dhcp6]; exactly [DHCP=ipv4] when it contains [dhcp4] but not [dhcp6];
    exactly [DHCP=ipv6] when it contains [dhcp6] but not [dhcp4]; and no
    DHCP directive at all when it contains neither. *)
Theorem C1_dhcp_directive (addresses : list string)
    (Hlines : forallb singleLine addresses = true) :
  (In "dhcp4" addresses /\ In "dhcp6" addresses ->
   dhcpDirectives (processAddresses addresses) = ["DHCP=yes"])
  /\ (In "dhcp4" addresses /\ ~ In "dhcp6" addresses ->
      dhcpDirectives (processAddresses addresses) = ["DHCP=ipv4"])
  /\ (~ In "dhcp4" addresses /\ In "dhcp6" addresses ->
      dhcpDirectives (processAddresses addresses) = ["DHCP=ipv6"])
  /\ (~ In "dhcp4" addresses /\ ~ In "dhcp6" addresses ->
      dhcpDirectives (processAddresses addresses) = []).
Proof.
  rewrite (dhcpDirectives_processAddresses _ Hlines).
  unfold dhcpDirective.
  pose proof (hasToken_In "dhcp4" addresses) as H4.
  pose proof (hasToken_In "dhcp6" addresses) as H6.
  destruct (hasToken "dhcp4" addresses), (hasToken "dhcp6" addresses);
    cbn [andb]; repeat split; intros [A B]; try reflexivity; exfalso;
    intuition congruence.
Qed.

(** C1 at the address list [dhcp4, 192.0.2.10/24, dhcp6]. *)
Lemma C1_dhcp_directive_witness :
  let addresses := ["dhcp4"; "192.0.2.10/24"; "dhcp6"] in
  forallb singleLine addresses = true
  /\ (In "dhcp4" addresses /\ In "dhcp6" addresses)
  /\ dhcpDirectives (processAddresses addresses) = ["DHCP=yes"].
Proof.
  intros addresses.
  assert (forallb singleLine addresses = true) as Hlines by reflexivity.
  assert (In "dhcp4" addresses /\ In "dhcp6" addresses) as Hboth
    by (simpl; auto).
  split; [exact Hlines|]. split; [exact Hboth|].
  exact (proj1 (C1_dhcp_directive addresses Hlines) Hboth).
Defined.

(** The sections of the network file of a user-facing device: the
    [[Link]] section is the text of [generateLinkSectionContents], the
    [[Network]] section the text of [generateNetworkSectionContents]
    followed by that of [processAddresses], both for the address list of
    the device. *)
Lemma userNetworkContents_sections
    (name : string) (addresses : list string) (requiredForOnline : string)
    (routes : list Route.t) (vlans : list VLAN.t)
    (dns : option DNS.t) (ntp : option NTP.t) :
  userNetworkContents name addresses requiredForOnline routes vlans dns ntp
  = ("[Match]" ++ NL ++ "Name=" ++ name ++ NL ++ NL)
      ++ ("[Link]" ++ NL
          ++ generateLinkSectionContents addresses requiredForOnline ++ NL
          ++ NL)
      ++ ("[DHCP]" ++ NL ++ "ClientIdentifier=mac" ++ NL
          ++ "RouteMetric=100" ++ NL ++ "UseMTU=true" ++ NL ++ NL)
      ++ ("[Network]" ++ NL
          ++ generateNetworkSectionContents name vlans dns ntp
          ++ processAddresses addresses)
      ++ processRoutes routes.
Proof.
  unfold userNetworkContents.
  destruct routes as [|r routes]; cbn [List.length Nat.ltb Nat.leb processRoutes];
    rewrite ?append_assoc, ?append_empty_r; reflexivity.
Qed.

(** Every interface, bond and VLAN of a configuration gets such a file, for
    its own address list, policy and routes. *)
Lemma device_network_files {SystemNetworkProxy : Type}
    (networkCfg : Config.t SystemNetworkProxy) :
  (forall i, In i (Config.Interfaces networkCfg) ->
     In {| Name := "20-" ++ Interface.Name i ++ ".network";
           Contents :=
             userNetworkContents (Interface.Name i) (Interface.Addresses i)
               (Interface.RequiredForOnline i) (Interface.Routes i)
               (Config.VLANs networkCfg) (Config.DNS networkCfg)
               (Config.NTP networkCfg) |}
        (generateNetworkFileContents networkCfg))
  /\ (forall b, In b (Config.Bonds networkCfg) ->
        In {| Name := "21-" ++ Bond.Name b ++ ".network";
              Contents :=
                userNetworkContents (Bond.Name b) (Bond.Addresses b)
                  (Bond.RequiredForOnline b) (Bond.Routes b)
                  (Config.VLANs networkCfg) (Config.DNS networkCfg)
                  (Config.NTP networkCfg) |}
           (generateNetworkFileContents networkCfg))
  /\ (forall v, In v (Config.VLANs networkCfg) ->
        In {| Name := "22-" ++ VLAN.Name v ++ ".network";
              Contents :=
                userNetworkContents (VLAN.Name v) (VLAN.Addresses v)
                  (VLAN.RequiredForOnline v) (VLAN.Routes v)
                  [] (Config.DNS networkCfg) (Config.NTP networkCfg) |}
           (generateNetworkFileContents networkCfg)).
Proof.
  unfold generateNetworkFileContents. repeat split.
  - intros i Hi. apply in_or_app; left. apply in_flat_map. exists i.
    split; [assumption | now left].
  - intros b Hb. apply in_or_app; right. apply in_or_app; left.
    apply in_flat_map. exists b. split; [assumption | now left].
  - intros v Hv. apply in_or_app; right. apply in_or_app; right.
    apply in_map_iff. exists v. split; [reflexivity | assumption].
Qed.

(* ================================================================== *)
(** ** The required-for-online directive ([generateLinkSectionContents]) *)
(* ================================================================== *)

Lemma length_zero_nil {A} (l : list A) :
  Nat.eqb (List.length l) 0 = true <-> l = [].
Proof.
  destruct l; simpl; split; intros H; try reflexivity; discriminate.
Qed.

(** C3.  The [[Link]] section reads [RequiredForOnline=no] exactly when the
    address list is empty or the policy is the string [no]; with an unset
    policy and at least one address it reads [RequiredForOnline=yes] with
    [RequiredFamilyForOnline=any]; otherwise it reads
    [RequiredForOnline=yes] with the explicit family value. *)
Theorem C3_required_for_online
    (addresses : list string) (requiredForOnline : string) :
  (generateLinkSectionContents addresses requiredForOnline
   = "RequiredForOnline=no"
   <-> addresses = [] \/ requiredForOnline = "no")
  /\ (addresses <> [] -> requiredForOnline = "" ->
      generateLinkSectionContents addresses requiredForOnline
      = "RequiredForOnline=yes" ++ NL ++ "RequiredFamilyForOnline=any")
  /\ (addresses <> [] -> requiredForOnline <> "" ->
      requiredForOnline <> "no" ->
      generateLinkSectionContents addresses requiredForOnline
      = "RequiredForOnline=yes" ++ NL
        ++ "RequiredFamilyForOnline=" ++ requiredForOnline).
Proof.
  unfold generateLinkSectionContents.
  pose proof (length_zero_nil addresses) as Hlen.
  destruct (Nat.eqb (List.length addresses) 0).
  { assert (addresses = []) as -> by now apply Hlen.
    cbn [orb]. repeat split; intros; try tauto; congruence. }
  assert (addresses <> []) as Hne.
  { intros E. apply Hlen in E. discriminate. }
  cbn [orb].
  destruct (String.eqb_spec requiredForOnline "no") as [->|Hno].
  { repeat split; intros; try tauto; congruence. }
  destruct (String.eqb_spec requiredForOnline "") as [->|Hunset];
    repeat split; intros; try congruence; try reflexivity;
    try discriminate; tauto.
Qed.

(** C3 at the address list [dhcp4] with an unset policy. *)
Lemma C3_required_for_online_witness :
  generateLinkSectionContents ["dhcp4"] ""
  = "RequiredForOnline=yes" ++ NL ++ "RequiredFamilyForOnline=any".
Proof.
  apply (C3_required_for_online ["dhcp4"] "").
  - discriminate.
  - reflexivity.
Defined.

(* ================================================================== *)
(** ** Link-local addressing ([processAddresses]) *)
(* ================================================================== *)

(** C4, as stated, fails at the address list [dhcp4]: it holds no literal
    address, and [LinkLocalAddressing=ipv6] is emitted all the same. *)
Lemma C4_counterexample : ~ linkLocalFollowsLiterals ["dhcp4"].
Proof.
  intros [Hiff _].
  assert (In "LinkLocalAddressing=ipv6" (lines (processAddresses ["dhcp4"])))
    as Hin by (vm_compute; auto).
  apply Hiff in Hin. vm_compute in Hin. discriminate.
Qed.

(** C4, amended.  [LinkLocalAddressing=ipv6] is emitted when the address
    list is not empty (whatever its tokens, keywords or literal addresses)
    and only then; for the empty address list the generator emits
    [LinkLocalAddressing=no] together with [ConfigureWithoutCarrier=yes]. *)
Theorem C4_link_local_addressing (addresses : list string) :
  (In "LinkLocalAddressing=ipv6" (lines (processAddresses addresses))
   <-> addresses <> [])
  /\ (addresses = [] ->
      lines (processAddresses addresses)
      = ["LinkLocalAddressing=no"; "ConfigureWithoutCarrier=yes";
         "IPv6AcceptRA=false"]).
Proof.
  split.
  - rewrite processAddresses_unlines. unfold addressingDirectives.
    destruct addresses as [|addr rest].
    + split; [|congruence]. vm_compute. intuition discriminate.
    + split; [discriminate|]. intros _.
      cbn [linkLocalDirectives app unlines].
      rewrite lines_cons by reflexivity. now left.
  - intros ->. reflexivity.
Qed.

(** C4 (amended) at the empty address list. *)
Lemma C4_link_local_addressing_witness :
  lines (processAddresses [])
  = ["LinkLocalAddressing=no"; "ConfigureWithoutCarrier=yes";
     "IPv6AcceptRA=false"].
Proof.
  apply (C4_link_local_addressing []). reflexivity.
Defined.

(* ================================================================== *)
(** ** VLAN tag aggregation ([generateBridgeVLANContents]) *)
(* ================================================================== *)

Lemma insert_Permutation (x : Z) (l : list Z) :
  Permutation (slices.insert x l) (x :: l).
Proof.
  induction l as [|y tl IH]; cbn [slices.insert]; [reflexivity|].
  destruct (x <=? y)%Z; [reflexivity|].
  rewrite IH. apply perm_swap.
Qed.

Lemma Sort_Permutation (l : list Z) : Permutation (slices.Sort l) l.
Proof.
  induction l as [|x tl IH]; cbn [slices.Sort]; [reflexivity|].
  rewrite insert_Permutation. now constructor.
Qed.

Lemma insert_sorted (x : Z) (l : list Z) :
  StronglySorted Z.le l -> StronglySorted Z.le (slices.insert x l).
Proof.
  induction 1 as [|y tl Hs IH Hall]; cbn [slices.insert].
  - repeat constructor.
  - destruct (Z.leb_spec x y) as [Hle|Hgt].
    + constructor; [now constructor|].
      constructor; [assumption|].
      eapply Forall_impl; [|exact Hall]. intros z Hz; cbn in Hz. lia.
    + constructor; [assumption|].
      apply (Permutation_Forall (Permutation_sym (insert_Permutation x tl))).
      constructor; [lia | assumption].
Qed.

Lemma Sort_sorted (l : list Z) : StronglySorted Z.le (slices.Sort l).
Proof.
  induction l as [|x tl IH]; cbn [slices.Sort];
    [constructor | now apply insert_sorted].
Qed.

Lemma compactFrom_In (l : list Z) :
  forall prev t,
    (In t (slices.compactFrom prev l) -> In t l)
    /\ (In t l -> t = prev \/ In t (slices.compactFrom prev l)).
Proof.
  induction l as [|x tl IH]; intros prev t; cbn [slices.compactFrom].
  - split; [tauto | intros []].
  - destruct (IH x t) as [IH1 IH2].
    destruct (Z.eqb_spec x prev) as [->|Hne].
    + split; [now right; apply IH1|].
      intros [<-|Hin]; [now left | now apply IH2].
    + split.
      * intros [<-|Hin]; [now left | right; now apply IH1].
      * intros [<-|Hin]; [right; now left|].
        destruct (IH2 Hin) as [->|H]; right; [now left | now right].
Qed.

Lemma Compact_In (l : list Z) (t : Z) : In t (slices.Compact l) <-> In t l.
Proof.
  destruct l as [|x tl]; cbn [slices.Compact]; [tauto|].
  destruct (compactFrom_In tl x t) as [H1 H2]. split.
  - intros [<-|Hin]; [now left | right; now apply H1].
  - intros [<-|Hin]; [now left|].
    destruct (H2 Hin) as [->|H]; [now left | now right].
Qed.

Lemma compactFrom_sorted (l : list Z) :
  forall prev,
    StronglySorted Z.le l -> Forall (Z.le prev) l ->
    StronglySorted Z.lt (slices.compactFrom prev l)
    /\ Forall (Z.lt prev) (slices.compactFrom prev l).
Proof.
  induction l as [|x tl IH]; intros prev Hs Hprev; cbn [slices.compactFrom].
  - split; constructor.
  - apply StronglySorted_inv in Hs. destruct Hs as [Hs Hx].
    destruct (IH x Hs Hx) as [IHs IHx].
    apply Forall_inv in Hprev.
    destruct (Z.eqb_spec x prev) as [->|Hne]; [now split|].
    split.
    + now constructor.
    + constructor; [lia|].
      eapply Forall_impl; [|exact IHx]. intros z Hz; cbn in Hz. lia.
Qed.

Lemma Compact_sorted (l : list Z) :
  StronglySorted Z.le l -> StronglySorted Z.lt (slices.Compact l).
Proof.
  destruct l as [|x tl]; cbn [slices.Compact]; intros Hs; [constructor|].
  apply StronglySorted_inv in Hs. destruct Hs as [Hs Hx].
  destruct (compactFrom_sorted tl x Hs Hx). now constructor.
Qed.

(** The loop over the declared VLANs appends the IDs of those whose parent
    is the bridge. *)
Lemma collect_vlan_ids (bridgeName : string) (vlans : list VLAN.t) :
  forall vlanTags,
    fold_left
      (fun vlanTags vlan =>
         if VLAN.Parent vlan =? bridgeName
         then (vlanTags ++ [VLAN.ID vlan])%list
         else vlanTags)
      vlans vlanTags
    = (vlanTags
       ++ map VLAN.ID
            (filter (fun vlan => VLAN.Parent vlan =? bridgeName) vlans))%list.
Proof.
  induction vlans as [|v vlans IH]; intros acc; cbn [fold_left filter map].
  - now rewrite app_nil_r.
  - rewrite IH. destruct (VLAN.Parent v =? bridgeName); [|reflexivity].
    cbn [map]. now rewrite <- app_assoc.
Qed.

(** The loop that prints the tags appends one block per tag. *)
Lemma print_tag_blocks (tags : list Z) :
  forall ret,
    fold_left
      (fun ret tag =>
         (ret ++ NL ++ "[BridgeVLAN]" ++ NL)
           ++ "VLAN=" ++ strconv.FormatInt tag ++ NL)
      tags ret
    = ret ++ tagBlocks tags.
Proof.
  induction tags as [|t tags IH]; intros ret; cbn [fold_left tagBlocks fold_right].
  - now rewrite append_empty_r.
  - rewrite IH. unfold tagBlock. now rewrite !append_assoc.
Qed.

(** The tags of a bridge are those of its three sources. *)
Lemma bridgeVLANTags_In (bridgeName : string) (specificVLAN : Z)
    (additionalVLANTags : list Z) (vlans : list VLAN.t) (t : Z) :
  In t (bridgeVLANTags bridgeName specificVLAN additionalVLANTags vlans)
  <-> (specificVLAN <> 0 /\ t = specificVLAN)
      \/ In t additionalVLANTags
      \/ (exists vlan, In vlan vlans /\ VLAN.Parent vlan = bridgeName
                       /\ VLAN.ID vlan = t).
Proof.
  unfold bridgeVLANTags.
  rewrite Compact_In, collect_vlan_ids.
  rewrite (Permutation_in' eq_refl (Sort_Permutation _)).
  rewrite !in_app_iff, in_map_iff.
  assert (Hvl :
    (exists x, VLAN.ID x = t
               /\ In x (filter (fun vlan => VLAN.Parent vlan =? bridgeName) vlans))
    <-> (exists vlan, In vlan vlans /\ VLAN.Parent vlan = bridgeName
                      /\ VLAN.ID vlan = t)).
  { split; intros [v H]; exists v; rewrite filter_In in *;
      rewrite String.eqb_eq in *; tauto. }
  rewrite Hvl.
  destruct (Z.eqb_spec specificVLAN 0) as [->|Hne]; cbn [negb In app].
  - intuition congruence.
  - intuition congruence.
Qed.

Lemma bridgeVLANTags_sorted (bridgeName : string) (specificVLAN : Z)
    (additionalVLANTags : list Z) (vlans : list VLAN.t) :
  StronglySorted Z.lt
    (bridgeVLANTags bridgeName specificVLAN additionalVLANTags vlans).
Proof. unfold bridgeVLANTags. apply Compact_sorted, Sort_sorted. Qed.

(** C2.  The [[BridgeVLAN]] listing of a device is, when its primary tag is
    set, the PVID/EgressUntagged block of that tag, followed in every case
    by one tag block per element of a tag sequence that is strictly
    ascending (hence free of duplicates) and whose elements are exactly the
    primary tag when set, the additional trunk tags, and the IDs of the
    declared VLANs whose parent is the device. *)
Theorem C2_bridge_vlan_tags (bridgeName : string) (specificVLAN : Z)
    (additionalVLANTags : list Z) (vlans : list VLAN.t) :
  exists tags : list Z,
    generateBridgeVLANContents bridgeName specificVLAN additionalVLANTags vlans
    = (if (specificVLAN =? 0)%Z then "" else pvidBlock specificVLAN)
        ++ tagBlocks tags
    /\ StronglySorted Z.lt tags
    /\ (forall t : Z,
          In t tags
          <-> (specificVLAN <> 0 /\ t = specificVLAN)
              \/ In t additionalVLANTags
              \/ (exists vlan, In vlan vlans
                               /\ VLAN.Parent vlan = bridgeName
                               /\ VLAN.ID vlan = t)).
Proof.
  exists (bridgeVLANTags bridgeName specificVLAN additionalVLANTags vlans).
  split; [|split].
  - unfold generateBridgeVLANContents.
    pose proof (bridgeVLANTags_In bridgeName specificVLAN
                  additionalVLANTags vlans specificVLAN) as Hin.
    destruct (bridgeVLANTags bridgeName specificVLAN additionalVLANTags vlans)
      as [|t tags] eqn:Etags.
    + cbn [List.length Nat.ltb Nat.leb tagBlocks fold_right].
      destruct (Z.eqb_spec specificVLAN 0) as [E|Hne]; [reflexivity|].
      exfalso. apply Hin. left. now split.
    + cbn [List.length Nat.ltb Nat.leb].
      rewrite print_tag_blocks.
      destruct (Z.eqb_spec specificVLAN 0) as [E|Hne]; cbn [negb];
        [reflexivity|].
      unfold pvidBlock. now rewrite !append_assoc.
  - apply bridgeVLANTags_sorted.
  - intros t. apply bridgeVLANTags_In.
Qed.

(** The bridge-facing artifacts of an interface (the bridge side of its veth
    pair and the underlying device) and of a bond (the bridge side of its
    veth pair and the bond device) all end with the listing of
    [generateBridgeVLANContents] for the device. *)
Lemma interface_bridge_facing_artifacts {SystemNetworkProxy : Type}
    (networkCfg : Config.t SystemNetworkProxy) (i : Interface.t) :
  In i (Config.Interfaces networkCfg) ->
  let listing :=
    generateBridgeVLANContents (Interface.Name i) (Interface.VLAN i)
      (Interface.VLANTags i) (Config.VLANs networkCfg) in
  In {| Name := "20-vt" ++ Interface.Name i ++ ".network";
        Contents :=
          ("[Match]" ++ NL ++ "Name=vt" ++ Interface.Name i ++ NL ++ NL
           ++ "[Network]" ++ NL ++ "Bridge=br" ++ Interface.Name i ++ NL)
          ++ listing |}
     (generateNetworkFileContents networkCfg)
  /\ In {| Name := "20-en" ++ strippedHwaddr (Interface.Hwaddr i) ++ ".network";
           Contents :=
             ("[Match]" ++ NL
              ++ "Name=en" ++ strippedHwaddr (Interface.Hwaddr i) ++ NL ++ NL
              ++ "[Network]" ++ NL
              ++ "LLDP=" ++ strconv.FormatBool (Interface.LLDP i) ++ NL
              ++ "EmitLLDP=" ++ strconv.FormatBool (Interface.LLDP i) ++ NL
              ++ "Bridge=br" ++ Interface.Name i ++ NL)
             ++ listing |}
        (generateNetworkFileContents networkCfg).
Proof.
  intros Hin listing. unfold generateNetworkFileContents.
  split; apply in_or_app; left; apply in_flat_map; exists i;
    (split; [assumption|]); unfold interfaceNetworkFiles.
  - right; left. reflexivity.
  - right; right; left. reflexivity.
Qed.

Lemma bond_bridge_facing_artifacts {SystemNetworkProxy : Type}
    (networkCfg : Config.t SystemNetworkProxy) (b : Bond.t) :
  In b (Config.Bonds networkCfg) ->
  let listing :=
    generateBridgeVLANContents (Bond.Name b) (Bond.VLAN b)
      (Bond.VLANTags b) (Config.VLANs networkCfg) in
  In {| Name := "21-vt" ++ Bond.Name b ++ ".network";
        Contents :=
          ("[Match]" ++ NL ++ "Name=vt" ++ Bond.Name b ++ NL ++ NL
           ++ "[Network]" ++ NL ++ "Bridge=br" ++ Bond.Name b ++ NL)
          ++ listing |}
     (generateNetworkFileContents networkCfg)
  /\ In {| Name := "21-bn" ++ Bond.Name b ++ ".network";
           Contents :=
             ("[Match]" ++ NL ++ "Name=bn" ++ Bond.Name b ++ NL ++ NL
              ++ "[Network]" ++ NL
              ++ "LinkLocalAddressing=no" ++ NL
              ++ "ConfigureWithoutCarrier=yes" ++ NL
              ++ "Bridge=br" ++ Bond.Name b ++ NL)
             ++ listing |}
        (generateNetworkFileContents networkCfg).
Proof.
  intros Hin listing. unfold generateNetworkFileContents.
  split; apply in_or_app; right; apply in_or_app; left;
    apply in_flat_map; exists b; (split; [assumption|]);
    unfold bondNetworkFiles; apply in_or_app; left.
  - right; left. reflexivity.
  - right; right; left. reflexivity.
Qed.

(** Scenario B, run: primary tag 10 and VLANs 20 and 10 on [eth0] give the
    PVID block of 10, then the tags 10 and 20. *)
Example scenario_B_listing :
  generateBridgeVLANContents "eth0" 10 [] (Config.VLANs Scenario.configB)
  = NL ++ "[BridgeVLAN]" ++ NL ++ "PVID=10" ++ NL ++ "EgressUntagged=10" ++ NL
    ++ NL ++ "[BridgeVLAN]" ++ NL ++ "VLAN=10" ++ NL
    ++ NL ++ "[BridgeVLAN]" ++ NL ++ "VLAN=20" ++ NL.
Proof. reflexivity. Qed.

Example scenario_B_artifacts :
  map Name (generateNetworkFileContents Scenario.configB)
  = ["20-eth0.network"; "20-vteth0.network"; "20-enaabbccddeeff.network";
     "20-breth0.network"; "22-vlan20.network"; "22-vlan10.network"].
Proof. reflexivity. Qed.

(** Overlapping sources with duplicates and an unsorted trunk list. *)
Example overlapping_sources :
  bridgeVLANTags "eth0" 10 [30; 20; 30; 10]
    [Scenario.vlan "a" 20 "eth0"; Scenario.vlan "b" 40 "eth1";
     Scenario.vlan "c" 5 "eth0"; Scenario.vlan "d" 20 "eth0"]
  = [5; 10; 20; 30].
Proof. reflexivity. Qed.

(** Scenario A, run: the files generated for [eth0], and the lines of its
    network file. *)
Example scenario_A_files :
  map Name (generateLinkFileContents Scenario.configA) = ["00-enaabbccddeeff.link"]
  /\ option_map (map Name) (generateNetdevFileContents Scenario.configA)
     = Some ["10-breth0.netdev"; "10-eth0.netdev"]
  /\ map (fun f => lines (Contents f))
         (firstn 1 (generateNetworkFileContents Scenario.configA))
     = [["[Match]"; "Name=eth0"; "";
         "[Link]"; "RequiredForOnline=yes"; "RequiredFamilyForOnline=any"; "";
         "[DHCP]"; "ClientIdentifier=mac"; "RouteMetric=100"; "UseMTU=true"; "";
         "[Network]"; "LinkLocalAddressing=ipv6"; "IPv6AcceptRA=false";
         "DHCP=ipv4"]].
Proof. repeat split; reflexivity. Qed.

(* ================================================================== *)
(** ** The hardware address of a bond's veth device
       ([generateNetdevFileContents]) *)
(* ================================================================== *)

Lemma bondsNetdevFiles_Some (bonds : list Bond.t) :
  (forall b, In b bonds -> Bond.Hwaddr b = "" -> Bond.Members b <> []) ->
  exists files,
    bondsNetdevFiles bonds = Some files
    /\ forall b, In b bonds ->
         exists mac,
           bondMacAddr b = Some mac
           /\ In (vethNetdev "11" (Bond.Name b) mac (mtuString (Bond.MTU b)))
                 files.
Proof.
  induction bonds as [|b0 bonds IH]; intros Hm.
  - exists []. split; [reflexivity | intros b []].
  - destruct IH as [more [Emore Hmore]].
    { intros b Hb. apply Hm. now right. }
    assert (exists mac, bondMacAddr b0 = Some mac) as [mac Emac].
    { unfold bondMacAddr.
      destruct (String.eqb_spec (Bond.Hwaddr b0) "") as [E|N]; [|eauto].
      specialize (Hm b0 (or_introl eq_refl) E).
      destruct (Bond.Members b0) as [|m ms]; [congruence|]. now exists m. }
    cbn [bondsNetdevFiles]. unfold bondNetdevFiles at 1.
    rewrite Emac, Emore. eexists. split; [reflexivity|].
    intros b [<-|Hb].
    + exists mac. split; [assumption|]. cbn. tauto.
    + destruct (Hmore b Hb) as [mac' [E' Hin']].
      exists mac'. split; [assumption|]. apply in_or_app. now right.
Qed.

(** C8.  When every bond without a hardware address of its own has at least
    one member, the netdev generator completes, and for every bond the veth
    artifact [11-<name>.netdev] it generates carries as [MACAddress] the
    first member's hardware address when the bond's own is unset, and the
    bond's own hardware address when it is set. *)
Theorem C8_bond_veth_mac {SystemNetworkProxy : Type}
    (networkCfg : Config.t SystemNetworkProxy)
    (Hmembers : forall b, In b (Config.Bonds networkCfg) ->
                          Bond.Hwaddr b = "" -> Bond.Members b <> []) :
  exists files,
    generateNetdevFileContents networkCfg = Some files
    /\ forall b, In b (Config.Bonds networkCfg) ->
         exists mac,
           (Bond.Hwaddr b = "" -> nth_error (Bond.Members b) 0 = Some mac)
           /\ (Bond.Hwaddr b <> "" -> mac = Bond.Hwaddr b)
           /\ In {| Name := "11-" ++ Bond.Name b ++ ".netdev";
                    Contents :=
                      "[NetDev]" ++ NL
                      ++ "Name=" ++ Bond.Name b ++ NL
                      ++ "Kind=veth" ++ NL
                      ++ "MACAddress=" ++ mac ++ NL
                      ++ mtuString (Bond.MTU b) ++ NL
                      ++ NL
                      ++ "[Peer]" ++ NL
                      ++ "Name=vt" ++ Bond.Name b ++ NL |}
                 files.
Proof.
  destruct (bondsNetdevFiles_Some _ Hmembers) as [bondFiles [E Hfiles]].
  unfold generateNetdevFileContents. rewrite E.
  eexists. split; [reflexivity|].
  intros b Hb. destruct (Hfiles b Hb) as [mac [Emac Hin]].
  exists mac. unfold bondMacAddr in Emac.
  destruct (String.eqb_spec (Bond.Hwaddr b) "") as [Eh|Nh].
  - split; [intros _; exact Emac|]. split; [congruence|].
    apply in_or_app; right. apply in_or_app; left. exact Hin.
  - split; [congruence|]. split; [intros _; congruence|].
    apply in_or_app; right. apply in_or_app; left. exact Hin.
Qed.

(** C8 on scenario C: a bond of two members without a hardware address. *)
Lemma C8_bond_veth_mac_witness :
  (forall b, In b (Config.Bonds Scenario.configC) ->
             Bond.Hwaddr b = "" -> Bond.Members b <> [])
  /\ exists files,
       generateNetdevFileContents Scenario.configC = Some files
       /\ forall b, In b (Config.Bonds Scenario.configC) ->
            exists mac,
              (Bond.Hwaddr b = "" -> nth_error (Bond.Members b) 0 = Some mac)
              /\ (Bond.Hwaddr b <> "" -> mac = Bond.Hwaddr b)
              /\ In {| Name := "11-" ++ Bond.Name b ++ ".netdev";
                       Contents :=
                         "[NetDev]" ++ NL
                         ++ "Name=" ++ Bond.Name b ++ NL
                         ++ "Kind=veth" ++ NL
                         ++ "MACAddress=" ++ mac ++ NL
                         ++ mtuString (Bond.MTU b) ++ NL
                         ++ NL
                         ++ "[Peer]" ++ NL
                         ++ "Name=vt" ++ Bond.Name b ++ NL |}
                    files.
Proof.
  assert (forall b, In b (Config.Bonds Scenario.configC) ->
                    Bond.Hwaddr b = "" -> Bond.Members b <> []) as Hmembers.
  { intros b [<-|[]] _. discriminate. }
  split; [exact Hmembers|].
  exact (C8_bond_veth_mac Scenario.configC Hmembers).
Defined.

(** Scenario C, run: the veth device of [bond0] carries the hardware
    address of the first member. *)
Example scenario_C_veth :
  option_map (fun files => nth 2 files {| Name := ""; Contents := "" |})
             (generateNetdevFileContents Scenario.configC)
  = Some {| Name := "11-bond0.netdev";
            Contents :=
              "[NetDev]" ++ NL
              ++ "Name=bond0" ++ NL
              ++ "Kind=veth" ++ NL
              ++ "MACAddress=aa:bb:cc:dd:ee:01" ++ NL
              ++ NL
              ++ NL
              ++ "[Peer]" ++ NL
              ++ "Name=vtbond0" ++ NL |}.
Proof. reflexivity. Qed.

(** A bond with neither a hardware address nor a member makes the
    generator panic. *)
Example bond_without_members_panics :
  generateNetdevFileContents
    (Scenario.config [] [{| Bond.Name := "bond1"; Bond.Hwaddr := "";
                            Bond.Members := []; Bond.Mode := "802.3ad";
                            Bond.MTU := 0; Bond.Addresses := [];
                            Bond.Routes := []; Bond.VLAN := 0;
                            Bond.VLANTags := []; Bond.LLDP := false;
                            Bond.RequiredForOnline := "" |}] [])
  = None.
Proof. reflexivity. Qed.

(* ================================================================== *)
(** ** The system action endpoint ([apiSystem]) *)
(* ================================================================== *)

(** C10.  For a request whose method is not PUT, the handler sets the
    content type, renders a NotImplemented response and does nothing else:
    the server state, hence both control events, is as before, and the
    request body is not decoded. *)
Theorem C10_method_not_put
    (json_Decode : string -> rest.reqSystem + error)
    (s : rest.State) (r : rest.Request)
    (Hmethod : rest.Method r <> rest.MethodPut) :
  rest.apiSystem json_Decode s r
  = (Returns s,
     [rest.Header_Set "Content-Type" "application/json";
      rest.Render (rest.NotImplemented None)])
  /\ forall body,
       ~ In (rest.Decoder_Decode body) (snd (rest.apiSystem json_Decode s r)).
Proof.
  unfold rest.apiSystem.
  apply String.eqb_neq in Hmethod. rewrite Hmethod. cbn [negb app snd].
  split; [reflexivity|].
  intros body [H|[H|[]]]; discriminate.
Qed.

(** C10 at a GET request that asks for a reboot, both events pending. *)
Lemma C10_method_not_put_witness :
  let s := {| rest.TriggerShutdown := rest.Open;
              rest.TriggerReboot := rest.Open |} in
  let r := {| rest.Method := "GET"; rest.Body := "{'action':'reboot'}" |} in
  let decode := fun _ : string => inl {| rest.Action := "reboot" |} in
  rest.Method r <> rest.MethodPut
  /\ rest.apiSystem decode s r
     = (Returns s,
        [rest.Header_Set "Content-Type" "application/json";
         rest.Render (rest.NotImplemented None)]).
Proof.
  intros s r decode.
  assert (rest.Method r <> rest.MethodPut) as H by discriminate.
  split; [exact H|].
  apply (C10_method_not_put decode s r H).
Defined.

(* ================================================================== *)
(** ** The convergence poller: general facts *)
(* ================================================================== *)

Section Poller.

Context {SystemNetworkProxy : Type} {host : Host SystemNetworkProxy}.
Local Abbreviation Hist := (History SystemNetworkProxy).
Local Abbreviation SystemNetworkConfig := (Config.t SystemNetworkProxy).

(** Running a computation one step: the monad and the primitive
    computations unfolded, the loops left folded. *)
Ltac run :=
  cbv beta iota zeta
      delta [bind ret now sleep panic unfinished perform RunCommandContext
             isOnline hasAtLeastOneConfiguredIP fst snd].

(** Case analysis on the answer of the host to the next command, and on
    the next test of an output. *)
Ltac case_command :=
  match goal with
  | |- context [commandResult ?h] =>
      let output := fresh "output" in
      let err := fresh "err" in
      destruct (commandResult h) as [output|err]
  end.

Ltac case_test :=
  match goal with
  | |- context [negb (strings.Contains ?o ?s)] =>
      destruct (strings.Contains o s); cbn [negb]
  | |- context [negb (0 <? ?n)%Z] =>
      destruct (0 <? n)%Z; cbn [negb]
  end.

(** A pass over the devices always reports, and only adds to the
    history. *)
Lemma checkDevices_returns (devices : list string) :
  forall h : Hist,
    exists b ext, checkDevices devices h = (Returns b, (ext ++ h)%list).
Proof.
  induction devices as [|name rest IH]; intros h.
  - exists true, []. reflexivity.
  - cbn [checkDevices]. run.
    case_command; cbn [negb]; [|exists false; eexists [_]; reflexivity].
    case_test.
    + case_test; [|exists false; eexists [_]; reflexivity].
      case_command; cbn [negb]; [|exists false; eexists [_; _]; reflexivity].
      case_test; [|exists false; eexists [_; _]; reflexivity].
      match goal with
      | |- context [checkDevices rest ?past] =>
          destruct (IH past) as [b [ext E]]
      end.
      rewrite E. exists b. eexists (ext ++ [_; _])%list.
      rewrite <- app_assoc. reflexivity.
    + match goal with
      | |- context [checkDevices rest ?past] =>
          destruct (IH past) as [b [ext E]]
      end.
      rewrite E. exists b. eexists (ext ++ [_])%list.
      rewrite <- app_assoc. reflexivity.
Qed.

(** A pass over a device and then others is the pass over the device
    alone, continued on the others when it did not break. *)
Lemma checkDevices_cons (name : string) (rest : list string) (h : Hist) :
  checkDevices (name :: rest) h
  = match checkDevices [name] h with
    | (Returns true, h') => checkDevices rest h'
    | other => other
    end.
Proof.
  cbn [checkDevices]. run.
  case_command; cbn [negb]; [|reflexivity].
  case_test; [|reflexivity].
  case_test; [|reflexivity].
  case_command; cbn [negb]; [|reflexivity].
  case_test; reflexivity.
Qed.

(** A device that is never online makes every pass that includes it
    fail. *)
Lemma checkDevices_neverOnline (name : string) (devices : list string) :
  neverOnline name -> In name devices ->
  forall h : Hist, fst (checkDevices devices h) = Returns false.
Proof.
  intros Hnever. induction devices as [|d rest IH]; intros Hin h; [easy|].
  rewrite checkDevices_cons.
  destruct (checkDevices_returns [d] h) as [b [ext E]]. rewrite E.
  destruct b; [|reflexivity].
  destruct Hin as [->|Hin]; [|now apply IH].
  specialize (Hnever h). rewrite E in Hnever. discriminate.
Qed.

(** One iteration of the online loop. *)
Lemma onlineLoop_step (fuel : nat) (endTime : Time) (devices : list string)
    (h : Hist) :
  onlineLoop (S fuel) endTime devices h
  = if time.After (clock (time_Now :: h)) endTime
    then (Returns (Some onlineTimeout), time_Now :: h)
    else match checkDevices devices (time_Now :: h) with
         | (Returns true, h') => (Returns None, h')
         | (Returns false, h') =>
             onlineLoop fuel endTime devices
               (time_Sleep (500 * time.Millisecond) :: h')
         | (Panics, h') => (Panics, h')
         | (Unfinished, h') => (Unfinished, h')
         end.
Proof.
  cbn [onlineLoop]. run.
  destruct (time.After _ endTime); [reflexivity|].
  destruct (checkDevices devices (time_Now :: h)) as [[[|]| |] h'];
    reflexivity.
Qed.

(** One iteration of the rename loop. *)
Lemma renameLoop_step (fuel : nat) (endTime : Time) (h : Hist) :
  let trigger := subprocess_RunCommandContext "udevadm"
                   ["trigger"; "--action=add"] in
  let settle := subprocess_RunCommandContext "udevadm" ["settle"] in
  let journal := subprocess_RunCommandContext "journalctl"
                   ["-b"; "-t"; "kernel"; "-g";
                    "en[[:xdigit:]]{12}: renamed from "] in
  renameLoop (S fuel) endTime h
  = if time.After (clock (time_Now :: h)) endTime
    then (Returns (Some renameTimeout), time_Now :: h)
    else
      match commandResult (trigger :: time_Now :: h) with
      | inr err => (Returns (Some err), trigger :: time_Now :: h)
      | inl _ =>
          match commandResult (settle :: trigger :: time_Now :: h) with
          | inr err => (Returns (Some err), settle :: trigger :: time_Now :: h)
          | inl _ =>
              match commandResult
                      (journal :: settle :: trigger :: time_Now :: h) with
              | inl _ =>
                  (Returns None, journal :: settle :: trigger :: time_Now :: h)
              | inr _ =>
                  renameLoop fuel endTime
                    (time_Sleep (500 * time.Millisecond)
                     :: journal :: settle :: trigger :: time_Now :: h)
              end
          end
      end.
Proof.
  intros trigger settle journal. cbn [renameLoop]. run.
  destruct (time.After _ endTime); [reflexivity|].
  fold trigger. destruct (commandResult (trigger :: _)); [|reflexivity].
  fold settle. destruct (commandResult (settle :: _)); [|reflexivity].
  fold journal. destruct (commandResult (journal :: _)); reflexivity.
Qed.

(** The outer loop of the online wait ends in one of three ways: out of
    fuel, success, or the timeout error.  No error of a command ever comes
    out of it. *)
Lemma onlineLoop_outcomes (fuel : nat) (endTime : Time)
    (devices : list string) :
  forall h : Hist,
    fst (onlineLoop fuel endTime devices h) = Unfinished
    \/ fst (onlineLoop fuel endTime devices h) = Returns None
    \/ fst (onlineLoop fuel endTime devices h) = Returns (Some onlineTimeout).
Proof.
  induction fuel as [|fuel IH]; intros h; [now left|].
  rewrite onlineLoop_step.
  destruct (time.After _ endTime); [now right; right|].
  destruct (checkDevices_returns devices (time_Now :: h)) as [b [ext E]].
  rewrite E. destruct b; [now right; left|]. apply IH.
Qed.

(** The timeout error is only returned on a clock reading past the
    deadline, and that reading is the last thing the loop did. *)
Lemma onlineLoop_timeout_late (fuel : nat) (endTime : Time)
    (devices : list string) :
  forall (h h' : Hist),
    onlineLoop fuel endTime devices h = (Returns (Some onlineTimeout), h') ->
    exists past, h' = time_Now :: past /\ endTime < clock h'.
Proof.
  induction fuel as [|fuel IH]; intros h h' E; [discriminate|].
  rewrite onlineLoop_step in E.
  destruct (time.After _ endTime) eqn:Eafter.
  - injection E as <-. exists h. split; [reflexivity|].
    unfold time.After in Eafter. now apply Z.ltb_lt in Eafter.
  - destruct (checkDevices_returns devices (time_Now :: h)) as [b [ext Eb]].
    rewrite Eb in E. destruct b; [discriminate|]. now apply IH in E.
Qed.

(** A loop whose first reading of the clock is past the deadline fails
    at once: that reading is all it does. *)
Lemma onlineLoop_expired (fuel : nat) (endTime : Time)
    (devices : list string) (h : Hist) :
  endTime < clock (time_Now :: h) ->
  onlineLoop (S fuel) endTime devices h
  = (Returns (Some onlineTimeout), time_Now :: h).
Proof.
  intros Hlate. rewrite onlineLoop_step.
  unfold time.After. apply Z.ltb_lt in Hlate. now rewrite Hlate.
Qed.

Lemma renameLoop_expired (fuel : nat) (endTime : Time) (h : Hist) :
  endTime < clock (time_Now :: h) ->
  renameLoop (S fuel) endTime h
  = (Returns (Some renameTimeout), time_Now :: h).
Proof.
  intros Hlate. rewrite renameLoop_step.
  unfold time.After. apply Z.ltb_lt in Hlate. now rewrite Hlate.
Qed.

Section WithClock.

Context {laws : ClockLaws host}.

Lemma clock_extends (ext h : Hist) : clock h <= clock (ext ++ h)%list.
Proof.
  induction ext as [|c ext IH]; cbn [app]; [lia|].
  pose proof (clock_monotone c (ext ++ h)%list). lia.
Qed.

(** With [f] further iterations available after the first and less
    than [f] periods left until the deadline, the online loop ends. *)
Lemma onlineLoop_ends (devices : list string) (endTime : Time)
    (f : nat) :
  forall h : Hist,
    endTime - clock h < 500 * time.Millisecond * Z.of_nat f ->
    fst (onlineLoop (S f) endTime devices h) <> Unfinished.
Proof.
  induction f as [|f IH]; intros h Hleft.
  - pose proof (clock_monotone time_Now h).
    rewrite onlineLoop_expired by lia. discriminate.
  - rewrite onlineLoop_step.
    destruct (time.After _ endTime); [discriminate|].
    destruct (checkDevices_returns devices (time_Now :: h)) as [b [ext E]].
    rewrite E. destruct b; [discriminate|]. apply IH.
    pose proof (clock_sleep (500 * time.Millisecond)
                  (ext ++ time_Now :: h)%list).
    pose proof (clock_extends ext (time_Now :: h)).
    pose proof (clock_monotone time_Now h).
    unfold time.Millisecond in *. lia.
Qed.

(** The same for the rename loop. *)
Lemma renameLoop_ends (endTime : Time) (f : nat) :
  forall h : Hist,
    endTime - clock h < 500 * time.Millisecond * Z.of_nat f ->
    fst (renameLoop (S f) endTime h) <> Unfinished.
Proof.
  induction f as [|f IH]; intros h Hleft.
  - pose proof (clock_monotone time_Now h).
    rewrite renameLoop_expired by lia. discriminate.
  - rewrite renameLoop_step.
    destruct (time.After _ endTime); [discriminate|].
    destruct (commandResult _); [|discriminate].
    destruct (commandResult _); [|discriminate].
    destruct (commandResult _); [discriminate|].
    apply IH.
    match goal with
    | |- context [clock (time_Sleep ?d :: ?c1 :: ?c2 :: ?c3 :: ?past)] =>
        pose proof (clock_sleep d (c1 :: c2 :: c3 :: past));
        pose proof (clock_extends [c1; c2; c3] past)
    end.
    pose proof (clock_monotone time_Now h).
    cbn [app] in *. unfold time.Millisecond in *. lia.
Qed.

(** Fuel for [iterations timeout] iterations, or more, is enough for a
    loop whose deadline is [timeout] after the reading at [h]. *)
Lemma enough_iterations (timeout : Duration) (fuel : nat) (h : Hist) :
  (iterations timeout <= fuel)%nat ->
  exists f, fuel = S f
            /\ (clock h + timeout) - clock h
               < 500 * time.Millisecond * Z.of_nat f.
Proof.
  unfold iterations, time.Millisecond. intros Hfuel.
  destruct fuel as [|f]; [lia|]. exists f. split; [reflexivity|].
  assert (Z.of_nat (Z.to_nat (timeout / (500 * 1000000))) + 1
          <= Z.of_nat f) as Hf by lia.
  pose proof (Z.div_mod timeout (500 * 1000000) ltac:(lia)) as Hdm.
  pose proof (Z.mod_pos_bound timeout (500 * 1000000) ltac:(lia)) as Hmod.
  destruct (Z_lt_le_dec timeout 0) as [Hneg|Hpos].
  - lia.
  - rewrite Z2Nat.id in Hf by (apply Z.div_pos; lia). nia.
Qed.

Lemma waitForNetworkOnline_ends (fuel : nat)
    (networkCfg : SystemNetworkConfig) (timeout : Duration) (h : Hist) :
  (iterations timeout <= fuel)%nat ->
  fst (waitForNetworkOnline fuel networkCfg timeout h) <> Unfinished.
Proof.
  intros Hfuel. unfold waitForNetworkOnline, bind at 1. unfold now at 1.
  destruct (enough_iterations timeout fuel (time_Now :: h) Hfuel)
    as [f [-> Hf]].
  now apply onlineLoop_ends.
Qed.

Lemma waitForUdevInterfaceRename_ends (fuel : nat) (timeout : Duration)
    (h : Hist) :
  (iterations timeout <= fuel)%nat ->
  fst (waitForUdevInterfaceRename fuel timeout h) <> Unfinished.
Proof.
  intros Hfuel. unfold waitForUdevInterfaceRename, bind at 1.
  unfold now at 1.
  destruct (enough_iterations timeout fuel (time_Now :: h) Hfuel)
    as [f [-> Hf]].
  now apply renameLoop_ends.
Qed.

End WithClock.

End Poller.

Section Applier.

Context {SystemNetworkProxy : Type} {host : Host SystemNetworkProxy}.
Local Abbreviation Hist := (History SystemNetworkProxy).
Local Abbreviation SystemNetworkConfig := (Config.t SystemNetworkProxy).

(** A computation that ends whatever the history: it returns or panics. *)
Definition ends {A : Type} (m : M A) : Prop :=
  forall h : Hist, fst (m h) <> Unfinished.

Lemma ends_ret {A} (a : A) : ends (ret a).
Proof. intros h. discriminate. Qed.

Lemma ends_panic {A} : ends (panic (A := A)).
Proof. intros h. discriminate. Qed.

Lemma ends_perform (c : call SystemNetworkProxy) : ends (perform c).
Proof. intros h. discriminate. Qed.

Lemma ends_bind {A B} (m : M A) (k : A -> M B) :
  ends m -> (forall a, ends (k a)) -> ends (bind m k).
Proof.
  intros Hm Hk h. unfold bind. specialize (Hm h).
  destruct (m h) as [[a| |] h']; cbn [fst] in *;
    [apply Hk | discriminate | congruence].
Qed.

(** [err := m; if err != nil { return err }; k] ends when both parts do. *)
Lemma ends_check (m k : M (option error)) :
  ends m -> ends k ->
  ends (bind m (fun err => match err with
                           | Some e => ret (Some e)
                           | None => k
                           end)).
Proof.
  intros Hm Hk. apply ends_bind; [assumption|].
  intros [e|]; [apply ends_ret | assumption].
Qed.

Lemma ends_writeFiles (files : list networkdConfigFile) :
  ends (writeFiles files).
Proof.
  induction files as [|cfg rest IH]; cbn [writeFiles].
  - apply ends_ret.
  - apply ends_check; [apply ends_perform | assumption].
Qed.

Lemma ends_generateNetworkConfiguration (networkCfg : SystemNetworkConfig) :
  ends (generateNetworkConfiguration networkCfg).
Proof.
  unfold generateNetworkConfiguration.
  repeat first
    [ apply ends_check | apply ends_perform | apply ends_writeFiles ].
  destruct (generateNetdevFileContents networkCfg); [|apply ends_panic].
  repeat first
    [ apply ends_check | apply ends_perform | apply ends_writeFiles ].
  - destruct (Config.NTP networkCfg); [|apply ends_ret].
    destruct (negb _); [apply ends_perform | apply ends_ret].
  - destruct (Config.NTP networkCfg) as [ntp|].
    + destruct (_ =? _)%string; [|apply ends_ret].
      apply ends_bind; [apply ends_perform | intros; apply ends_ret].
    + apply ends_bind; [apply ends_perform | intros; apply ends_ret].
Qed.

End Applier.

(* ================================================================== *)
(** ** Validation comes first ([ApplyNetworkConfiguration]) *)
(* ================================================================== *)

(** C9.  When the configuration fails validation, the apply returns the
    validation error and the history of calls is what it was: no hostname
    change, no update of the proxy environment, no file or directory
    written or removed, no service restarted, no command run. *)
Theorem C9_validation_before_effects
    {SystemNetworkProxy : Type} {host : Host SystemNetworkProxy}
    (fuel : nat) (networkCfg : option (Config.t SystemNetworkProxy))
    (timeout : Duration) (h : History SystemNetworkProxy) (err : error)
    (Hinvalid : ValidateNetworkConfiguration networkCfg = Some err) :
  ApplyNetworkConfiguration fuel networkCfg timeout h = (Returns (Some err), h).
Proof.
  unfold ApplyNetworkConfiguration. now rewrite Hinvalid.
Qed.

(** C9 at a configuration with a VLAN on an undeclared parent, on a host
    that has already been asked the time once. *)
Lemma C9_validation_before_effects_witness :
  let host := Scenario.scripted 1 Scenario.allGood in
  let err := foreign "VLAN parent is not a declared interface or bond" in
  ValidateNetworkConfiguration (host := host) (Some Scenario.configDangling)
  = Some err
  /\ ApplyNetworkConfiguration (host := host) 12 (Some Scenario.configDangling)
       (30 * time.Second) [time_Now]
     = (Returns (Some err), [time_Now]).
Proof.
  intros host err.
  assert (ValidateNetworkConfiguration (host := host)
            (Some Scenario.configDangling) = Some err) as H by reflexivity.
  split; [exact H|].
  apply (C9_validation_before_effects (host := host) 12
           (Some Scenario.configDangling) (30 * time.Second) [time_Now] err H).
Defined.

(* ================================================================== *)
(** ** The online wait and the failures of its status queries *)
(* ================================================================== *)

Section OnlineWait.

Context {SystemNetworkProxy : Type} {host : Host SystemNetworkProxy}.
Local Abbreviation Hist := (History SystemNetworkProxy).
Local Abbreviation SystemNetworkConfig := (Config.t SystemNetworkProxy).

(** With a device that is never online, the loop does not succeed. *)
Lemma onlineLoop_neverOnline (name : string) (devices : list string)
    (endTime : Time) (fuel : nat) :
  neverOnline name -> In name devices ->
  forall h : Hist, fst (onlineLoop fuel endTime devices h) <> Returns None.
Proof.
  intros Hnever Hin. induction fuel as [|fuel IH]; intros h; [discriminate|].
  rewrite onlineLoop_step.
  destruct (time.After _ endTime); [discriminate|].
  pose proof (checkDevices_neverOnline name devices Hnever Hin
                (time_Now :: h)) as Hpass.
  destruct (checkDevices devices (time_Now :: h)) as [[[|]| |] h'];
    cbn [fst] in *; try discriminate.
  apply IH.
Qed.

(** A pass over two lists of devices, one after the other, is the pass over
    the first, continued on the second when it did not break. *)
Lemma checkDevices_app (before rest : list string) :
  forall h : Hist,
    checkDevices (before ++ rest) h
    = match checkDevices before h with
      | (Returns true, h') => checkDevices rest h'
      | other => other
      end.
Proof.
  induction before as [|name before IH]; intros h; [reflexivity|].
  cbn [app]. rewrite (checkDevices_cons name (before ++ rest)).
  rewrite (checkDevices_cons name before).
  destruct (checkDevices [name] h) as [[[|]| |] h']; try reflexivity.
  apply IH.
Qed.

End OnlineWait.

(** C5, as stated, fails on a host whose first [networkctl status] fails and
    whose later ones report the device online: the failure is not
    propagated, the wait polls again and returns success. *)
Lemma C5_counterexample :
  ~ statusQueryFailureIsFatal
      (host := Scenario.scripted 1 Scenario.flaky)
      30 Scenario.configA (10 * time.Second) [].
Proof.
  intros Hfatal.
  specialize
    (Hfatal
       [subprocess_RunCommandContext "ip" ["address"; "show"; "eth0"];
        subprocess_RunCommandContext "networkctl" ["status"; "eth0"];
        time_Now; time_Sleep 500000000]
       [time_Now; time_Now]
       "networkctl" ["status"; "eth0"] (foreign "exit status 1")
       eq_refl eq_refl).
  destruct Hfatal as [e He]. vm_compute in He. discriminate.
Qed.

(** C5, amended.  A failure of a status query of the online wait is
    absorbed by the polling loop.  When [networkctl status] fails for a
    device reached by the pass, the device counts as required and not
    online, and the pass stops there reporting not converged, without
    querying the addresses of the device.  When [ip address show] fails
    for a device that [networkctl] reports as required and online, the
    device counts as holding no address, and the pass stops there
    reporting not converged.  After a pass that reports not converged, the
    loop, the deadline not being passed, sleeps for 500 ms and goes round
    again: it reads the clock and, the deadline still not being passed,
    polls all the devices anew, returning nil when that pass finds them
    converged.  The online wait is this loop, started after a first
    reading of the clock, and it returns success or its timeout error,
    never the error of a command. *)
Theorem C5_status_query_failure_absorbed
    {SystemNetworkProxy : Type} {host : Host SystemNetworkProxy} :
  (forall (before : list string) (name : string) (rest : list string)
          (h reached : History SystemNetworkProxy) (err : error),
     checkDevices before h = (Returns true, reached) ->
     commandResult
       (subprocess_RunCommandContext "networkctl" ["status"; name] :: reached)
     = inr err ->
     isOnline name reached
     = (Returns (false, true),
        subprocess_RunCommandContext "networkctl" ["status"; name] :: reached)
     /\ checkDevices (before ++ name :: rest) h
        = (Returns false,
           subprocess_RunCommandContext "networkctl" ["status"; name]
           :: reached))
  /\ (forall (before : list string) (name : string) (rest : list string)
             (h reached : History SystemNetworkProxy) (output : string)
             (err : error),
        checkDevices before h = (Returns true, reached) ->
        commandResult
          (subprocess_RunCommandContext "networkctl" ["status"; name]
           :: reached)
        = inl output ->
        strings.Contains output "Required For Online: yes" = true ->
        strings.Contains output "Online state: online" = true ->
        commandResult
          (subprocess_RunCommandContext "ip" ["address"; "show"; name]
           :: subprocess_RunCommandContext "networkctl" ["status"; name]
           :: reached)
        = inr err ->
        hasAtLeastOneConfiguredIP name
          (subprocess_RunCommandContext "networkctl" ["status"; name]
           :: reached)
        = (Returns false,
           subprocess_RunCommandContext "ip" ["address"; "show"; name]
           :: subprocess_RunCommandContext "networkctl" ["status"; name]
           :: reached)
        /\ checkDevices (before ++ name :: rest) h
           = (Returns false,
              subprocess_RunCommandContext "ip" ["address"; "show"; name]
              :: subprocess_RunCommandContext "networkctl" ["status"; name]
              :: reached))
  /\ (forall (fuel : nat) (endTime : Time) (devices : list string)
             (h failed : History SystemNetworkProxy),
        time.After (clock (time_Now :: h)) endTime = false ->
        checkDevices devices (time_Now :: h) = (Returns false, failed) ->
        onlineLoop (S fuel) endTime devices h
        = onlineLoop fuel endTime devices
            (time_Sleep (500 * time.Millisecond) :: failed)
        /\ (time.After
              (clock (time_Now :: time_Sleep (500 * time.Millisecond) :: failed))
              endTime = true ->
            onlineLoop (S (S fuel)) endTime devices h
            = (Returns (Some onlineTimeout),
               time_Now :: time_Sleep (500 * time.Millisecond) :: failed))
        /\ (forall converged : History SystemNetworkProxy,
              time.After
                (clock (time_Now
                        :: time_Sleep (500 * time.Millisecond) :: failed))
                endTime = false ->
              checkDevices devices
                (time_Now :: time_Sleep (500 * time.Millisecond) :: failed)
              = (Returns true, converged) ->
              onlineLoop (S (S fuel)) endTime devices h
              = (Returns None, converged)))
  /\ (forall (fuel : nat) (networkCfg : Config.t SystemNetworkProxy)
             (timeout : Duration) (h : History SystemNetworkProxy),
        waitForNetworkOnline fuel networkCfg timeout h
        = onlineLoop fuel (clock (time_Now :: h) + timeout)
            (devicesToCheck networkCfg) (time_Now :: h))
  /\ (forall (fuel : nat) (networkCfg : Config.t SystemNetworkProxy)
             (timeout : Duration) (h : History SystemNetworkProxy),
        fst (waitForNetworkOnline fuel networkCfg timeout h) = Unfinished
        \/ fst (waitForNetworkOnline fuel networkCfg timeout h)
           = Returns None
        \/ fst (waitForNetworkOnline fuel networkCfg timeout h)
           = Returns (Some onlineTimeout)).
Proof.
  split; [|split; [|split; [|split]]].
  - intros before name rest h reached err Hbefore Hfail. split.
    + unfold isOnline, bind, RunCommandContext. now rewrite Hfail.
    + rewrite checkDevices_app, Hbefore. cbn [checkDevices].
      unfold isOnline, bind, RunCommandContext. now rewrite Hfail.
  - intros before name rest h reached output err Hbefore Hstatus Hreq Hon
      Hfail. split.
    + unfold hasAtLeastOneConfiguredIP, bind, RunCommandContext.
      now rewrite Hfail.
    + rewrite checkDevices_app, Hbefore. cbn [checkDevices].
      unfold isOnline, hasAtLeastOneConfiguredIP, bind, RunCommandContext, ret.
      rewrite Hstatus, Hreq, Hon. cbn [negb]. now rewrite Hfail.
  - intros fuel endTime devices h failed Hnot Hpass.
    assert (onlineLoop (S fuel) endTime devices h
            = onlineLoop fuel endTime devices
                (time_Sleep (500 * time.Millisecond) :: failed)) as Hstep.
    { intros. rewrite onlineLoop_step, Hnot, Hpass. reflexivity. }
    split; [exact Hstep|]. split.
    + intros Hlate.
      rewrite (onlineLoop_step (S fuel)), Hnot, Hpass.
      now rewrite onlineLoop_step, Hlate.
    + intros converged Hnot' Hpass'.
      rewrite (onlineLoop_step (S fuel)), Hnot, Hpass.
      now rewrite onlineLoop_step, Hnot', Hpass'.
  - intros fuel networkCfg timeout h. reflexivity.
  - intros fuel networkCfg timeout h.
    unfold waitForNetworkOnline, bind, now. apply onlineLoop_outcomes.
Qed.

(** C5 (amended) on the host whose first [networkctl status] fails: the
    first pass reports not converged, and the poll after the sleep finds
    the device converged. *)
Lemma C5_status_query_failure_absorbed_witness :
  let host := Scenario.scripted 1 Scenario.flaky in
  let query := subprocess_RunCommandContext "networkctl" ["status"; "eth0"] in
  let address := subprocess_RunCommandContext "ip" ["address"; "show"; "eth0"] in
  let endTime := 10 * time.Second in
  let failed := [query; time_Now] in
  let converged :=
    [address; query; time_Now; time_Sleep (500 * time.Millisecond);
     query; time_Now] in
  commandResult (Host := host) failed = inr (foreign "exit status 1")
  /\ checkDevices (host := host) ["eth0"] [time_Now] = (Returns false, failed)
  /\ onlineLoop (host := host) 2 endTime ["eth0"] []
     = (Returns None, converged).
Proof.
  intros host query address endTime failed converged.
  assert (commandResult (Host := host) failed = inr (foreign "exit status 1"))
    as Hfail by reflexivity.
  pose proof (C5_status_query_failure_absorbed (host := host))
    as [Hstatus [_ [Hloop _]]].
  pose proof (proj2 (Hstatus [] "eth0" [] [time_Now] [time_Now]
                       (foreign "exit status 1") eq_refl Hfail)) as Hpass.
  split; [exact Hfail|]. split; [exact Hpass|].
  exact (proj2 (proj2 (Hloop 0%nat endTime ["eth0"] [] failed eq_refl Hpass))
           converged eq_refl eq_refl).
Defined.

(** The clocks of the scenario hosts obey the laws of clocks. *)
Lemma scripted_ClockLaws (perCall : Z) (answer : History unit -> string + error) :
  0 <= perCall -> ClockLaws (Scenario.scripted perCall answer).
Proof.
  intros Hstep. split.
  - intros c h. change (clock (c :: h)) with (Scenario.elapsed perCall (c :: h)).
    change (clock h) with (Scenario.elapsed perCall h).
    unfold Scenario.elapsed. cbn [fold_right]. destruct c; lia.
  - intros d h.
    change (clock (time_Sleep d :: h))
      with (Scenario.elapsed perCall (time_Sleep d :: h)).
    change (clock h) with (Scenario.elapsed perCall h).
    unfold Scenario.elapsed. cbn [fold_right]. lia.
Qed.

(** On the host without link, [eth0] is never online. *)
Lemma deadLink_neverOnline :
  neverOnline (host := Scenario.scripted 1 Scenario.deadLink) "eth0".
Proof. intros h. reflexivity. Qed.

(* ================================================================== *)
(** ** The convergence timeout of the online wait *)
(* ================================================================== *)

(** C7.  On a host whose clock obeys the laws of clocks, when some checked
    device never satisfies the online condition, the online wait, given fuel
    for the iterations its timeout allows, returns the timeout error; the
    last thing it did was to read the clock, and that reading is past the
    deadline (the first reading plus the timeout), so the error is not
    returned before the deadline has elapsed; and the timeout error is not
    a command's error. *)
Theorem C7_online_wait_timeout
    {SystemNetworkProxy : Type} {host : Host SystemNetworkProxy}
    (laws : ClockLaws host)
    (fuel : nat) (networkCfg : Config.t SystemNetworkProxy)
    (timeout : Duration) (h : History SystemNetworkProxy) (name : string)
    (Hchecked : In name (devicesToCheck networkCfg))
    (Hnever : neverOnline name)
    (Hfuel : (iterations timeout <= fuel)%nat) :
  exists past,
    waitForNetworkOnline fuel networkCfg timeout h
    = (Returns (Some onlineTimeout), time_Now :: past)
    /\ clock (time_Now :: h) + timeout < clock (time_Now :: past)
    /\ forall description, onlineTimeout <> foreign description.
Proof.
  pose proof (waitForNetworkOnline_ends fuel networkCfg timeout h Hfuel)
    as Hends.
  unfold waitForNetworkOnline, bind, now in *.
  set (endTime := clock (time_Now :: h) + timeout) in *.
  pose proof (onlineLoop_outcomes fuel endTime (devicesToCheck networkCfg)
                (time_Now :: h)) as Hout.
  pose proof (onlineLoop_neverOnline name (devicesToCheck networkCfg)
                endTime fuel Hnever Hchecked (time_Now :: h)) as Hfail.
  pose proof (onlineLoop_timeout_late fuel endTime
                (devicesToCheck networkCfg) (time_Now :: h)) as Hlate.
  destruct (onlineLoop fuel endTime (devicesToCheck networkCfg)
              (time_Now :: h)) as [o h'].
  cbn [fst] in *.
  destruct Hout as [E|[E|E]]; subst o; try congruence.
  destruct (Hlate h' eq_refl) as [past [-> Hpast]].
  exists past. repeat split; [assumption | discriminate].
Qed.

(** C7 on the host without link, with a timeout of one second. *)
Lemma C7_online_wait_timeout_witness :
  let host := Scenario.scripted 1 Scenario.deadLink in
  In "eth0" (devicesToCheck Scenario.configA)
  /\ (iterations (1 * time.Second) <= 4)%nat
  /\ exists past,
       waitForNetworkOnline (host := host) 4 Scenario.configA
         (1 * time.Second) []
       = (Returns (Some onlineTimeout), time_Now :: past)
       /\ clock (Host := host) [time_Now] + 1 * time.Second
          < clock (Host := host) (time_Now :: past)
       /\ forall description, onlineTimeout <> foreign description.
Proof.
  intros host.
  assert (In "eth0" (devicesToCheck Scenario.configA)) as Hin
    by (simpl; auto).
  assert (iterations (1 * time.Second) <= 4)%nat as Hfuel
    by (vm_compute; lia).
  split; [exact Hin|]. split; [exact Hfuel|].
  exact (C7_online_wait_timeout
           (scripted_ClockLaws 1 Scenario.deadLink ltac:(lia))
           4 Scenario.configA (1 * time.Second) [] "eth0"
           Hin deadLink_neverOnline Hfuel).
Defined.

(* ================================================================== *)
(** ** The bounds of the two polling loops *)
(* ================================================================== *)

Section Bounds.

Context {SystemNetworkProxy : Type} {host : Host SystemNetworkProxy}.
Local Abbreviation Hist := (History SystemNetworkProxy).
Local Abbreviation SystemNetworkConfig := (Config.t SystemNetworkProxy).

Lemma waitForNetworkOnline_expired (fuel : nat)
    (networkCfg : SystemNetworkConfig) (timeout : Duration) (h : Hist) :
  alreadyExpired timeout h ->
  waitForNetworkOnline (S fuel) networkCfg timeout h
  = (Returns (Some onlineTimeout), time_Now :: time_Now :: h).
Proof.
  intros Hexp. unfold waitForNetworkOnline, bind at 1. unfold now at 1.
  now apply onlineLoop_expired.
Qed.

Lemma waitForUdevInterfaceRename_expired (fuel : nat) (timeout : Duration)
    (h : Hist) :
  alreadyExpired timeout h ->
  waitForUdevInterfaceRename (S fuel) timeout h
  = (Returns (Some renameTimeout), time_Now :: time_Now :: h).
Proof.
  intros Hexp. unfold waitForUdevInterfaceRename, bind at 1.
  unfold now at 1. now apply renameLoop_expired.
Qed.

(** Whatever the timeout of the request, the apply is one and the same
    computation up to the online wait, which is the only place where the
    timeout is used. *)
Lemma apply_before_online_wait (fuel : nat) (cfg : SystemNetworkConfig) :
  exists before : M (option error),
    forall (timeout : Duration) (h : Hist),
      ApplyNetworkConfiguration fuel (Some cfg) timeout h
      = bind before
          (fun err => match err with
                      | Some e => ret (Some e)
                      | None => waitForNetworkOnline fuel cfg timeout
                      end) h.
Proof.
  exists
    (match ValidateNetworkConfiguration (Some cfg) with
     | Some err => ret (Some err)
     | None =>
         (check perform
                  (systemd_SetHostname
                     match Config.DNS cfg with
                     | Some dns =>
                         if negb (DNS.Hostname dns =? "")%string then
                           if negb (DNS.Domain dns =? "")%string
                           then (DNS.Hostname dns ++ "." ++ DNS.Domain dns)%string
                           else DNS.Hostname dns
                         else ""%string
                     | None => ""%string
                     end) ;;
          check perform (systemd_UpdateEnvironment (Config.Proxy cfg)) ;;
          check generateNetworkConfiguration cfg ;;
          check waitForUdevInterfaceRename fuel (5 * time.Second) ;;
          check perform (systemd_RestartUnit "systemd-networkd") ;;
          perform (systemd_RestartUnit "systemd-timesyncd"))%go
     end).
  intros timeout h. unfold ApplyNetworkConfiguration.
  destruct (ValidateNetworkConfiguration (Some cfg)); [reflexivity|].
  unfold bind, perform, ret.
  repeat match goal with
         | |- context [status ?past] => destruct (status past)
         | |- context [generateNetworkConfiguration cfg ?past] =>
             destruct (generateNetworkConfiguration cfg past) as [[[?|]| |] ?]
         | |- context [waitForUdevInterfaceRename fuel ?t ?past] =>
             destruct (waitForUdevInterfaceRename fuel t past)
               as [[[?|]| |] ?]
         end;
    reflexivity.
Qed.

Context {laws : ClockLaws host}.

(** A negative timeout has always expired at the first check. *)
Lemma negative_alreadyExpired (timeout : Duration) (h : Hist) :
  timeout < 0 -> alreadyExpired timeout h.
Proof.
  intros Hneg. unfold alreadyExpired.
  pose proof (clock_monotone time_Now (time_Now :: h)). lia.
Qed.

Lemma ApplyNetworkConfiguration_ends (fuel : nat)
    (networkCfg : option SystemNetworkConfig) (timeout : Duration) :
  (iterations (5 * time.Second) <= fuel)%nat ->
  (iterations timeout <= fuel)%nat ->
  ends (ApplyNetworkConfiguration fuel networkCfg timeout).
Proof.
  intros Hrename Honline. unfold ApplyNetworkConfiguration.
  destruct (ValidateNetworkConfiguration networkCfg); [apply ends_ret|].
  destruct networkCfg as [cfg|]; [|apply ends_panic].
  assert (ends (waitForUdevInterfaceRename fuel (5 * time.Second)))
    as Hr by (intros h; now apply waitForUdevInterfaceRename_ends).
  assert (ends (waitForNetworkOnline fuel cfg timeout))
    as Ho by (intros h; now apply waitForNetworkOnline_ends).
  repeat first
    [ exact Hr
    | exact Ho
    | apply ends_generateNetworkConfiguration
    | apply ends_perform
    | apply ends_check ].
Qed.

End Bounds.

(** C6, as stated, fails on a host where the rename never shows in the
    kernel log: with a timeout of zero the rename wait still polls, for its
    own five seconds, running commands all along. *)
Lemma C6_counterexample :
  ~ expiredTimeoutSkipsPolling
      (host := Scenario.scripted 1 Scenario.neverRenamed)
      12 Scenario.configA 0 [].
Proof.
  intros Hskip.
  apply (Hskip (Z.le_refl 0) "udevadm" ["settle"]).
  vm_compute. tauto.
Qed.

(** C6, amended.  On a host whose clock obeys the laws of clocks, each loop
    is bounded by the timeout it is given, which is the timeout of the apply
    request for the online wait and a fixed five seconds for the
    interface-rename wait: fuel for the iterations of these two timeouts is
    enough for both loops, and for the whole apply, to end; and the apply is
    the same computation for every request timeout up to the online wait,
    the rename wait included.  A loop whose deadline has passed when it
    first checks it, as is the case for every negative timeout, fails at
    once with its timeout error, having read the clock twice and done
    nothing else. *)
Theorem C6_polling_loops_bounded
    {SystemNetworkProxy : Type} {host : Host SystemNetworkProxy}
    (laws : ClockLaws host)
    (fuel : nat) (networkCfg : Config.t SystemNetworkProxy)
    (timeout : Duration) (h : History SystemNetworkProxy)
    (Hfuel : (Nat.max (iterations (5 * time.Second)) (iterations timeout)
              <= fuel)%nat) :
  fst (waitForUdevInterfaceRename fuel (5 * time.Second) h) <> Unfinished
  /\ fst (waitForNetworkOnline fuel networkCfg timeout h) <> Unfinished
  /\ fst (ApplyNetworkConfiguration fuel (Some networkCfg) timeout h)
     <> Unfinished
  /\ (exists before : M (option error),
        forall (requestTimeout : Duration) (h' : History SystemNetworkProxy),
          ApplyNetworkConfiguration fuel (Some networkCfg) requestTimeout h'
          = bind before
              (fun err =>
                 match err with
                 | Some e => ret (Some e)
                 | None => waitForNetworkOnline fuel networkCfg requestTimeout
                 end) h')
  /\ (timeout < 0 \/ alreadyExpired timeout h ->
      waitForNetworkOnline fuel networkCfg timeout h
      = (Returns (Some onlineTimeout), time_Now :: time_Now :: h))
  /\ (forall renameTimeout_ : Duration,
        renameTimeout_ < 0 \/ alreadyExpired renameTimeout_ h ->
        waitForUdevInterfaceRename fuel renameTimeout_ h
        = (Returns (Some renameTimeout), time_Now :: time_Now :: h)).
Proof.
  assert (iterations (5 * time.Second) <= fuel)%nat as Hrename by lia.
  assert (iterations timeout <= fuel)%nat as Honline by lia.
  assert (exists f, fuel = S f) as [f ->].
  { unfold iterations in Honline. destruct fuel as [|f]; [lia | now exists f]. }
  split; [|split; [|split; [|split; [|split]]]].
  - now apply waitForUdevInterfaceRename_ends.
  - now apply waitForNetworkOnline_ends.
  - now apply ApplyNetworkConfiguration_ends.
  - apply apply_before_online_wait.
  - intros [Hneg|Hexp]; apply waitForNetworkOnline_expired;
      [now apply negative_alreadyExpired | assumption].
  - intros t [Hneg|Hexp]; apply waitForUdevInterfaceRename_expired;
      [now apply negative_alreadyExpired | assumption].
Qed.

(** C6 (amended) on the host where everything succeeds, with the already
    expired timeout of minus one second. *)
Lemma C6_polling_loops_bounded_witness :
  let host := Scenario.scripted 1 Scenario.allGood in
  (Nat.max (iterations (5 * time.Second)) (iterations (- time.Second))
   <= 12)%nat
  /\ fst (ApplyNetworkConfiguration (host := host) 12
            (Some Scenario.configA) (- time.Second) []) <> Unfinished
  /\ waitForNetworkOnline (host := host) 12 Scenario.configA
       (- time.Second) []
     = (Returns (Some onlineTimeout), [time_Now; time_Now]).
Proof.
  intros host.
  assert (Nat.max (iterations (5 * time.Second)) (iterations (- time.Second))
          <= 12)%nat as Hfuel by (vm_compute; lia).
  pose proof (C6_polling_loops_bounded
                (scripted_ClockLaws 1 Scenario.allGood ltac:(lia))
                12 Scenario.configA (- time.Second) [] Hfuel)
    as [_ [_ [Hends [_ [Honline _]]]]].
  split; [exact Hfuel|]. split; [exact Hends|].
  apply Honline. left. reflexivity.
Defined.

(** A timeout of zero: the deadline is the first reading of the clock, and
    the loop fails at once when the second reading is later, as on a clock
    that advances with every call. *)
Example zero_timeout_clock_advancing :
  waitForNetworkOnline (host := Scenario.scripted 1 Scenario.allGood)
    12 Scenario.configA 0 []
  = (Returns (Some onlineTimeout), [time_Now; time_Now]).
Proof. reflexivity. Qed.

(** When the two readings are the same, the deadline has not passed
    ([After] is strict) and a pass is performed. *)
Example zero_timeout_clock_standing :
  waitForNetworkOnline (host := Scenario.scripted 0 Scenario.allGood)
    12 Scenario.configA 0 []
  = (Returns None,
     [subprocess_RunCommandContext "ip" ["address"; "show"; "eth0"];
      subprocess_RunCommandContext "networkctl" ["status"; "eth0"];
      time_Now; time_Now]).
Proof. reflexivity. Qed.

(** The rename wait of an apply with a timeout of zero, on the host where
    the rename never shows: ten polling passes, then its timeout error. *)
Example rename_wait_ignores_request_timeout :
  let run := ApplyNetworkConfiguration
               (host := Scenario.scripted 1 Scenario.neverRenamed)
               12 (Some Scenario.configA) 0 [] in
  fst run = Returns (Some renameTimeout)
  /\ List.length
       (filter (fun c => match c with
                         | subprocess_RunCommandContext name _ =>
                             name =? "journalctl"
                         | _ => false
                         end)
               (snd run)) = 10%nat.
Proof. vm_compute. split; reflexivity. Qed.

(* ================================================================== *)
(** ** Further properties of the system action endpoint *)
(* ================================================================== *)

(** X1.  A PUT request whose body decodes to a recognized action closes the
    control event of that action and no other, and renders the empty
    synchronous response: [shutdown] and [poweroff] close the shutdown
    event, [reboot] closes the reboot event (the event being still open). *)
Theorem X1_recognized_action
    (json_Decode : string -> rest.reqSystem + error)
    (s : rest.State) (r : rest.Request) (req : rest.reqSystem)
    (Hput : rest.Method r = rest.MethodPut)
    (Hdecode : json_Decode (rest.Body r) = inl req) :
  (rest.Action req = "shutdown" \/ rest.Action req = "poweroff" ->
   rest.TriggerShutdown s = rest.Open ->
   rest.apiSystem json_Decode s r
   = (Returns {| rest.TriggerShutdown := rest.Closed;
                 rest.TriggerReboot := rest.TriggerReboot s |},
      [rest.Header_Set "Content-Type" "application/json";
       rest.Decoder_Decode (rest.Body r);
       rest.Render rest.EmptySyncResponse]))
  /\ (rest.Action req = "reboot" ->
      rest.TriggerReboot s = rest.Open ->
      rest.apiSystem json_Decode s r
      = (Returns {| rest.TriggerShutdown := rest.TriggerShutdown s;
                    rest.TriggerReboot := rest.Closed |},
         [rest.Header_Set "Content-Type" "application/json";
          rest.Decoder_Decode (rest.Body r);
          rest.Render rest.EmptySyncResponse])).
Proof.
  unfold rest.apiSystem. rewrite Hput, Hdecode. cbn [negb String.eqb app].
  change (rest.MethodPut =? rest.MethodPut) with true. cbn [negb].
  split.
  - intros [E|E] Hopen; rewrite E, Hopen; reflexivity.
  - intros E Hopen. rewrite E, Hopen. reflexivity.
Qed.

(** X1 at a PUT request for a power-off, both events pending. *)
Lemma X1_recognized_action_witness :
  let s := {| rest.TriggerShutdown := rest.Open;
              rest.TriggerReboot := rest.Open |} in
  let r := {| rest.Method := "PUT"; rest.Body := "{'action':'poweroff'}" |} in
  let decode := fun _ : string => inl {| rest.Action := "poweroff" |} in
  rest.apiSystem decode s r
  = (Returns {| rest.TriggerShutdown := rest.Closed;
                rest.TriggerReboot := rest.Open |},
     [rest.Header_Set "Content-Type" "application/json";
      rest.Decoder_Decode "{'action':'poweroff'}";
      rest.Render rest.EmptySyncResponse]).
Proof.
  intros s r decode.
  exact (proj1 (X1_recognized_action decode s r {| rest.Action := "poweroff" |}
                  eq_refl eq_refl)
           (or_intror eq_refl) eq_refl).
Defined.

(** X2.  A PUT request that is rejected leaves both control events as they
    are: a body that does not decode is answered with an internal error
    carrying the decoder's error, an action other than [shutdown],
    [poweroff] and [reboot] with a bad request naming the action. *)
Theorem X2_rejected_request
    (json_Decode : string -> rest.reqSystem + error)
    (s : rest.State) (r : rest.Request)
    (Hput : rest.Method r = rest.MethodPut) :
  (forall err, json_Decode (rest.Body r) = inr err ->
     rest.apiSystem json_Decode s r
     = (Returns s,
        [rest.Header_Set "Content-Type" "application/json";
         rest.Decoder_Decode (rest.Body r);
         rest.Render (rest.InternalError err)]))
  /\ (forall req, json_Decode (rest.Body r) = inl req ->
        rest.Action req <> "shutdown" -> rest.Action req <> "poweroff" ->
        rest.Action req <> "reboot" ->
        rest.apiSystem json_Decode s r
        = (Returns s,
           [rest.Header_Set "Content-Type" "application/json";
            rest.Decoder_Decode (rest.Body r);
            rest.Render
              (rest.BadRequest
                 (fmt_Errorf "invalid action %q" [rest.Action req]))])).
Proof.
  unfold rest.apiSystem. rewrite Hput.
  change (rest.MethodPut =? rest.MethodPut) with true. cbn [negb app].
  split.
  - intros err E. now rewrite E.
  - intros req E N1 N2 N3. rewrite E.
    apply String.eqb_neq in N1, N2, N3. now rewrite N1, N2, N3.
Qed.

(** X2 at a PUT request for an action that does not exist. *)
Lemma X2_rejected_request_witness :
  let s := {| rest.TriggerShutdown := rest.Open;
              rest.TriggerReboot := rest.Open |} in
  let r := {| rest.Method := "PUT"; rest.Body := "{'action':'halt'}" |} in
  let decode := fun _ : string => inl {| rest.Action := "halt" |} in
  rest.apiSystem decode s r
  = (Returns s,
     [rest.Header_Set "Content-Type" "application/json";
      rest.Decoder_Decode "{'action':'halt'}";
      rest.Render (rest.BadRequest (fmt_Errorf "invalid action %q" ["halt"]))]).
Proof.
  intros s r decode.
  apply (proj2 (X2_rejected_request decode s r eq_refl)
           {| rest.Action := "halt" |} eq_refl); discriminate.
Defined.

(** X3.  The control events fire once: a recognized action whose event has
    already been closed makes the handler panic (closing a closed channel),
    after the body was decoded and before any response is rendered.  So of
    two successive requests for the same action on a fresh server the first
    is served and the second panics. *)
Theorem X3_second_trigger_panics
    (json_Decode : string -> rest.reqSystem + error)
    (s : rest.State) (r : rest.Request) (req : rest.reqSystem)
    (Hput : rest.Method r = rest.MethodPut)
    (Hdecode : json_Decode (rest.Body r) = inl req)
    (Haction : rest.Action req = "shutdown" \/ rest.Action req = "poweroff"
               \/ rest.Action req = "reboot")
    (Hfresh : rest.TriggerShutdown s = rest.Open
              /\ rest.TriggerReboot s = rest.Open) :
  exists s',
    fst (rest.apiSystem json_Decode s r) = Returns s'
    /\ rest.apiSystem json_Decode s' r
       = (Panics,
          [rest.Header_Set "Content-Type" "application/json";
           rest.Decoder_Decode (rest.Body r)]).
Proof.
  destruct Hfresh as [Hs Hr].
  unfold rest.apiSystem. rewrite Hput, Hdecode.
  change (rest.MethodPut =? rest.MethodPut) with true. cbn [negb app].
  destruct Haction as [E|[E|E]]; rewrite E, ?Hs, ?Hr; cbn;
    eexists; split; reflexivity.
Qed.

(** X3 at two PUT requests for a reboot. *)
Lemma X3_second_trigger_panics_witness :
  let s := {| rest.TriggerShutdown := rest.Open;
              rest.TriggerReboot := rest.Open |} in
  let r := {| rest.Method := "PUT"; rest.Body := "{'action':'reboot'}" |} in
  let decode := fun _ : string => inl {| rest.Action := "reboot" |} in
  exists s',
    fst (rest.apiSystem decode s r) = Returns s'
    /\ rest.apiSystem decode s' r
       = (Panics,
          [rest.Header_Set "Content-Type" "application/json";
           rest.Decoder_Decode "{'action':'reboot'}"]).
Proof.
  intros s r decode.
  exact (X3_second_trigger_panics decode s r {| rest.Action := "reboot" |}
           eq_refl eq_refl (or_intror (or_intror eq_refl))
           (conj eq_refl eq_refl)).
Defined.

(** X4.  Whatever the request, a handler that returns has rendered exactly
    one response, as the last thing it did, after setting the content type
    first; and it never reopens a control event: an event closed before the
    request is closed after it. *)
Theorem X4_handler_invariants
    (json_Decode : string -> rest.reqSystem + error)
    (s s' : rest.State) (r : rest.Request) (log : list rest.effect)
    (Hreturns : rest.apiSystem json_Decode s r = (Returns s', log)) :
  (exists response,
     log = [rest.Header_Set "Content-Type" "application/json";
            rest.Render response]
     \/ log = [rest.Header_Set "Content-Type" "application/json";
               rest.Decoder_Decode (rest.Body r);
               rest.Render response])
  /\ (rest.TriggerShutdown s = rest.Closed ->
      rest.TriggerShutdown s' = rest.Closed)
  /\ (rest.TriggerReboot s = rest.Closed ->
      rest.TriggerReboot s' = rest.Closed).
Proof.
  unfold rest.apiSystem in Hreturns.
  destruct (negb (rest.Method r =? rest.MethodPut)).
  { injection Hreturns as <- <-. repeat split; eauto. }
  destruct (json_Decode (rest.Body r)) as [req|err].
  2:{ injection Hreturns as <- <-. repeat split; eauto. }
  destruct ((rest.Action req =? "shutdown") || (rest.Action req =? "poweroff"))%bool.
  { destruct (rest.TriggerShutdown s) eqn:Es; cbn in Hreturns; [|discriminate].
    injection Hreturns as <- <-. cbn. repeat split; eauto. }
  destruct (rest.Action req =? "reboot").
  { destruct (rest.TriggerReboot s) eqn:Es; cbn in Hreturns; [|discriminate].
    injection Hreturns as <- <-. cbn. repeat split; eauto. }
  injection Hreturns as <- <-. repeat split; eauto.
Qed.

(** X4 at a PUT request for a shutdown, the reboot event already closed. *)
Lemma X4_handler_invariants_witness :
  let s := {| rest.TriggerShutdown := rest.Open;
              rest.TriggerReboot := rest.Closed |} in
  let s' := {| rest.TriggerShutdown := rest.Closed;
               rest.TriggerReboot := rest.Closed |} in
  let r := {| rest.Method := "PUT"; rest.Body := "{'action':'shutdown'}" |} in
  let decode : string -> rest.reqSystem + error :=
    fun _ => inl {| rest.Action := "shutdown" |} in
  let log := [rest.Header_Set "Content-Type" "application/json";
              rest.Decoder_Decode "{'action':'shutdown'}";
              rest.Render rest.EmptySyncResponse] in
  rest.apiSystem decode s r = (Returns s', log)
  /\ (rest.TriggerReboot s = rest.Closed -> rest.TriggerReboot s' = rest.Closed).
Proof.
  intros s s' r decode log.
  assert (rest.apiSystem decode s r = (Returns s', log)) as H by reflexivity.
  split; [exact H|].
  exact (proj2 (proj2 (X4_handler_invariants decode s s' r log H))).
Defined.

(* ================================================================== *)
(** ** Further properties of the unit file generator *)
(* ================================================================== *)

Lemma bondsNetdevFiles_None (bonds : list Bond.t) :
  bondsNetdevFiles bonds = None
  <-> exists b, In b bonds /\ Bond.Hwaddr b = "" /\ Bond.Members b = [].
Proof.
  induction bonds as [|b0 bonds IH]; cbn [bondsNetdevFiles].
  - split; [discriminate | intros [b [[] _]]].
  - assert (bondNetdevFiles b0 = None
            <-> Bond.Hwaddr b0 = "" /\ Bond.Members b0 = []) as Hb0.
    { unfold bondNetdevFiles, bondMacAddr.
      destruct (String.eqb_spec (Bond.Hwaddr b0) "") as [E|N].
      - destruct (Bond.Members b0) as [|m ms]; cbn [nth_error]; split;
          try tauto; try discriminate. intros [_ H]. discriminate.
      - split; [discriminate | intros [H _]; contradiction]. }
    destruct (bondNetdevFiles b0) as [files|].
    + destruct (bondsNetdevFiles bonds) as [more|].
      * split; [discriminate|].
        intros [b [[<-|Hb] H]].
        -- apply Hb0 in H. discriminate.
        -- assert (Some more = None) as Hno by (apply IH; now exists b).
           discriminate.
      * split; [|reflexivity]. intros _.
        destruct (proj1 IH eq_refl) as [b [Hb H]].
        exists b. split; [now right | exact H].
    + split; [|reflexivity]. intros _. exists b0.
      split; [now left | now apply Hb0].
Qed.

(** X5.  The netdev generator panics exactly on the configurations that
    hold a bond with neither a hardware address of its own nor a member:
    for every other configuration it returns its list of files. *)
Theorem X5_netdev_panic {SystemNetworkProxy : Type}
    (networkCfg : Config.t SystemNetworkProxy) :
  generateNetdevFileContents networkCfg = None
  <-> exists b, In b (Config.Bonds networkCfg)
                /\ Bond.Hwaddr b = "" /\ Bond.Members b = [].
Proof.
  rewrite <- bondsNetdevFiles_None. unfold generateNetdevFileContents.
  destruct (bondsNetdevFiles (Config.Bonds networkCfg)); split;
    congruence.
Qed.

Lemma bondsNetdevFiles_length (bonds : list Bond.t) :
  forall files, bondsNetdevFiles bonds = Some files ->
                List.length files = (3 * List.length bonds)%nat.
Proof.
  induction bonds as [|b bonds IH]; cbn [bondsNetdevFiles]; intros files E.
  - injection E as <-. reflexivity.
  - unfold bondNetdevFiles in E. destruct (bondMacAddr b); [|discriminate].
    destruct (bondsNetdevFiles bonds) as [more|]; [|discriminate].
    injection E as <-. cbn [app List.length]. rewrite (IH more eq_refl). lia.
Qed.

Lemma bondMemberNetworks_length (b : Bond.t) (members : list string) :
  forall index,
    List.length (bondMemberNetworks b index members) = List.length members.
Proof.
  induction members as [|m ms IH]; intros index; cbn; [reflexivity|].
  now rewrite IH.
Qed.

Lemma flat_map_length_const {A B} (f : A -> list B) (n : nat) (l : list A) :
  (forall x, List.length (f x) = n) ->
  List.length (flat_map f l) = (n * List.length l)%nat.
Proof.
  intros Hf. induction l as [|x l IH]; cbn [flat_map List.length]; [lia|].
  rewrite length_app, Hf, IH. lia.
Qed.

(** X6.  The number of artifacts of each kind: one link file per interface
    and per bond member; two netdev files per interface, three per bond and
    one per VLAN; four network files per interface, four per bond plus one
    per bond member, and one per VLAN. *)
Theorem X6_artifact_counts {SystemNetworkProxy : Type}
    (networkCfg : Config.t SystemNetworkProxy) :
  let interfaces := List.length (Config.Interfaces networkCfg) in
  let bonds := List.length (Config.Bonds networkCfg) in
  let members :=
    List.length (flat_map Bond.Members (Config.Bonds networkCfg)) in
  let vlans := List.length (Config.VLANs networkCfg) in
  List.length (generateLinkFileContents networkCfg)
  = (interfaces + members)%nat
  /\ (forall files,
        generateNetdevFileContents networkCfg = Some files ->
        List.length files = (2 * interfaces + 3 * bonds + vlans)%nat)
  /\ List.length (generateNetworkFileContents networkCfg)
     = (4 * interfaces + (4 * bonds + members) + vlans)%nat.
Proof.
  cbn zeta. split; [|split].
  - unfold generateLinkFileContents.
    rewrite length_app, length_map. f_equal.
    induction (Config.Bonds networkCfg) as [|b bs IH]; cbn [flat_map];
      [reflexivity|].
    now rewrite !length_app, length_map, IH.
  - intros files E. unfold generateNetdevFileContents in E.
    destruct (bondsNetdevFiles (Config.Bonds networkCfg)) as [bondFiles|] eqn:Eb;
      [|discriminate].
    injection E as <-.
    rewrite !length_app, length_map, (bondsNetdevFiles_length _ _ Eb).
    rewrite (flat_map_length_const interfaceNetdevFiles 2) by reflexivity.
    lia.
  - unfold generateNetworkFileContents.
    rewrite !length_app, length_map.
    rewrite (flat_map_length_const (interfaceNetworkFiles networkCfg) 4)
      by reflexivity.
    assert (List.length (flat_map (bondNetworkFiles networkCfg)
                           (Config.Bonds networkCfg))
            = (4 * List.length (Config.Bonds networkCfg)
               + List.length (flat_map Bond.Members (Config.Bonds networkCfg)))%nat)
      as Hbonds.
    { induction (Config.Bonds networkCfg) as [|b bs IH];
        cbn [flat_map List.length]; [reflexivity|].
      rewrite !length_app, IH. unfold bondNetworkFiles.
      rewrite length_app, bondMemberNetworks_length. cbn [List.length]. lia. }
    rewrite Hbonds. lia.
Qed.

Lemma tagBlocks_empty (tags : list Z) : tagBlocks tags = "" <-> tags = [].
Proof.
  destruct tags as [|t tags]; split; intros H; try reflexivity;
    discriminate.
Qed.

(** X7.  A device gets no [[BridgeVLAN]] listing at all exactly when none of
    the three sources holds a tag: no primary tag, no additional tag, and no
    declared VLAN on the device. *)
Theorem X7_no_bridge_vlan_listing (bridgeName : string) (specificVLAN : Z)
    (additionalVLANTags : list Z) (vlans : list VLAN.t) :
  generateBridgeVLANContents bridgeName specificVLAN additionalVLANTags vlans
  = ""
  <-> specificVLAN = 0 /\ additionalVLANTags = []
      /\ forall vlan, In vlan vlans -> VLAN.Parent vlan <> bridgeName.
Proof.
  unfold generateBridgeVLANContents.
  pose proof (bridgeVLANTags_In bridgeName specificVLAN
                additionalVLANTags vlans) as Hin.
  destruct (bridgeVLANTags bridgeName specificVLAN additionalVLANTags vlans)
    as [|t tags] eqn:Etags.
  - cbn [List.length Nat.ltb Nat.leb]. split; [intros _|reflexivity].
    assert (forall x, ~ ((specificVLAN <> 0 /\ x = specificVLAN)
                         \/ In x additionalVLANTags
                         \/ exists vlan, In vlan vlans
                                         /\ VLAN.Parent vlan = bridgeName
                                         /\ VLAN.ID vlan = x)) as Hnone.
    { intros x Hx. apply Hin in Hx. exact Hx. }
    split; [|split].
    + destruct (Z.eq_dec specificVLAN 0) as [E|N]; [assumption|].
      exfalso. apply (Hnone specificVLAN). left. now split.
    + destruct additionalVLANTags as [|a l]; [reflexivity|].
      exfalso. apply (Hnone a). right; left. now left.
    + intros vlan Hv Hp. apply (Hnone (VLAN.ID vlan)). right; right.
      now exists vlan.
  - cbn [List.length Nat.ltb Nat.leb]. rewrite print_tag_blocks.
    split.
    + intros E. exfalso.
      destruct (negb (specificVLAN =? 0)%Z); cbn in E; discriminate.
    + intros [Hs [Ha Hv]]. exfalso.
      destruct (proj1 (Hin t) (or_introl eq_refl)) as [[N _]|[H|[v [H1 [H2 _]]]]].
      * contradiction.
      * subst. contradiction.
      * exact (Hv v H1 H2).
Qed.

Lemma filter_Address_directives (addresses : list string) :
  filter (String.prefix "Address=") (addressDirectives addresses)
  = addressDirectives addresses
  /\ filter (String.prefix "IPv6AcceptRA=") (addressDirectives addresses) = [].
Proof.
  unfold addressDirectives.
  induction (literalAddresses addresses) as [|a l [IH1 IH2]];
    [split; reflexivity|].
  cbn [map filter]. split.
  - change (String.prefix "Address=" ("Address=" ++ a))
      with (String.prefix "" a).
    destruct a; cbn [String.prefix]; now rewrite IH1.
  - exact IH2.
Qed.

(** X8.  Besides the DHCP directive, the addressing directives of a device
    with single-line tokens hold one [Address=] directive per literal
    address, in the order of the address list and as often as the address
    occurs, and exactly one [IPv6AcceptRA=] directive, which reads [true]
    when the list holds the token [slaac] and [false] when it does not. *)
Theorem X8_address_and_ra_directives (addresses : list string)
    (Hlines : forallb singleLine addresses = true) :
  filter (String.prefix "Address=") (lines (processAddresses addresses))
  = map (fun addr => "Address=" ++ addr) (literalAddresses addresses)
  /\ (In "slaac" addresses ->
      filter (String.prefix "IPv6AcceptRA=")
             (lines (processAddresses addresses))
      = ["IPv6AcceptRA=true"])
  /\ (~ In "slaac" addresses ->
      filter (String.prefix "IPv6AcceptRA=")
             (lines (processAddresses addresses))
      = ["IPv6AcceptRA=false"]).
Proof.
  rewrite (lines_processAddresses _ Hlines). unfold addressingDirectives.
  rewrite !filter_app.
  destruct (filter_Address_directives addresses) as [HA HRA].
  rewrite HA, HRA.
  pose proof (hasToken_In "slaac" addresses) as Hra.
  unfold acceptRADirective, dhcpDirective.
  destruct addresses as [|a0 rest];
    destruct (hasToken "slaac" _), (hasToken "dhcp4" _), (hasToken "dhcp6" _);
    cbn [linkLocalDirectives filter String.prefix andb app];
    rewrite ?app_nil_r;
    (split; [reflexivity|]); split; intros H; try reflexivity; exfalso;
    intuition congruence.
Qed.

(** X8 at the address list [2001:db8::2/64, slaac, 192.0.2.10/24]. *)
Lemma X8_address_and_ra_directives_witness :
  let addresses := ["2001:db8::2/64"; "slaac"; "192.0.2.10/24"] in
  forallb singleLine addresses = true
  /\ filter (String.prefix "Address=") (lines (processAddresses addresses))
     = ["Address=2001:db8::2/64"; "Address=192.0.2.10/24"].
Proof.
  intros addresses.
  assert (forallb singleLine addresses = true) as H by reflexivity.
  split; [exact H|].
  exact (proj1 (X8_address_and_ra_directives addresses H)).
Defined.

(** The lines of one [[Route]] section. *)
Lemma processRoutes_unlines (routes : list Route.t) :
  processRoutes routes
  = unlines
      (flat_map
         (fun route =>
            [""; "[Route]";
             "Gateway=" ++ (if Route.Via route =? "dhcp4" then "_dhcp4"
                            else if Route.Via route =? "slaac" then "_ipv6ra"
                            else Route.Via route);
             "Destination=" ++ Route.To route])
         routes).
Proof.
  induction routes as [|route rest IH]; [reflexivity|].
  cbn [processRoutes flat_map app unlines]. rewrite IH.
  destruct (Route.Via route =? "dhcp4"); [|destruct (Route.Via route =? "slaac")];
    rewrite ?append_assoc; reflexivity.
Qed.

(** X9.  Read back line by line, the text generated for the routes of a
    device is one [[Route]] section per route, in the order of the routes,
    each made of an empty line, the header, the gateway and the
    destination; the gateway tokens [dhcp4] and [slaac] are emitted as
    [_dhcp4] and [_ipv6ra], every other gateway as it is. *)
Theorem X9_route_sections (routes : list Route.t)
    (Hlines : forallb (fun route => singleLine (Route.Via route)
                                    && singleLine (Route.To route))%bool
                      routes = true) :
  lines (processRoutes routes)
  = flat_map
      (fun route =>
         [""; "[Route]";
          "Gateway=" ++ (if Route.Via route =? "dhcp4" then "_dhcp4"
                         else if Route.Via route =? "slaac" then "_ipv6ra"
                         else Route.Via route);
          "Destination=" ++ Route.To route])
      routes.
Proof.
  rewrite processRoutes_unlines. apply lines_unlines.
  induction routes as [|route rest IH]; [reflexivity|].
  cbn [forallb] in Hlines. apply andb_prop in Hlines.
  destruct Hlines as [Hr Hrest]. apply andb_prop in Hr. destruct Hr as [Hv Ht].
  cbn [flat_map app forallb]. rewrite (IH Hrest), !singleLine_append, Ht.
  destruct (Route.Via route =? "dhcp4"); [reflexivity|].
  destruct (Route.Via route =? "slaac"); [reflexivity|].
  now rewrite Hv.
Qed.

(** X9 at a default route through the DHCPv4 gateway and a literal one. *)
Lemma X9_route_sections_witness :
  let routes := [ {| Route.To := "0.0.0.0/0"; Route.Via := "dhcp4" |};
                  {| Route.To := "10.0.0.0/8"; Route.Via := "192.0.2.1" |} ] in
  lines (processRoutes routes)
  = [""; "[Route]"; "Gateway=_dhcp4"; "Destination=0.0.0.0/0";
     ""; "[Route]"; "Gateway=192.0.2.1"; "Destination=10.0.0.0/8"].
Proof.
  intros routes. exact (X9_route_sections routes eq_refl).
Defined.

Lemma singleLine_string_of_uint (d : Decimal.uint) :
  singleLine (NilEmpty.string_of_uint d) = true.
Proof. induction d; cbn; auto. Qed.

Lemma singleLine_FormatInt (x : Z) : singleLine (strconv.FormatInt x) = true.
Proof.
  unfold strconv.FormatInt. destruct (Z.to_int x) as [d|d]; cbn;
    apply singleLine_string_of_uint.
Qed.

Lemma tagBlocks_unlines (tags : list Z) :
  tagBlocks tags
  = unlines (flat_map (fun tag => [""; "[BridgeVLAN]";
                                   "VLAN=" ++ strconv.FormatInt tag]) tags).
Proof.
  induction tags as [|t tags IH]; [reflexivity|].
  cbn [tagBlocks fold_right flat_map app unlines].
  fold (tagBlocks tags). rewrite IH. unfold tagBlock.
  now rewrite ?append_assoc.
Qed.

Lemma lines_tagBlocks (tags : list Z) :
  lines (tagBlocks tags)
  = flat_map (fun tag => [""; "[BridgeVLAN]";
                          "VLAN=" ++ strconv.FormatInt tag]) tags.
Proof.
  rewrite tagBlocks_unlines. apply lines_unlines.
  induction tags as [|t l IH]; [reflexivity|].
  cbn [flat_map app forallb]. rewrite IH, singleLine_append.
  now rewrite singleLine_FormatInt.
Qed.

Lemma tagBlocks_directives (tags : list Z) :
  filter (String.prefix "VLAN=") (lines (tagBlocks tags))
  = map (fun tag => "VLAN=" ++ strconv.FormatInt tag) tags
  /\ List.length (filter (String.eqb "[BridgeVLAN]") (lines (tagBlocks tags)))
     = List.length tags
  /\ filter (String.prefix "PVID=") (lines (tagBlocks tags)) = [].
Proof.
  rewrite lines_tagBlocks.
  induction tags as [|t l [IH1 [IH2 IH3]]]; [repeat split; reflexivity|].
  cbn [flat_map map]. rewrite !filter_app, length_app, IH1, IH2, IH3.
  generalize (strconv.FormatInt t). intros x.
  destruct x; repeat split; reflexivity.
Qed.

Lemma forallb_singleLine_tag_lines (tags : list Z) :
  forallb singleLine
    (flat_map (fun tag => [""; "[BridgeVLAN]";
                           "VLAN=" ++ strconv.FormatInt tag]) tags) = true.
Proof.
  induction tags as [|t l IH]; [reflexivity|].
  cbn [flat_map app forallb]. rewrite IH, singleLine_append.
  now rewrite singleLine_FormatInt.
Qed.

(** The lines of a [[BridgeVLAN]] listing. *)
Lemma lines_generateBridgeVLANContents (bridgeName : string)
    (specificVLAN : Z) (additionalVLANTags : list Z) (vlans : list VLAN.t) :
  lines (generateBridgeVLANContents bridgeName specificVLAN
           additionalVLANTags vlans)
  = List.app
      (if (specificVLAN =? 0)%Z then []
       else [""; "[BridgeVLAN]";
             "PVID=" ++ strconv.FormatInt specificVLAN;
             "EgressUntagged=" ++ strconv.FormatInt specificVLAN])
      (flat_map (fun tag => [""; "[BridgeVLAN]";
                             "VLAN=" ++ strconv.FormatInt tag])
         (bridgeVLANTags bridgeName specificVLAN additionalVLANTags vlans)).
Proof.
  unfold generateBridgeVLANContents.
  pose proof (bridgeVLANTags_In bridgeName specificVLAN
                additionalVLANTags vlans specificVLAN) as Hin.
  destruct (bridgeVLANTags bridgeName specificVLAN additionalVLANTags vlans)
    as [|t l] eqn:Etags.
  - cbn [List.length Nat.ltb Nat.leb].
    destruct (Z.eqb_spec specificVLAN 0) as [E|N]; [reflexivity|].
    exfalso. apply Hin. left. now split.
  - cbn [Nat.ltb Nat.leb List.length]. rewrite print_tag_blocks.
    destruct (Z.eqb_spec specificVLAN 0) as [E|N]; cbn [negb].
    + change ("" ++ tagBlocks (t :: l)) with (tagBlocks (t :: l)).
      apply lines_tagBlocks.
    + rewrite tagBlocks_unlines.
      replace (((("" ++ NL ++ "[BridgeVLAN]" ++ NL)
                   ++ "PVID=" ++ strconv.FormatInt specificVLAN ++ NL)
                  ++ "EgressUntagged=" ++ strconv.FormatInt specificVLAN ++ NL)
                 ++ unlines
                      (flat_map
                         (fun tag => [""; "[BridgeVLAN]";
                                      "VLAN=" ++ strconv.FormatInt tag])
                         (t :: l)))
        with (unlines
                (List.app
                   [""; "[BridgeVLAN]";
                    "PVID=" ++ strconv.FormatInt specificVLAN;
                    "EgressUntagged=" ++ strconv.FormatInt specificVLAN]
                   (flat_map
                      (fun tag => [""; "[BridgeVLAN]";
                                   "VLAN=" ++ strconv.FormatInt tag])
                      (t :: l)))).
      * apply lines_unlines. rewrite forallb_app, forallb_singleLine_tag_lines.
        cbn [forallb]. now rewrite !singleLine_append, singleLine_FormatInt.
      * rewrite unlines_app. cbn [unlines].
        now rewrite ?append_assoc, ?append_empty_r.
Qed.

(** X10.  Read back line by line, the [[BridgeVLAN]] listing of a device
    holds one [VLAN=] directive per tag of the device, the tags being
    printed in base 10 in ascending order without duplicates, as many
    [[BridgeVLAN]] headers as there are tags plus one when a primary tag is
    set, and a [PVID=] directive only for a primary tag. *)
Theorem X10_bridge_vlan_lines (bridgeName : string) (specificVLAN : Z)
    (additionalVLANTags : list Z) (vlans : list VLAN.t) :
  let listing :=
    lines (generateBridgeVLANContents bridgeName specificVLAN
             additionalVLANTags vlans) in
  let tags :=
    bridgeVLANTags bridgeName specificVLAN additionalVLANTags vlans in
  filter (String.prefix "VLAN=") listing
  = map (fun tag => "VLAN=" ++ strconv.FormatInt tag) tags
  /\ List.length (filter (String.eqb "[BridgeVLAN]") listing)
     = (List.length tags + if (specificVLAN =? 0)%Z then 0 else 1)%nat
  /\ filter (String.prefix "PVID=") listing
     = (if (specificVLAN =? 0)%Z then []
        else ["PVID=" ++ strconv.FormatInt specificVLAN]).
Proof.
  cbn zeta. rewrite lines_generateBridgeVLANContents.
  rewrite !filter_app, length_app.
  pose proof (tagBlocks_directives
                (bridgeVLANTags bridgeName specificVLAN
                   additionalVLANTags vlans)) as [H1 [H2 H3]].
  rewrite lines_tagBlocks in H1, H2, H3. rewrite H1, H2, H3.
  destruct (specificVLAN =? 0)%Z.
  - repeat split; try reflexivity. cbn. lia.
  - generalize (strconv.FormatInt specificVLAN). intros x.
    destruct x; repeat split; try reflexivity; cbn; lia.
Qed.

Lemma fold_left_directives (key : string) (items : list string) :
  forall ret,
    fold_left (fun ret item => ret ++ key ++ item ++ NL) items ret
    = ret ++ unlines (map (fun item => key ++ item) items).
Proof.
  induction items as [|x items IH]; intros ret; cbn [fold_left map unlines].
  - now rewrite append_empty_r.
  - rewrite IH. now rewrite !append_assoc.
Qed.

Lemma fold_left_vlan_directives (name : string) (vlans : list VLAN.t) :
  forall ret,
    fold_left
      (fun ret v =>
         if VLAN.Parent v =? name then ret ++ "VLAN=" ++ VLAN.Name v ++ NL
         else ret)
      vlans ret
    = ret ++ unlines
               (map (fun v => "VLAN=" ++ VLAN.Name v)
                    (filter (fun v => VLAN.Parent v =? name) vlans)).
Proof.
  induction vlans as [|v vlans IH]; intros ret; cbn [fold_left filter].
  - now rewrite append_empty_r.
  - rewrite IH. destruct (VLAN.Parent v =? name); [|reflexivity].
    cbn [map unlines]. now rewrite !append_assoc.
Qed.

(** The directives of [generateNetworkSectionContents], one per line. *)
Definition networkSectionDirectives (name : string) (vlans : list VLAN.t)
    (dns : option DNS.t) (ntp : option NTP.t) : list string :=
  List.app
    (map (fun v => "VLAN=" ++ VLAN.Name v)
         (filter (fun v => VLAN.Parent v =? name) vlans))
    (List.app
       (match dns with
        | Some dns =>
            List.app
              (match DNS.SearchDomains dns with
               | [] => []
               | _ :: _ =>
                   ["Domains=" ++ strings.Join (DNS.SearchDomains dns) " "]
               end)
              (map (fun ns => "DNS=" ++ ns) (DNS.Nameservers dns))
        | None => []
        end)
       (match ntp with
        | Some ntp => map (fun ts => "NTP=" ++ ts) (NTP.Timeservers ntp)
        | None => []
        end)).

Lemma generateNetworkSectionContents_unlines (name : string)
    (vlans : list VLAN.t) (dns : option DNS.t) (ntp : option NTP.t) :
  generateNetworkSectionContents name vlans dns ntp
  = unlines (networkSectionDirectives name vlans dns ntp).
Proof.
  unfold generateNetworkSectionContents, networkSectionDirectives.
  rewrite fold_left_vlan_directives.
  destruct dns as [d|], ntp as [n|];
    try (destruct (DNS.SearchDomains d) as [|s0 sd] eqn:Esd;
         cbn [List.length Nat.ltb Nat.leb]);
    rewrite ?(fold_left_directives "DNS="), ?(fold_left_directives "NTP=");
    rewrite ?unlines_app; cbn [unlines app];
    rewrite ?unlines_app, ?append_assoc, ?append_empty_r; reflexivity.
Qed.

Lemma singleLine_Join (elems : list string) :
  forallb singleLine elems = true ->
  singleLine (strings.Join elems " ") = true.
Proof.
  induction elems as [|x rest IH]; cbn [forallb strings.Join]; intros H;
    [reflexivity|].
  apply andb_prop in H. destruct H as [Hx Hrest].
  destruct rest as [|y rest']; [assumption|].
  rewrite !singleLine_append, Hx, (IH Hrest). reflexivity.
Qed.

Lemma forallb_singleLine_map (key : string) (items : list string) :
  singleLine key = true ->
  forallb singleLine items = true ->
  forallb singleLine (map (fun item => key ++ item) items) = true.
Proof.
  intros Hk. induction items as [|x items IH]; cbn [forallb map]; intros H;
    [reflexivity|].
  apply andb_prop in H. destruct H as [Hx Hrest].
  now rewrite singleLine_append, Hk, Hx, (IH Hrest).
Qed.

(** Filtering the lines made of one key by the prefix of a key. *)
Lemma filter_prefix_map (wanted key : string) (keep : bool)
    (items : list string) :
  (forall item, String.prefix wanted (key ++ item) = keep) ->
  filter (String.prefix wanted) (map (fun item => key ++ item) items)
  = if keep then map (fun item => key ++ item) items else [].
Proof.
  intros Hkey. induction items as [|x items IH]; cbn [map filter].
  - now destruct keep.
  - rewrite Hkey, IH. now destruct keep.
Qed.

(** X11.  Read back line by line, the directives that
    [generateNetworkSectionContents] puts at the head of the [[Network]]
    section of a device are: one [VLAN=] directive naming each declared
    VLAN whose parent is the device, in declaration order, and none for
    any other VLAN; when DNS settings are given, one [DNS=] directive per
    name server; when NTP settings are given, one [NTP=] directive per
    time server. *)
Theorem X11_network_section_directives (name : string) (vlans : list VLAN.t)
    (dns : option DNS.t) (ntp : option NTP.t)
    (Hvlans : forallb (fun v => singleLine (VLAN.Name v)) vlans = true)
    (Hdns : match dns with
            | Some dns =>
                forallb singleLine (DNS.SearchDomains dns) = true
                /\ forallb singleLine (DNS.Nameservers dns) = true
            | None => True
            end)
    (Hntp : match ntp with
            | Some ntp => forallb singleLine (NTP.Timeservers ntp) = true
            | None => True
            end) :
  let section := lines (generateNetworkSectionContents name vlans dns ntp) in
  filter (String.prefix "VLAN=") section
  = map (fun v => "VLAN=" ++ VLAN.Name v)
        (filter (fun v => VLAN.Parent v =? name) vlans)
  /\ filter (String.prefix "DNS=") section
     = match dns with
       | Some dns => map (fun ns => "DNS=" ++ ns) (DNS.Nameservers dns)
       | None => []
       end
  /\ filter (String.prefix "NTP=") section
     = match ntp with
       | Some ntp => map (fun ts => "NTP=" ++ ts) (NTP.Timeservers ntp)
       | None => []
       end.
Proof.
  cbn zeta. rewrite generateNetworkSectionContents_unlines.
  assert (Hsingle :
    forallb singleLine (networkSectionDirectives name vlans dns ntp) = true).
  { unfold networkSectionDirectives. rewrite !forallb_app.
    apply andb_true_intro; split; [|apply andb_true_intro; split].
    - clear -Hvlans. induction vlans as [|v vlans IH]; [reflexivity|].
      cbn [forallb] in Hvlans. apply andb_prop in Hvlans.
      destruct Hvlans as [Hv Hrest]. cbn [filter].
      destruct (VLAN.Parent v =? name); cbn [map forallb];
        rewrite ?singleLine_append, ?Hv; now rewrite (IH Hrest).
    - destruct dns as [d|]; [|reflexivity]. destruct Hdns as [Hsd Hns].
      rewrite forallb_app.
      rewrite (forallb_singleLine_map "DNS=" _ eq_refl Hns).
      destruct (DNS.SearchDomains d) as [|s0 sd]; [reflexivity|].
      cbn [forallb]. now rewrite singleLine_append, (singleLine_Join _ Hsd).
    - destruct ntp as [n|]; [|reflexivity].
      now apply (forallb_singleLine_map "NTP="). }
  rewrite (lines_unlines _ Hsingle). unfold networkSectionDirectives.
  rewrite !filter_app.
  assert (Hchildren :
    forall wanted keep,
      (forall item, String.prefix wanted ("VLAN=" ++ item) = keep) ->
      filter (String.prefix wanted)
        (map (fun v => "VLAN=" ++ VLAN.Name v)
             (filter (fun v => VLAN.Parent v =? name) vlans))
      = if keep
        then map (fun v => "VLAN=" ++ VLAN.Name v)
                 (filter (fun v => VLAN.Parent v =? name) vlans)
        else []).
  { intros wanted keep Hkey.
    induction (filter (fun v => VLAN.Parent v =? name) vlans) as [|v l IH];
      cbn [map filter]; [now destruct keep|].
    rewrite Hkey, IH. now destruct keep. }
  rewrite (Hchildren "VLAN=" true) by (intros x; destruct x; reflexivity).
  rewrite (Hchildren "DNS=" false) by reflexivity.
  rewrite (Hchildren "NTP=" false) by reflexivity.
  assert (Hdomains :
    forall wanted (d : DNS.t),
      String.prefix wanted "Domains=" = false ->
      (forall x, String.prefix wanted ("Domains=" ++ x) = false) ->
      filter (String.prefix wanted)
        (match DNS.SearchDomains d with
         | [] => []
         | _ :: _ => ["Domains=" ++ strings.Join (DNS.SearchDomains d) " "]
         end) = []).
  { intros wanted d _ Hx. destruct (DNS.SearchDomains d); [reflexivity|].
    cbn [filter]. now rewrite Hx. }
  destruct dns as [d|], ntp as [n|]; rewrite ?filter_app;
    rewrite ?(Hdomains "VLAN=" d eq_refl) by reflexivity;
    rewrite ?(Hdomains "DNS=" d eq_refl) by reflexivity;
    rewrite ?(Hdomains "NTP=" d eq_refl) by reflexivity;
    rewrite ?(filter_prefix_map "VLAN=" "DNS=" false) by reflexivity;
    rewrite ?(filter_prefix_map "VLAN=" "NTP=" false) by reflexivity;
    rewrite ?(filter_prefix_map "DNS=" "NTP=" false) by reflexivity;
    rewrite ?(filter_prefix_map "NTP=" "DNS=" false) by reflexivity;
    rewrite ?(filter_prefix_map "DNS=" "DNS=" true)
      by (intros x; destruct x; reflexivity);
    rewrite ?(filter_prefix_map "NTP=" "NTP=" true)
      by (intros x; destruct x; reflexivity);
    cbn [filter app]; rewrite ?app_nil_r; repeat split; reflexivity.
Qed.

(** X11 on scenario B with two name servers and a time server. *)
Lemma X11_network_section_directives_witness :
  let dns := {| DNS.Hostname := "host"; DNS.Domain := "example.org";
                DNS.SearchDomains := ["example.org"; "example.net"];
                DNS.Nameservers := ["192.0.2.53"; "2001:db8::53"] |} in
  let ntp := {| NTP.Timeservers := ["time.example.org"] |} in
  lines (generateNetworkSectionContents "eth0" (Config.VLANs Scenario.configB)
           (Some dns) (Some ntp))
  = ["VLAN=vlan20"; "VLAN=vlan10"; "Domains=example.org example.net";
     "DNS=192.0.2.53"; "DNS=2001:db8::53"; "NTP=time.example.org"]
  /\ filter (String.prefix "VLAN=")
       (lines (generateNetworkSectionContents "eth0"
                 (Config.VLANs Scenario.configB) (Some dns) (Some ntp)))
     = ["VLAN=vlan20"; "VLAN=vlan10"].
Proof.
  intros dns ntp. split; [reflexivity|].
  exact (proj1 (X11_network_section_directives "eth0"
                  (Config.VLANs Scenario.configB) (Some dns) (Some ntp)
                  eq_refl (conj eq_refl eq_refl) eq_refl)).
Defined.

(** X12.  The time-sync artifact is empty exactly when no time server is
    configured; otherwise it is a [[Time]] section with one [FallbackNTP=]
    directive listing the servers separated by single spaces. *)
Theorem X12_timesync_contents (ntp : NTP.t) :
  (generateTimesyncContents ntp = "" <-> NTP.Timeservers ntp = [])
  /\ (NTP.Timeservers ntp <> [] ->
      forallb singleLine (NTP.Timeservers ntp) = true ->
      lines (generateTimesyncContents ntp)
      = ["[Time]";
         "FallbackNTP=" ++ strings.Join (NTP.Timeservers ntp) " "]).
Proof.
  unfold generateTimesyncContents.
  destruct (NTP.Timeservers ntp) as [|s0 servers] eqn:E;
    cbn [List.length Nat.eqb].
  - split; [tauto | congruence].
  - split; [split; discriminate|]. intros _ Hlines.
    replace (("[Time]" ++ NL ++ "FallbackNTP=")
               ++ strings.Join (s0 :: servers) " " ++ NL)
      with (unlines ["[Time]";
                     "FallbackNTP=" ++ strings.Join (s0 :: servers) " "])
      by (cbn [unlines]; now rewrite ?append_assoc, ?append_empty_r).
    apply lines_unlines. cbn [forallb].
    now rewrite singleLine_append, (singleLine_Join _ Hlines).
Qed.

(** X12 at two time servers. *)
Lemma X12_timesync_contents_witness :
  let ntp := {| NTP.Timeservers := ["ntp1.example.org"; "ntp2.example.org"] |} in
  lines (generateTimesyncContents ntp)
  = ["[Time]"; "FallbackNTP=ntp1.example.org ntp2.example.org"].
Proof.
  intros ntp.
  apply (proj2 (X12_timesync_contents ntp)); [discriminate | reflexivity].
Defined.

(* ================================================================== *)
(** ** The normalized device name of a hardware address *)
(* ================================================================== *)

Lemma replace_colon_step (c : ascii) (s : string) :
  strings.ReplaceAll (String c s) ":" ""
  = if Ascii.eqb c ":" then strings.ReplaceAll s ":" ""
    else String c (strings.ReplaceAll s ":" "").
Proof.
  unfold strings.ReplaceAll. cbn [strings.replaceFrom String.prefix].
  destruct (ascii_dec ":" c) as [<-|N].
  - destruct s; reflexivity.
  - destruct (Ascii.eqb_spec c ":") as [E|_]; [congruence | reflexivity].
Qed.

Lemma lowerAscii_colon (c : ascii) :
  Ascii.eqb (strings.lowerAscii c) ":" = Ascii.eqb c ":".
Proof.
  destruct c as [[|] [|] [|] [|] [|] [|] [|] [|]]; reflexivity.
Qed.

Lemma lowerAscii_idempotent (c : ascii) :
  strings.lowerAscii (strings.lowerAscii c) = strings.lowerAscii c.
Proof.
  destruct c as [[|] [|] [|] [|] [|] [|] [|] [|]]; reflexivity.
Qed.

Lemma ToLower_replace_colon (s : string) :
  strings.ToLower (strings.ReplaceAll s ":" "")
  = strings.ReplaceAll (strings.ToLower s) ":" "".
Proof.
  induction s as [|c s IH]; [reflexivity|].
  cbn [strings.ToLower]. rewrite !replace_colon_step, lowerAscii_colon.
  destruct (Ascii.eqb c ":"); [assumption|].
  cbn [strings.ToLower]. now rewrite IH.
Qed.

Lemma replace_colon_idempotent (s : string) :
  strings.ReplaceAll (strings.ReplaceAll s ":" "") ":" ""
  = strings.ReplaceAll s ":" "".
Proof.
  induction s as [|c s IH]; [reflexivity|].
  rewrite replace_colon_step.
  destruct (Ascii.eqb c ":") eqn:E; [assumption|].
  now rewrite replace_colon_step, E, IH.
Qed.

Lemma ToLower_idempotent (s : string) :
  strings.ToLower (strings.ToLower s) = strings.ToLower s.
Proof.
  induction s as [|c s IH]; [reflexivity|].
  cbn [strings.ToLower]. now rewrite lowerAscii_idempotent, IH.
Qed.

Lemma replace_colon_no_colon (s : string) :
  strings.Contains (strings.ReplaceAll s ":" "") ":" = false.
Proof.
  induction s as [|c s IH]; [reflexivity|].
  rewrite replace_colon_step.
  destruct (Ascii.eqb_spec c ":") as [E|N]; [assumption|].
  cbn [strings.Contains String.prefix].
  destruct (ascii_dec ":" c) as [E|_]; [congruence | assumption].
Qed.

(** A string of ASCII characters: every byte is below 128.  On such
    strings the byte-wise [strings.ToLower] above is Go's. *)
Fixpoint isASCII (s : string) : bool :=
  match s with
  | EmptyString => true
  | String c s' => (Nat.ltb (nat_of_ascii c) 128 && isASCII s')%bool
  end.

Lemma lowerAscii_ascii (c : ascii) :
  Nat.ltb (nat_of_ascii c) 128 = true ->
  Nat.ltb (nat_of_ascii (strings.lowerAscii c)) 128 = true.
Proof.
  destruct c as [[|] [|] [|] [|] [|] [|] [|] [|]]; intros H;
    try reflexivity; discriminate H.
Qed.

Lemma isASCII_ToLower (s : string) :
  isASCII s = true -> isASCII (strings.ToLower s) = true.
Proof.
  induction s as [|c s IH]; cbn [isASCII strings.ToLower]; intros H;
    [reflexivity|].
  apply andb_prop in H. destruct H as [Hc Hs].
  now rewrite (lowerAscii_ascii c Hc), (IH Hs).
Qed.

Lemma isASCII_replace_colon (s : string) :
  isASCII s = true -> isASCII (strings.ReplaceAll s ":" "") = true.
Proof.
  induction s as [|c s IH]; intros H; [reflexivity|].
  cbn [isASCII] in H. apply andb_prop in H. destruct H as [Hc Hs].
  rewrite replace_colon_step.
  destruct (Ascii.eqb c ":"); [now apply IH|].
  cbn [isASCII]. now rewrite Hc, (IH Hs).
Qed.

(** X13.  For a hardware address made of ASCII characters: its normalized
    form holds no colon and is again made of ASCII characters, as are the
    lower-cased and the colon-stripped address; the normalized form does
    not depend on the case of the letters of the address nor on colons
    already removed from it; and normalizing a normalized form changes
    nothing.  So an ASCII address given in upper case, in lower case, with
    or without colons names the same device. *)
Theorem X13_strippedHwaddr_normal_form (hwaddr : string)
    (Hascii : isASCII hwaddr = true) :
  strings.Contains (strippedHwaddr hwaddr) ":" = false
  /\ (isASCII (strings.ToLower hwaddr) = true
      /\ isASCII (strings.ReplaceAll hwaddr ":" "") = true
      /\ isASCII (strippedHwaddr hwaddr) = true)
  /\ strippedHwaddr (strings.ToLower hwaddr) = strippedHwaddr hwaddr
  /\ strippedHwaddr (strings.ReplaceAll hwaddr ":" "") = strippedHwaddr hwaddr
  /\ strippedHwaddr (strippedHwaddr hwaddr) = strippedHwaddr hwaddr.
Proof.
  unfold strippedHwaddr. split; [|split; [|split; [|split]]].
  - rewrite ToLower_replace_colon. apply replace_colon_no_colon.
  - split; [now apply isASCII_ToLower|].
    split; [now apply isASCII_replace_colon|].
    now apply isASCII_ToLower, isASCII_replace_colon.
  - now rewrite <- !ToLower_replace_colon, ToLower_idempotent.
  - now rewrite replace_colon_idempotent.
  - rewrite (ToLower_replace_colon hwaddr), replace_colon_idempotent.
    now rewrite ToLower_replace_colon, ToLower_idempotent.
Qed.

(** X13 at a mixed-case address. *)
Lemma X13_strippedHwaddr_normal_form_witness :
  isASCII "AA:bb:Cc:dD:0e:F1" = true
  /\ strippedHwaddr (strings.ToLower "AA:bb:Cc:dD:0e:F1")
     = strippedHwaddr "AA:bb:Cc:dD:0e:F1"
  /\ strippedHwaddr (strippedHwaddr "AA:bb:Cc:dD:0e:F1")
     = strippedHwaddr "AA:bb:Cc:dD:0e:F1".
Proof.
  assert (isASCII "AA:bb:Cc:dD:0e:F1" = true) as H by reflexivity.
  pose proof (X13_strippedHwaddr_normal_form "AA:bb:Cc:dD:0e:F1" H)
    as [_ [_ [Hlower [_ Hfixed]]]].
  split; [exact H|]. split; [exact Hlower | exact Hfixed].
Defined.

Example strippedHwaddr_mixed_case :
  strippedHwaddr "AA:bb:Cc:dD:0e:F1" = "aabbccdd0ef1".
Proof. reflexivity. Qed.

(* ================================================================== *)
(** ** What the applier and the poller do, call by call *)
(* ================================================================== *)

Section Traces.

Context {SystemNetworkProxy : Type} {host : Host SystemNetworkProxy}.
Local Abbreviation Hist := (History SystemNetworkProxy).
Local Abbreviation SystemNetworkConfig := (Config.t SystemNetworkProxy).

(** A computation that only adds calls of a given kind to the history. *)
Definition only {A : Type} (allowed : call SystemNetworkProxy -> Prop)
    (m : M A) : Prop :=
  forall h : Hist, exists ext, snd (m h) = (ext ++ h)%list /\ Forall allowed ext.

Lemma only_ret {A} allowed (a : A) : only allowed (ret a).
Proof. intros h. exists []. split; [reflexivity | constructor]. Qed.

Lemma only_panic {A} allowed : only allowed (panic (A := A)).
Proof. intros h. exists []. split; [reflexivity | constructor]. Qed.

Lemma only_unfinished {A} allowed : only allowed (unfinished (A := A)).
Proof. intros h. exists []. split; [reflexivity | constructor]. Qed.

Lemma only_perform (allowed : call SystemNetworkProxy -> Prop) c :
  allowed c -> only allowed (perform c).
Proof. intros Hc h. exists [c]. split; [reflexivity | now constructor]. Qed.

Lemma only_now (allowed : call SystemNetworkProxy -> Prop) :
  allowed time_Now -> only allowed now.
Proof. intros Hc h. exists [time_Now]. split; [reflexivity | now constructor]. Qed.

Lemma only_sleep (allowed : call SystemNetworkProxy -> Prop) d :
  allowed (time_Sleep d) -> only allowed (sleep d).
Proof.
  intros Hc h. exists [time_Sleep d]. split; [reflexivity | now constructor].
Qed.

Lemma only_RunCommandContext (allowed : call SystemNetworkProxy -> Prop)
    name args :
  allowed (subprocess_RunCommandContext name args) ->
  only allowed (RunCommandContext name args).
Proof.
  intros Hc h. exists [subprocess_RunCommandContext name args].
  split; [reflexivity | now constructor].
Qed.

Lemma only_bind {A B} allowed (m : M A) (k : A -> M B) :
  only allowed m -> (forall a, only allowed (k a)) -> only allowed (bind m k).
Proof.
  intros Hm Hk h. unfold bind. destruct (Hm h) as [ext [E F]].
  destruct (m h) as [[a| |] h']; cbn [snd] in *; subst h'.
  - destruct (Hk a (ext ++ h)%list) as [ext' [E' F']].
    exists (ext' ++ ext)%list. rewrite E', app_assoc.
    split; [reflexivity | now apply Forall_app].
  - now exists ext.
  - now exists ext.
Qed.

Lemma only_check allowed (m k : M (option error)) :
  only allowed m -> only allowed k ->
  only allowed (bind m (fun err => match err with
                                   | Some e => ret (Some e)
                                   | None => k
                                   end)).
Proof.
  intros Hm Hk. apply only_bind; [assumption|].
  intros [e|]; [apply only_ret | assumption].
Qed.

Lemma only_weaken {A} (allowed allowed' : call SystemNetworkProxy -> Prop)
    (m : M A) :
  (forall c, allowed c -> allowed' c) -> only allowed m -> only allowed' m.
Proof.
  intros Himp Hm h. destruct (Hm h) as [ext [E F]]. exists ext.
  split; [assumption|]. eapply Forall_impl; eauto.
Qed.

(** The calls on the file system. *)
Definition isFileCall (c : call SystemNetworkProxy) : Prop :=
  match c with
  | os_RemoveAll _ | os_Mkdir _ _ | os_WriteFile _ _ _ | os_Remove _ => True
  | _ => False
  end.

(** The calls of the rename wait. *)
Definition isRenameWaitCall (c : call SystemNetworkProxy) : Prop :=
  c = time_Now
  \/ c = time_Sleep (500 * time.Millisecond)
  \/ c = subprocess_RunCommandContext "udevadm" ["trigger"; "--action=add"]
  \/ c = subprocess_RunCommandContext "udevadm" ["settle"]
  \/ c = subprocess_RunCommandContext "journalctl"
           ["-b"; "-t"; "kernel"; "-g"; "en[[:xdigit:]]{12}: renamed from "].

(** The calls of the online wait over the given devices. *)
Definition isOnlineWaitCall (devices : list string)
    (c : call SystemNetworkProxy) : Prop :=
  c = time_Now
  \/ c = time_Sleep (500 * time.Millisecond)
  \/ exists name,
       In name devices
       /\ (c = subprocess_RunCommandContext "networkctl" ["status"; name]
           \/ c = subprocess_RunCommandContext "ip" ["address"; "show"; name]).

Lemma only_writeFiles (files : list networkdConfigFile) :
  only isFileCall (writeFiles files).
Proof.
  induction files as [|cfg rest IH]; cbn [writeFiles].
  - apply only_ret.
  - apply only_check; [apply only_perform; exact I | assumption].
Qed.

Lemma only_generateNetworkConfiguration (networkCfg : SystemNetworkConfig) :
  only isFileCall (generateNetworkConfiguration networkCfg).
Proof.
  unfold generateNetworkConfiguration.
  apply only_check; [apply only_perform; exact I|].
  apply only_check; [apply only_perform; exact I|].
  apply only_check; [apply only_writeFiles|].
  destruct (generateNetdevFileContents networkCfg); [|apply only_panic].
  apply only_check; [apply only_writeFiles|].
  apply only_check; [apply only_writeFiles|].
  apply only_check.
  - destruct (Config.NTP networkCfg); [|apply only_ret].
    destruct (negb _); [apply only_perform; exact I | apply only_ret].
  - destruct (Config.NTP networkCfg) as [ntp|].
    + destruct (_ =? _)%string; [|apply only_ret].
      apply only_bind; [apply only_perform; exact I | intros; apply only_ret].
    + apply only_bind; [apply only_perform; exact I | intros; apply only_ret].
Qed.

Lemma only_checkDevices (all devices : list string) :
  (forall name, In name devices -> In name all) ->
  only (isOnlineWaitCall all) (checkDevices devices).
Proof.
  induction devices as [|name rest IH]; intros Hsub; cbn [checkDevices].
  - apply only_ret.
  - assert (In name all) as Hname by (apply Hsub; now left).
    assert (only (isOnlineWaitCall all) (checkDevices rest)) as Hrest
      by (apply IH; intros n Hn; apply Hsub; now right).
    apply only_bind.
    + unfold isOnline. apply only_bind.
      * apply only_RunCommandContext. right; right. exists name. auto.
      * intros [out|err]; apply only_ret.
    + intros [online requiredOnline].
      destruct (negb requiredOnline); [assumption|].
      destruct (negb online); [apply only_ret|].
      apply only_bind.
      * unfold hasAtLeastOneConfiguredIP. apply only_bind.
        -- apply only_RunCommandContext. right; right. exists name. auto.
        -- intros [out|err]; apply only_ret.
      * intros hasIP. destruct (negb hasIP); [apply only_ret | assumption].
Qed.

Lemma only_onlineLoop (fuel : nat) (endTime : Time) (devices : list string) :
  only (isOnlineWaitCall devices) (onlineLoop fuel endTime devices).
Proof.
  induction fuel as [|fuel IH]; cbn [onlineLoop]; [apply only_unfinished|].
  apply only_bind; [apply only_now; now left|].
  intros t. destruct (time.After t endTime); [apply only_ret|].
  apply only_bind; [apply only_checkDevices; auto|].
  intros [|]; [apply only_ret|].
  apply only_bind; [apply only_sleep; right; now left | intros _; exact IH].
Qed.

Lemma only_renameLoop (fuel : nat) (endTime : Time) :
  only isRenameWaitCall (renameLoop fuel endTime).
Proof.
  induction fuel as [|fuel IH]; cbn [renameLoop]; [apply only_unfinished|].
  apply only_bind; [apply only_now; now left|].
  intros t. destruct (time.After t endTime); [apply only_ret|].
  apply only_bind;
    [apply only_RunCommandContext; unfold isRenameWaitCall; tauto|].
  intros [_|err]; [|apply only_ret].
  apply only_bind;
    [apply only_RunCommandContext; unfold isRenameWaitCall; tauto|].
  intros [_|err]; [|apply only_ret].
  apply only_bind;
    [apply only_RunCommandContext; unfold isRenameWaitCall; tauto|].
  intros [_|err]; [apply only_ret|].
  apply only_bind;
    [apply only_sleep; unfold isRenameWaitCall; tauto | intros _; exact IH].
Qed.

End Traces.

Section PollerResults.

Context {SystemNetworkProxy : Type} {host : Host SystemNetworkProxy}.
Local Abbreviation Hist := (History SystemNetworkProxy).
Local Abbreviation SystemNetworkConfig := (Config.t SystemNetworkProxy).

Local Abbreviation journal :=
  (subprocess_RunCommandContext "journalctl"
     ["-b"; "-t"; "kernel"; "-g"; "en[[:xdigit:]]{12}: renamed from "]).

(** How the rename loop can end: success on a [journalctl] that found the
    rename, its timeout error, or the error of a failed [udevadm]. *)
Lemma renameLoop_results (fuel : nat) (endTime : Time) :
  forall h : Hist,
    (fst (renameLoop fuel endTime h) = Returns None ->
     exists past out,
       snd (renameLoop fuel endTime h) = journal :: past
       /\ commandResult (journal :: past) = inl out)
    /\ (forall e,
          fst (renameLoop fuel endTime h) = Returns (Some e) ->
          e = renameTimeout
          \/ exists args past,
               snd (renameLoop fuel endTime h)
               = subprocess_RunCommandContext "udevadm" args :: past
               /\ commandResult
                    (subprocess_RunCommandContext "udevadm" args :: past)
                  = inr e).
Proof.
  induction fuel as [|fuel IH]; intros h.
  { split; [discriminate | intros e; discriminate]. }
  rewrite renameLoop_step.
  destruct (time.After _ endTime).
  { split; [discriminate|]. intros e E. injection E as <-. now left. }
  destruct (commandResult (subprocess_RunCommandContext "udevadm"
                             ["trigger"; "--action=add"] :: time_Now :: h))
    as [o1|e1] eqn:E1.
  2:{ split; [discriminate|]. intros e E. injection E as <-. right.
      cbn [snd]. eauto. }
  destruct (commandResult (subprocess_RunCommandContext "udevadm" ["settle"]
                           :: _)) as [o2|e2] eqn:E2.
  2:{ split; [discriminate|]. intros e E. injection E as <-. right.
      cbn [snd]. eauto. }
  destruct (commandResult (journal :: _)) as [o3|e3] eqn:E3.
  - split; [|intros e; discriminate]. intros _. cbn [snd]. eauto.
  - apply IH.
Qed.

(** X14.  The interface-rename wait is its loop, started after a first
    reading of the clock, and it only reads the clock, sleeps for 500 ms
    and runs its three commands ([udevadm trigger --action=add],
    [udevadm settle] and the [journalctl] query).  On every iteration of
    the loop: when the deadline is passed, the loop returns its timeout
    error; otherwise a failed [udevadm trigger] aborts the wait with the
    error of the command, [udevadm settle] not being run; a failed
    [udevadm settle] aborts it likewise, [journalctl] not being run; a
    [journalctl] query that succeeds ends the wait with nil; and a
    [journalctl] query that fails is not returned: the loop sleeps for
    500 ms and goes round again.  Conversely the wait returns nil only when
    its last call was a [journalctl] query that succeeded, and an error it
    returns is its timeout error or the error of a failed [udevadm] command
    that was its last call. *)
Theorem X14_rename_wait_results (fuel : nat) (timeout : Duration) (h : Hist) :
  let trigger :=
    subprocess_RunCommandContext "udevadm" ["trigger"; "--action=add"] in
  let settle := subprocess_RunCommandContext "udevadm" ["settle"] in
  (exists ext,
     snd (waitForUdevInterfaceRename fuel timeout h) = (ext ++ h)%list
     /\ Forall isRenameWaitCall ext)
  /\ (fst (waitForUdevInterfaceRename fuel timeout h) = Returns None ->
      exists past out,
        snd (waitForUdevInterfaceRename fuel timeout h) = journal :: past
        /\ commandResult (journal :: past) = inl out)
  /\ (forall e,
        fst (waitForUdevInterfaceRename fuel timeout h) = Returns (Some e) ->
        e = renameTimeout
        \/ exists args past,
             snd (waitForUdevInterfaceRename fuel timeout h)
             = subprocess_RunCommandContext "udevadm" args :: past
             /\ commandResult
                  (subprocess_RunCommandContext "udevadm" args :: past)
                = inr e)
  /\ waitForUdevInterfaceRename fuel timeout h
     = renameLoop fuel (clock (time_Now :: h) + timeout) (time_Now :: h)
  /\ (forall (remaining : nat) (endTime : Time) (past : Hist),
        (time.After (clock (time_Now :: past)) endTime = true ->
         renameLoop (S remaining) endTime past
         = (Returns (Some renameTimeout), time_Now :: past))
        /\ (time.After (clock (time_Now :: past)) endTime = false ->
            (forall e,
               commandResult (trigger :: time_Now :: past) = inr e ->
               renameLoop (S remaining) endTime past
               = (Returns (Some e), trigger :: time_Now :: past))
            /\ (forall out e,
                  commandResult (trigger :: time_Now :: past) = inl out ->
                  commandResult (settle :: trigger :: time_Now :: past)
                  = inr e ->
                  renameLoop (S remaining) endTime past
                  = (Returns (Some e),
                     settle :: trigger :: time_Now :: past))
            /\ (forall out out' found,
                  commandResult (trigger :: time_Now :: past) = inl out ->
                  commandResult (settle :: trigger :: time_Now :: past)
                  = inl out' ->
                  commandResult
                    (journal :: settle :: trigger :: time_Now :: past)
                  = inl found ->
                  renameLoop (S remaining) endTime past
                  = (Returns None,
                     journal :: settle :: trigger :: time_Now :: past))
            /\ (forall out out' e,
                  commandResult (trigger :: time_Now :: past) = inl out ->
                  commandResult (settle :: trigger :: time_Now :: past)
                  = inl out' ->
                  commandResult
                    (journal :: settle :: trigger :: time_Now :: past)
                  = inr e ->
                  renameLoop (S remaining) endTime past
                  = renameLoop remaining endTime
                      (time_Sleep (500 * time.Millisecond)
                       :: journal :: settle :: trigger :: time_Now
                       :: past)))).
Proof.
  cbn zeta. split; [|split; [|split; [|split]]].
  - assert (only isRenameWaitCall (waitForUdevInterfaceRename fuel timeout))
      as Honly.
    { unfold waitForUdevInterfaceRename.
      apply only_bind; [apply only_now; now left|].
      intros t. apply only_renameLoop. }
    apply Honly.
  - unfold waitForUdevInterfaceRename, bind, now.
    apply renameLoop_results.
  - unfold waitForUdevInterfaceRename, bind, now.
    apply renameLoop_results.
  - reflexivity.
  - intros remaining endTime past. split.
    + intros Hlate. now rewrite renameLoop_step, Hlate.
    + intros Hnot. repeat split.
      * intros e E1. now rewrite renameLoop_step, Hnot, E1.
      * intros out e E1 E2. now rewrite renameLoop_step, Hnot, E1, E2.
      * intros out out' found E1 E2 E3.
        now rewrite renameLoop_step, Hnot, E1, E2, E3.
      * intros out out' e E1 E2 E3.
        now rewrite renameLoop_step, Hnot, E1, E2, E3.
Qed.

(** The online loop returns nil only at the end of a pass that found every
    device converged. *)
Lemma onlineLoop_success (fuel : nat) (endTime : Time)
    (devices : list string) :
  forall h : Hist,
    fst (onlineLoop fuel endTime devices h) = Returns None ->
    exists start,
      checkDevices devices start
      = (Returns true, snd (onlineLoop fuel endTime devices h)).
Proof.
  induction fuel as [|fuel IH]; intros h; [discriminate|].
  rewrite onlineLoop_step.
  destruct (time.After _ endTime); [discriminate|].
  destruct (checkDevices devices (time_Now :: h)) as [[[|]| |] h'] eqn:E;
    try discriminate.
  - intros _. exists (time_Now :: h). exact E.
  - apply IH.
Qed.

(** X15.  The online wait changes nothing on the host: it only reads the
    clock, sleeps for 500 ms and runs [networkctl status] and
    [ip address show] on devices of the configuration that have at least
    one address.  It returns nil only at the end of a pass over all these
    devices that found each of them converged. *)
Theorem X15_online_wait_results (fuel : nat)
    (networkCfg : SystemNetworkConfig) (timeout : Duration) (h : Hist) :
  (exists ext,
     snd (waitForNetworkOnline fuel networkCfg timeout h) = (ext ++ h)%list
     /\ Forall (isOnlineWaitCall (devicesToCheck networkCfg)) ext)
  /\ (fst (waitForNetworkOnline fuel networkCfg timeout h) = Returns None ->
      exists start,
        checkDevices (devicesToCheck networkCfg) start
        = (Returns true,
           snd (waitForNetworkOnline fuel networkCfg timeout h))).
Proof.
  split.
  - assert (only (isOnlineWaitCall (devicesToCheck networkCfg))
              (waitForNetworkOnline fuel networkCfg timeout)) as Honly.
    { unfold waitForNetworkOnline.
      apply only_bind; [apply only_now; now left|].
      intros t. apply only_onlineLoop. }
    apply Honly.
  - unfold waitForNetworkOnline, bind, now.
    apply onlineLoop_success.
Qed.

Lemma devicesToCheck_In (networkCfg : SystemNetworkConfig) (name : string) :
  In name (devicesToCheck networkCfg)
  <-> (exists i, In i (Config.Interfaces networkCfg)
                 /\ Interface.Name i = name /\ Interface.Addresses i <> [])
      \/ (exists b, In b (Config.Bonds networkCfg)
                    /\ Bond.Name b = name /\ Bond.Addresses b <> [])
      \/ (exists v, In v (Config.VLANs networkCfg)
                    /\ VLAN.Name v = name /\ VLAN.Addresses v <> []).
Proof.
  unfold devicesToCheck. rewrite !in_app_iff, !in_map_iff.
  assert (Hne : forall l : list string,
            negb (Nat.eqb (List.length l) 0) = true <-> l <> []).
  { intros [|x l]; cbn; split; congruence. }
  split.
  - intros [[i [E Hi]]|[[b [E Hb]]|[v [E Hv]]]];
      apply filter_In in Hi || apply filter_In in Hb || apply filter_In in Hv.
    + left. exists i. rewrite <- Hne. tauto.
    + right; left. exists b. rewrite <- Hne. tauto.
    + right; right. exists v. rewrite <- Hne. tauto.
  - intros [[i [Hi [E Ha]]]|[[b [Hb [E Ha]]]|[v [Hv [E Ha]]]]].
    + left. exists i. rewrite filter_In, Hne. tauto.
    + right; left. exists b. rewrite filter_In, Hne. tauto.
    + right; right. exists v. rewrite filter_In, Hne. tauto.
Qed.

(** X16.  The devices the online wait checks are the interfaces, bonds and
    VLANs with a non-empty address list.  In particular every device whose
    generated [[Link]] section does not read [RequiredForOnline=no] is
    checked: the generator never marks as required for online a device the
    wait ignores. *)
Theorem X16_checked_devices (networkCfg : SystemNetworkConfig) :
  (forall name,
     In name (devicesToCheck networkCfg)
     <-> (exists i, In i (Config.Interfaces networkCfg)
                    /\ Interface.Name i = name /\ Interface.Addresses i <> [])
         \/ (exists b, In b (Config.Bonds networkCfg)
                       /\ Bond.Name b = name /\ Bond.Addresses b <> [])
         \/ (exists v, In v (Config.VLANs networkCfg)
                       /\ VLAN.Name v = name /\ VLAN.Addresses v <> []))
  /\ (forall i, In i (Config.Interfaces networkCfg) ->
        generateLinkSectionContents (Interface.Addresses i)
          (Interface.RequiredForOnline i) <> "RequiredForOnline=no" ->
        In (Interface.Name i) (devicesToCheck networkCfg))
  /\ (forall b, In b (Config.Bonds networkCfg) ->
        generateLinkSectionContents (Bond.Addresses b)
          (Bond.RequiredForOnline b) <> "RequiredForOnline=no" ->
        In (Bond.Name b) (devicesToCheck networkCfg))
  /\ (forall v, In v (Config.VLANs networkCfg) ->
        generateLinkSectionContents (VLAN.Addresses v)
          (VLAN.RequiredForOnline v) <> "RequiredForOnline=no" ->
        In (VLAN.Name v) (devicesToCheck networkCfg)).
Proof.
  assert (Hreq : forall addresses policy,
            generateLinkSectionContents addresses policy
            <> "RequiredForOnline=no" -> addresses <> []).
  { intros addresses policy H E. subst. apply H. reflexivity. }
  split; [apply devicesToCheck_In|].
  split; [|split].
  - intros i Hi H. apply devicesToCheck_In. left. exists i.
    split; [assumption|]. split; [reflexivity|]. eapply Hreq; eauto.
  - intros b Hb H. apply devicesToCheck_In. right; left. exists b.
    split; [assumption|]. split; [reflexivity|]. eapply Hreq; eauto.
  - intros v Hv H. apply devicesToCheck_In. right; right. exists v.
    split; [assumption|]. split; [reflexivity|]. eapply Hreq; eauto.
Qed.

(** X17.  When no device of the configuration has an address, the online
    wait runs no command at all: it reads the clock twice and returns, nil
    when the second reading is not past the deadline, its timeout error
    when it is. *)
Theorem X17_nothing_to_wait_for (fuel : nat)
    (networkCfg : SystemNetworkConfig) (timeout : Duration) (h : Hist)
    (Hinterfaces : forall i, In i (Config.Interfaces networkCfg) ->
                             Interface.Addresses i = [])
    (Hbonds : forall b, In b (Config.Bonds networkCfg) ->
                        Bond.Addresses b = [])
    (Hvlans : forall v, In v (Config.VLANs networkCfg) ->
                        VLAN.Addresses v = []) :
  waitForNetworkOnline (S fuel) networkCfg timeout h
  = (Returns (if time.After (clock (time_Now :: time_Now :: h))
                            (clock (time_Now :: h) + timeout)
              then Some onlineTimeout else None),
     time_Now :: time_Now :: h).
Proof.
  assert (devicesToCheck networkCfg = []) as Hnone.
  { destruct (devicesToCheck networkCfg) as [|name rest] eqn:E;
      [reflexivity|]. exfalso.
    assert (In name (devicesToCheck networkCfg)) as Hin
      by (rewrite E; now left).
    apply devicesToCheck_In in Hin.
    destruct Hin as [[i [Hi [_ Ha]]]|[[b [Hb [_ Ha]]]|[v [Hv [_ Ha]]]]];
      apply Ha; auto. }
  unfold waitForNetworkOnline, bind at 1. unfold now at 1.
  rewrite Hnone, onlineLoop_step.
  destruct (time.After _ _); reflexivity.
Qed.

Lemma countIPs_filter (matches : list (string * string)) :
  forall numIPs,
    countIPs matches numIPs
    = numIPs
      + Z.of_nat
          (List.length
             (filter
                (fun addr =>
                   negb (strings.HasPrefix (snd addr) "169.254."
                         || strings.HasPrefix (snd addr) "fe80:"))
                matches)).
Proof.
  induction matches as [|addr rest IH]; intros numIPs;
    cbn [countIPs filter List.length]; [lia|].
  destruct (strings.HasPrefix (snd addr) "169.254."
            || strings.HasPrefix (snd addr) "fe80:")%bool;
    cbn [negb]; rewrite IH; cbn [List.length]; lia.
Qed.

(** X18.  A device holds a configured address exactly when [ip address
    show] succeeds and one of the addresses matched in its output starts
    neither with [169.254.] nor with [fe80:]: link-local addresses never
    count, however many there are. *)
Theorem X18_configured_address (name : string) (h : Hist) :
  fst (hasAtLeastOneConfiguredIP name h) = Returns true
  <-> exists output,
        commandResult
          (subprocess_RunCommandContext "ip" ["address"; "show"; name] :: h)
        = inl output
        /\ exists addr,
             In addr (FindAllStringSubmatch output)
             /\ strings.HasPrefix (snd addr) "169.254." = false
             /\ strings.HasPrefix (snd addr) "fe80:" = false.
Proof.
  unfold hasAtLeastOneConfiguredIP, bind, RunCommandContext, ret.
  destruct (commandResult _) as [output|err]; cbn [fst].
  - rewrite countIPs_filter.
    set (configured := filter _ (FindAllStringSubmatch output)).
    assert (Hin : forall addr,
              In addr configured
              <-> In addr (FindAllStringSubmatch output)
                  /\ strings.HasPrefix (snd addr) "169.254." = false
                  /\ strings.HasPrefix (snd addr) "fe80:" = false).
    { intros addr. unfold configured. rewrite filter_In, negb_true_iff,
        orb_false_iff. tauto. }
    split.
    + intros E. exists output. split; [reflexivity|].
      destruct configured as [|addr rest]; [discriminate|].
      exists addr. apply Hin. now left.
    + intros [output' [E [addr Haddr]]]. injection E as <-.
      apply Hin in Haddr. destruct configured; [contradiction|].
      reflexivity.
  - split; [discriminate | intros [output [E _]]; discriminate].
Qed.

(** X19.  The online condition of a device: the device counts as converged
    on a pass exactly when [networkctl status] succeeds and either its
    output does not say that the device is required for online, or it says
    that the device is online and the device holds a configured address.
    When it is not required for online, its addresses are not queried. *)
Theorem X19_online_condition (name : string) (h : Hist) :
  let query := subprocess_RunCommandContext "networkctl" ["status"; name] in
  (fst (checkDevices [name] h) = Returns true
   <-> exists output,
         commandResult (query :: h) = inl output
         /\ (strings.Contains output "Required For Online: yes" = false
             \/ (strings.Contains output "Online state: online" = true
                 /\ fst (hasAtLeastOneConfiguredIP name (query :: h))
                    = Returns true)))
  /\ (forall output,
        commandResult (query :: h) = inl output ->
        strings.Contains output "Required For Online: yes" = false ->
        checkDevices [name] h = (Returns true, query :: h)).
Proof.
  cbn zeta. cbn [checkDevices].
  unfold isOnline, bind, RunCommandContext, ret.
  destruct (commandResult
              (subprocess_RunCommandContext "networkctl" ["status"; name] :: h))
    as [output|err].
  2:{ split; [|discriminate]. split; [discriminate|].
      intros [out [E _]]. discriminate. }
  destruct (strings.Contains output "Required For Online: yes") eqn:Ereq;
    cbn [negb].
  2:{ split; [|reflexivity]. split; [intros _; eauto | reflexivity]. }
  assert (Hnot : forall out,
            inl (B := error) output = inl out ->
            strings.Contains out "Required For Online: yes" <> false).
  { intros out E. injection E as <-. congruence. }
  split; [|intros out E H; now apply Hnot in E].
  destruct (strings.Contains output "Online state: online") eqn:Eon;
    cbn [negb].
  - destruct (hasAtLeastOneConfiguredIP name _) as [[[|]| |] h'];
      cbn [negb fst]; (split; [try discriminate|]).
    + intros _. exists output. split; [reflexivity|]. right. now split.
    + reflexivity.
    + intros [out [E [H|[_ H]]]]; [now apply Hnot in E | discriminate].
    + intros [out [E [H|[_ H]]]]; [now apply Hnot in E | discriminate].
    + intros [out [E [H|[_ H]]]]; [now apply Hnot in E | discriminate].
  - split; [discriminate|].
    intros [out [E [H|[H _]]]]; [now apply Hnot in E|].
    injection E as <-. congruence.
Qed.

End PollerResults.

Section ApplierResults.

Context {SystemNetworkProxy : Type} {host : Host SystemNetworkProxy}.
Local Abbreviation Hist := (History SystemNetworkProxy).
Local Abbreviation SystemNetworkConfig := (Config.t SystemNetworkProxy).

Local Abbreviation journal :=
  (subprocess_RunCommandContext "journalctl"
     ["-b"; "-t"; "kernel"; "-g"; "en[[:xdigit:]]{12}: renamed from "]).

Local Abbreviation writeCall :=
  (fun cfg : networkdConfigFile =>
     os_WriteFile (filepath_Join SystemdNetworkConfigPath (Name cfg))
                  (Contents cfg) 420).

Lemma writeFiles_success (files : list networkdConfigFile) :
  (forall h : Hist, status h = None) ->
  forall h : Hist,
    writeFiles files h = (Returns None, (rev (map writeCall files) ++ h)%list).
Proof.
  intros Hok. induction files as [|cfg rest IH]; intros h; [reflexivity|].
  cbn [writeFiles]. unfold bind, perform. rewrite Hok, IH.
  cbn [map rev]. now rewrite <- app_assoc.
Qed.

(** X20.  On a host where every file operation succeeds, and for a
    configuration on which the netdev generator does not panic,
    [generateNetworkConfiguration] returns nil after exactly these calls, in
    this order: the configuration directory is removed, then created; the
    link files, the netdev files and the network files are written into it,
    in the order the generators list them; last, the time-sync file is
    written when time servers are configured, and removed when they are
    not. *)
Theorem X20_configuration_written (networkCfg : SystemNetworkConfig)
    (netdevFiles : list networkdConfigFile) (h : Hist)
    (Hok : forall past : Hist, status past = None)
    (Hnetdev : generateNetdevFileContents networkCfg = Some netdevFiles) :
  generateNetworkConfiguration networkCfg h
  = (Returns None,
     (match Config.NTP networkCfg with
      | Some ntp =>
          match NTP.Timeservers ntp with
          | [] => os_Remove SystemdTimesyncConfigFile
          | _ :: _ =>
              os_WriteFile SystemdTimesyncConfigFile
                           (generateTimesyncContents ntp) 420
          end
      | None => os_Remove SystemdTimesyncConfigFile
      end)
     :: (rev (map writeCall
                  (generateLinkFileContents networkCfg
                   ++ netdevFiles
                   ++ generateNetworkFileContents networkCfg))
         ++ os_Mkdir SystemdNetworkConfigPath 493
            :: os_RemoveAll SystemdNetworkConfigPath :: h))%list.
Proof.
  unfold generateNetworkConfiguration. rewrite Hnetdev.
  unfold bind, perform, ret.
  repeat (rewrite ?Hok, ?writeFiles_success by assumption).
  rewrite !map_app, !rev_app_distr, <- !app_assoc.
  destruct (Config.NTP networkCfg) as [ntp|];
    [|repeat (rewrite ?Hok, ?writeFiles_success by assumption); reflexivity].
  unfold generateTimesyncContents.
  destruct (NTP.Timeservers ntp) as [|s0 servers];
    cbn [List.length Nat.eqb String.eqb negb append];
    repeat (rewrite ?Hok, ?writeFiles_success by assumption); reflexivity.
Qed.

(** X21.  Whatever the host answers, [generateNetworkConfiguration] only
    makes file system calls, and the first of them is the removal of the
    configuration directory.  It does anything more only when that removal
    succeeded, and what it does next is to create the directory; and it
    does anything after that, such as writing a file, only when the
    creation succeeded. *)
Theorem X21_wipe_before_write (networkCfg : SystemNetworkConfig) (h : Hist) :
  exists ext,
    snd (generateNetworkConfiguration networkCfg h)
    = (ext ++ os_RemoveAll SystemdNetworkConfigPath :: h)%list
    /\ Forall isFileCall ext
    /\ (ext <> [] ->
        status (os_RemoveAll SystemdNetworkConfigPath :: h) = None
        /\ exists ext',
             ext = (ext' ++ [os_Mkdir SystemdNetworkConfigPath 493])%list
             /\ (ext' <> [] ->
                 status (os_Mkdir SystemdNetworkConfigPath 493
                         :: os_RemoveAll SystemdNetworkConfigPath :: h)
                 = None)).
Proof.
  unfold generateNetworkConfiguration.
  unfold bind at 1. unfold perform at 1.
  destruct (status (os_RemoveAll SystemdNetworkConfigPath :: h)) as [e|] eqn:E1.
  { exists []. cbn. repeat split; [constructor | congruence | congruence]. }
  unfold bind at 1. unfold perform at 1.
  destruct (status (os_Mkdir SystemdNetworkConfigPath 493 :: _)) as [e|] eqn:E2.
  { exists [os_Mkdir SystemdNetworkConfigPath 493]. cbn.
    split; [reflexivity|]. split; [repeat constructor|].
    intros _. split; [reflexivity|]. exists []. split; [reflexivity|].
    congruence. }
  match goal with
  | |- context [snd (?m (os_Mkdir _ _ :: _))] =>
      assert (only isFileCall m) as Hrest
  end.
  { apply only_check; [apply only_writeFiles|].
    destruct (generateNetdevFileContents networkCfg); [|apply only_panic].
    apply only_check; [apply only_writeFiles|].
    apply only_check; [apply only_writeFiles|].
    apply only_check.
    - destruct (Config.NTP networkCfg); [|apply only_ret].
      destruct (negb _); [apply only_perform; exact I | apply only_ret].
    - destruct (Config.NTP networkCfg) as [ntp|].
      + destruct (_ =? _)%string; [|apply only_ret].
        apply only_bind; [apply only_perform; exact I | intros; apply only_ret].
      + apply only_bind; [apply only_perform; exact I | intros; apply only_ret]. }
  destruct (Hrest (os_Mkdir SystemdNetworkConfigPath 493
                   :: os_RemoveAll SystemdNetworkConfigPath :: h))
    as [ext' [E F]].
  exists (ext' ++ [os_Mkdir SystemdNetworkConfigPath 493])%list.
  rewrite E, <- app_assoc. split; [reflexivity|].
  split; [apply Forall_app; split; [assumption | repeat constructor]|].
  intros _. split; [reflexivity|]. exists ext'. split; [reflexivity|].
  intros _. reflexivity.
Qed.

(** Success of the rename loop, with what it added to the history. *)
Lemma renameLoop_success (fuel : nat) (endTime : Time) :
  forall h : Hist,
    fst (renameLoop fuel endTime h) = Returns None ->
    exists ext out,
      snd (renameLoop fuel endTime h) = (journal :: ext ++ h)%list
      /\ Forall isRenameWaitCall ext
      /\ commandResult (journal :: ext ++ h)%list = inl out.
Proof.
  induction fuel as [|fuel IH]; intros h; [discriminate|].
  rewrite renameLoop_step.
  destruct (time.After _ endTime); [discriminate|].
  destruct (commandResult (subprocess_RunCommandContext "udevadm"
                             ["trigger"; "--action=add"] :: time_Now :: h))
    as [o1|e1]; [|discriminate].
  destruct (commandResult (subprocess_RunCommandContext "udevadm" ["settle"]
                           :: _)) as [o2|e2]; [|discriminate].
  destruct (commandResult (journal :: _)) as [o3|e3] eqn:E3.
  - intros _.
    exists [subprocess_RunCommandContext "udevadm" ["settle"];
            subprocess_RunCommandContext "udevadm" ["trigger"; "--action=add"];
            time_Now], o3.
    split; [reflexivity|]. split; [|exact E3].
    repeat constructor; unfold isRenameWaitCall; tauto.
  - intros Hs. destruct (IH _ Hs) as [ext [out [E [F R]]]].
    exists (ext ++ [time_Sleep (500 * time.Millisecond); journal;
                    subprocess_RunCommandContext "udevadm" ["settle"];
                    subprocess_RunCommandContext "udevadm"
                      ["trigger"; "--action=add"];
                    time_Now])%list, out.
    rewrite <- app_assoc. cbn [app]. split; [exact E|]. split; [|exact R].
    apply Forall_app. split; [assumption|].
    repeat constructor; unfold isRenameWaitCall; tauto.
Qed.

Lemma no_restart_in_file_calls (ext : Hist) (unit : string) :
  Forall isFileCall ext -> ~ In (systemd_RestartUnit unit) ext.
Proof.
  intros F Hin. rewrite Forall_forall in F. exact (F _ Hin).
Qed.

Lemma no_restart_in_rename_calls (ext : Hist) (unit : string) :
  Forall isRenameWaitCall ext -> ~ In (systemd_RestartUnit unit) ext.
Proof.
  intros F Hin. rewrite Forall_forall in F.
  destruct (F _ Hin) as [H|[H|[H|[H|H]]]]; discriminate.
Qed.

Lemma no_restart_in_online_calls (devices : list string) (ext : Hist)
    (unit : string) :
  Forall (isOnlineWaitCall devices) ext -> ~ In (systemd_RestartUnit unit) ext.
Proof.
  intros F Hin. rewrite Forall_forall in F.
  destruct (F _ Hin) as [H|[H|[name [_ [H|H]]]]]; discriminate.
Qed.

(** X22.  An apply restarts a service only after the rename wait has seen
    the rename: whenever [ApplyNetworkConfiguration] has restarted a unit,
    what it did is, from the oldest call on, calls without any restart, the
    last of which is a [journalctl] query that succeeded, then the restart
    of [systemd-networkd], then the rest; and [systemd-timesyncd] is
    restarted only when the restart of [systemd-networkd] succeeded. *)
Theorem X22_restart_after_rename (fuel : nat)
    (networkCfg : option SystemNetworkConfig) (timeout : Duration) (h : Hist) :
  exists ext,
    snd (ApplyNetworkConfiguration fuel networkCfg timeout h) = (ext ++ h)%list
    /\ forall unit,
         In (systemd_RestartUnit unit) ext ->
         exists later past out,
           ext = (later ++ systemd_RestartUnit "systemd-networkd"
                           :: journal :: past)%list
           /\ commandResult (journal :: past ++ h)%list = inl out
           /\ (forall unit', ~ In (systemd_RestartUnit unit') (journal :: past))
           /\ (In (systemd_RestartUnit "systemd-timesyncd") ext ->
               status (systemd_RestartUnit "systemd-networkd"
                       :: journal :: past ++ h)%list = None).
Proof.
  unfold ApplyNetworkConfiguration.
  destruct (ValidateNetworkConfiguration networkCfg) as [err|].
  { exists []. split; [reflexivity | intros unit []]. }
  destruct networkCfg as [cfg|]; [|exists []; split; [reflexivity | intros unit []]].
  set (hostname := match Config.DNS cfg with Some _ => _ | None => _ end).
  unfold bind at 1. unfold perform at 1.
  destruct (status (systemd_SetHostname hostname :: h)) as [e|].
  { exists [systemd_SetHostname hostname]. split; [reflexivity|].
    intros unit [H|[]]. discriminate. }
  unfold bind at 1. unfold perform at 1.
  destruct (status (systemd_UpdateEnvironment (Config.Proxy cfg) :: _)) as [e|].
  { exists [systemd_UpdateEnvironment (Config.Proxy cfg);
            systemd_SetHostname hostname]. split; [reflexivity|].
    intros unit [H|[H|[]]]; discriminate. }
  set (h2 := systemd_UpdateEnvironment (Config.Proxy cfg)
             :: systemd_SetHostname hostname :: h).
  unfold bind at 1.
  destruct (only_generateNetworkConfiguration cfg h2) as [e3 [E3 F3]].
  destruct (generateNetworkConfiguration cfg h2) as [o3 h3].
  cbn [snd] in E3. subst h3.
  assert (Hstop3 :
    exists ext,
      (e3 ++ h2)%list = (ext ++ h)%list
      /\ forall unit, ~ In (systemd_RestartUnit unit) ext).
  { exists (e3 ++ [systemd_UpdateEnvironment (Config.Proxy cfg);
                   systemd_SetHostname hostname])%list.
    unfold h2. rewrite <- app_assoc. split; [reflexivity|].
    intros unit Hin. apply in_app_or in Hin. destruct Hin as [Hin|[H|[H|[]]]];
      try discriminate. exact (no_restart_in_file_calls _ _ F3 Hin). }
  destruct o3 as [[e|]| |];
    try (destruct Hstop3 as [ext [E N]]; exists ext; split; [exact E|];
         intros unit Hin; exfalso; exact (N _ Hin)).
  unfold bind at 1.
  assert (Honly4 : only isRenameWaitCall
                     (waitForUdevInterfaceRename fuel (5 * time.Second))).
  { unfold waitForUdevInterfaceRename.
    apply only_bind; [apply only_now; now left|].
    intros t. apply only_renameLoop. }
  destruct (Honly4 (e3 ++ h2)%list) as [e4 [E4 F4]].
  assert (Hsuccess4 :
    fst (waitForUdevInterfaceRename fuel (5 * time.Second) (e3 ++ h2)%list)
    = Returns None ->
    exists ext out,
      snd (waitForUdevInterfaceRename fuel (5 * time.Second) (e3 ++ h2)%list)
      = (journal :: ext ++ e3 ++ h2)%list
      /\ Forall isRenameWaitCall ext
      /\ commandResult (journal :: ext ++ e3 ++ h2)%list = inl out).
  { unfold waitForUdevInterfaceRename, bind, now. intros Hs.
    destruct (renameLoop_success _ _ _ Hs) as [ext [out [E [F R]]]].
    exists (ext ++ [time_Now])%list, out.
    rewrite <- !app_assoc. cbn [app]. split; [exact E|]. split; [|exact R].
    apply Forall_app. split; [assumption | repeat constructor; now left]. }
  destruct (waitForUdevInterfaceRename fuel (5 * time.Second) (e3 ++ h2)%list)
    as [o4 h4].
  cbn [fst snd] in *. subst h4.
  destruct o4 as [[e|]| |];
    try (destruct Hstop3 as [ext [E N]]; exists (e4 ++ ext)%list;
         rewrite <- app_assoc, <- E; split; [reflexivity|];
         intros unit Hin; exfalso; apply in_app_or in Hin;
         destruct Hin as [Hin|Hin];
         [exact (no_restart_in_rename_calls _ _ F4 Hin) | exact (N _ Hin)]).
  destruct (Hsuccess4 eq_refl) as [e4' [out [E4' [F4' R4]]]].
  rewrite E4'. clear E4' Hsuccess4 F4 e4 Honly4.
  set (past := (e4' ++ e3 ++ [systemd_UpdateEnvironment (Config.Proxy cfg);
                              systemd_SetHostname hostname])%list).
  assert (Epast : (e4' ++ e3 ++ h2)%list = (past ++ h)%list).
  { unfold past, h2. now rewrite <- !app_assoc. }
  rewrite Epast in *.
  assert (Npast : forall unit', ~ In (systemd_RestartUnit unit') (journal :: past)).
  { intros unit' [H|Hin]; [discriminate|]. unfold past in Hin.
    apply in_app_or in Hin. destruct Hin as [Hin|Hin];
      [exact (no_restart_in_rename_calls _ _ F4' Hin)|].
    apply in_app_or in Hin. destruct Hin as [Hin|[H|[H|[]]]];
      try discriminate. exact (no_restart_in_file_calls _ _ F3 Hin). }
  unfold bind at 1. unfold perform at 1.
  destruct (status (systemd_RestartUnit "systemd-networkd" :: _)) as [e|] eqn:E5.
  { exists (systemd_RestartUnit "systemd-networkd" :: journal :: past).
    split; [reflexivity|]. intros unit _.
    exists [], past, out. split; [reflexivity|]. split; [exact R4|].
    split; [exact Npast|]. intros [H|Hin]; [discriminate|].
    exfalso. exact (Npast _ Hin). }
  unfold bind at 1. unfold perform at 1.
  destruct (status (systemd_RestartUnit "systemd-timesyncd" :: _)) as [e|].
  { exists (systemd_RestartUnit "systemd-timesyncd"
            :: systemd_RestartUnit "systemd-networkd" :: journal :: past).
    split; [reflexivity|]. intros unit _.
    exists [systemd_RestartUnit "systemd-timesyncd"], past, out.
    split; [reflexivity|]. split; [exact R4|]. split; [exact Npast|].
    intros _. exact E5. }
  assert (Honly7 : only (isOnlineWaitCall (devicesToCheck cfg))
                     (waitForNetworkOnline fuel cfg timeout)).
  { unfold waitForNetworkOnline.
    apply only_bind; [apply only_now; now left|].
    intros t. apply only_onlineLoop. }
  match goal with
  | |- context [waitForNetworkOnline fuel cfg timeout ?past7] =>
      destruct (Honly7 past7) as [e7 [E7 F7]]
  end.
  exists (e7 ++ systemd_RestartUnit "systemd-timesyncd"
             :: systemd_RestartUnit "systemd-networkd" :: journal :: past)%list.
  rewrite E7, <- app_assoc. split; [reflexivity|]. intros unit _.
  exists (e7 ++ [systemd_RestartUnit "systemd-timesyncd"])%list, past, out.
  rewrite <- app_assoc. split; [reflexivity|]. split; [exact R4|].
  split; [exact Npast|]. intros _. exact E5.
Qed.

End ApplierResults.

(** X17 on a configuration whose only interface has no address, with a
    timeout of ten seconds. *)
Lemma X17_nothing_to_wait_for_witness :
  let host := Scenario.scripted 1 Scenario.allGood in
  let unaddressed :=
    {| Interface.Name := "eth1";
       Interface.Hwaddr := "aa:bb:cc:dd:ee:10";
       Interface.MTU := 0;
       Interface.Addresses := [];
       Interface.Routes := [];
       Interface.VLAN := 0;
       Interface.VLANTags := [];
       Interface.LLDP := false;
       Interface.RequiredForOnline := "" |} in
  waitForNetworkOnline (host := host) 1
    (Scenario.config [unaddressed] [] []) (10 * time.Second) []
  = (Returns None, [time_Now; time_Now]).
Proof.
  intros host unaddressed.
  apply (X17_nothing_to_wait_for (host := host) 0
           (Scenario.config [unaddressed] [] []) (10 * time.Second) []).
  - intros i [<-|[]]. reflexivity.
  - intros b [].
  - intros v [].
Defined.

(** X20 on scenario A, on the host where everything succeeds. *)
Lemma X20_configuration_written_witness :
  let host := Scenario.scripted 1 Scenario.allGood in
  (forall past : History unit, status (Host := host) past = None)
  /\ map (fun c => match c with
                   | os_WriteFile name _ _ => name
                   | os_RemoveAll path => "rm -r " ++ path
                   | os_Mkdir path _ => "mkdir " ++ path
                   | os_Remove name => "rm " ++ name
                   | _ => ""
                   end)
         (rev (snd (generateNetworkConfiguration (host := host)
                      Scenario.configA [])))
     = ["rm -r /run/systemd/network";
        "mkdir /run/systemd/network";
        "/run/systemd/network/00-enaabbccddeeff.link";
        "/run/systemd/network/10-breth0.netdev";
        "/run/systemd/network/10-eth0.netdev";
        "/run/systemd/network/20-eth0.network";
        "/run/systemd/network/20-vteth0.network";
        "/run/systemd/network/20-enaabbccddeeff.network";
        "/run/systemd/network/20-breth0.network";
        "rm /run/systemd/timesyncd.conf.d/incus-os.conf"].
Proof.
  intros host.
  assert (forall past : History unit, status (Host := host) past = None)
    as Hok by reflexivity.
  split; [exact Hok|].
  rewrite (X20_configuration_written (host := host) Scenario.configA
             (interfaceNetdevFiles Scenario.eth0) [] Hok eq_refl).
  reflexivity.
Defined.


(** X14 on a host where [udevadm] fails: the wait is aborted by the first
    [udevadm trigger], with the error of the command. *)
Lemma X14_rename_wait_results_witness :
  let udevDown :=
    fun h : History unit =>
      match h with
      | subprocess_RunCommandContext name _ :: _ =>
          if name =? "udevadm" then inr (foreign "exit status 1")
          else Scenario.allGood h
      | _ => inl ""
      end in
  let host := Scenario.scripted 1 udevDown in
  let trigger :=
    subprocess_RunCommandContext "udevadm" ["trigger"; "--action=add"] in
  time.After (clock (Host := host) [time_Now; time_Now])
             (clock (Host := host) [time_Now] + 5 * time.Second) = false
  /\ commandResult (Host := host) [trigger; time_Now; time_Now]
     = inr (foreign "exit status 1")
  /\ waitForUdevInterfaceRename (host := host) 12 (5 * time.Second) []
     = (Returns (Some (foreign "exit status 1")),
        [trigger; time_Now; time_Now]).
Proof.
  intros udevDown host trigger.
  assert (time.After (clock (Host := host) [time_Now; time_Now])
                     (clock (Host := host) [time_Now] + 5 * time.Second)
          = false) as Hnot by reflexivity.
  assert (commandResult (Host := host) [trigger; time_Now; time_Now]
          = inr (foreign "exit status 1")) as Hfail by reflexivity.
  split; [exact Hnot|]. split; [exact Hfail|].
  pose proof (X14_rename_wait_results (host := host) 12 (5 * time.Second) [])
    as [_ [_ [_ [Hwait Hstep]]]].
  rewrite Hwait.
  exact (proj1 (proj2 (Hstep 11%nat
                         (clock (Host := host) [time_Now] + 5 * time.Second)
                         [time_Now]) Hnot)
           (foreign "exit status 1") Hfail).
Defined.
